(** * The c-ares resolver facade of gevent ([gevent/resolver/ares.py])

    A shallow embedding of [class Resolver] and a verification of its
    dispatch/retry policy, its input coercions and its result
    normalisation.

    The DNS engine (the [cares.channel] object), the event loop and the
    native resolver of [_socket] are collaborators of the class; they are
    taken as parameters:

    - the engine is an oracle that answers a query issued on a channel at
      a given time with an outcome (a value or an exception) and tells
      whether the fork watcher fired while the caller was suspended in
      [waiter.get()];
    - the native resolver and the codecs are functions.

    Python exceptions are values of [exn]; a method of the class is a
    function of the resolver state that returns a value or an exception
    together with the new state; [while True] loops take fuel. *)

From Stdlib Require Import ZArith List String Bool Lia DecimalString.
From Stdlib Require Import DecimalZ.
Import ListNotations.
Local Open Scope string_scope.
Local Open Scope Z_scope.
Set Warnings "-register-all".

(** ** Python values that reach the resolver *)

Inductive pyval : Type :=
| PyNone
| PyInt (z : Z)
| PyText (s : string)                (* [text_type] *)
| PyBytes (b : string)               (* [bytes] *)
| PyByteArray (b : string)           (* [bytearray] *)
| PyTuple (items : list pyval)
| PyFloat (num : Z) (den : positive) (* the finite float [num / den] *)
| PyOther (tyname : string).         (* an object of some other type *)

(** [PyInt] stands for every instance of [integer_types]; a [bool] is one
    ([True] is [PyInt 1]). A float is no instance of them, of the text
    type, of [bytes] or of [tuple], and goes where the other objects go in
    every type test; it differs from them in the comparisons with an
    integer, which Python does by value. *)

(** [type(v).__name__] *)
Definition type_name (v : pyval) : string :=
  match v with
  | PyNone => "NoneType"
  | PyInt _ => "int"
  | PyText _ => "str"
  | PyBytes _ => "bytes"
  | PyByteArray _ => "bytearray"
  | PyTuple _ => "tuple"
  | PyFloat _ _ => "float"
  | PyOther n => n
  end.

(** [str(n)] for an integer. *)
Definition str_of_int (n : Z) : string := NilEmpty.string_of_int (Z.to_int n).

(** ** Exceptions *)

Inductive exn : Type :=
| gaierror (code : Z) (msg : string) (errno : Z)
| herror (code : Z) (msg : string)
| error (msg : string)                       (* [_socket.error] *)
| TypeError (msg : string)
| OverflowError (msg : string)
| IndexError (msg : string)
| AttributeError (msg : string)
| InvalidIP (msg : string)
| OtherError (kind msg : string).

(** [gaierror(code, msg)]: the two-argument constructor of an [OSError]
    stores its first argument in [errno]. *)
Definition new_gaierror (code : Z) (msg : string) : exn := gaierror code msg code.

(** [err.errno = v] *)
Definition set_errno (e : exn) (v : Z) : exn :=
  match e with
  | gaierror c m _ => gaierror c m v
  | _ => e
  end.

Inductive res (A : Type) : Type :=
| Ok (v : A)
| Raise (e : exn).
Arguments Ok {A} v.
Arguments Raise {A} e.

(** ** Constants of the socket API

    [AF_UNSPEC], [AF_INET], [SOCK_STREAM], [SOCK_DGRAM], [SOL_TCP],
    [SOL_UDP] and [AI_NUMERICHOST] have the same value on every platform
    gevent supports. [AF_INET6], [EAI_NONAME], [PY3] and [MAC] depend on
    the platform and are fields of [platform]. So is [object_gt v n], the
    answer of the interpreter to [v > n] for an object [v] that is no
    number: it calls the methods of the object, and for an object without
    them Python 2 has a fixed order where Python 3 raises [TypeError]. *)

Definition AF_UNSPEC : Z := 0.
Definition AF_INET : Z := 2.
Definition SOCK_STREAM : Z := 1.
Definition SOCK_DGRAM : Z := 2.
Definition SOL_TCP : Z := 6.
Definition SOL_UDP : Z := 17.
Definition AI_NUMERICHOST : Z := 4.

Record platform : Type := {
  PY3 : bool;
  MAC : bool;
  EAI_NONAME : Z;
  AF_INET6 : Z;
  object_gt : pyval -> Z -> res bool
}.

(** ** Results of the engine *)

(** One record [(family, socktype, proto, canonname, sockaddr)]. *)
Record addrinfo : Type := {
  ai_family : Z;
  ai_socktype : Z;
  ai_proto : Z;
  ai_canonname : string;
  ai_sockaddr : list pyval
}.

(** [(name, aliases, addresses)] *)
Record hostent : Type := {
  h_name : string;
  h_aliases : list string;
  h_addrs : list string
}.

Definition handle := nat.
Definition waiter := nat.

Inductive query : Type :=
| Qgethostbyname (hostname : string) (family : Z)
| Qgetaddrinfo (host : string) (port : pyval) (family socktype proto flags : Z)
| Qgethostbyaddr (ip : pyval)
| Qgetnameinfo (address : list pyval) (flags : Z).

(** What the engine hands back for one query: the outcome delivered to the
    waiter, and the process id the fork watcher observed if it fired
    while the caller was suspended. *)
Record reply (A : Type) : Type := {
  outcome : res A;
  forked : option Z
}.
Arguments outcome {A} r.
Arguments forked {A} r.

Record engine : Type := {
  eng_gethostbyname : nat -> handle -> string -> Z -> reply hostent;
  eng_getaddrinfo :
    nat -> handle -> string -> pyval -> Z -> Z -> Z -> Z -> reply (list addrinfo);
  eng_gethostbyaddr : nat -> handle -> pyval -> reply hostent;
  eng_getnameinfo :
    nat -> handle -> list pyval -> Z -> reply (option string * option string)
}.

(** ** The resolver and the part of the world it touches *)

Inductive event : Type :=
| EvQuery (h : handle) (w : waiter) (q : query)   (* an engine call *)
| EvClear (w : waiter).                           (* [waiter.clear()] *)

Record state : Type := {
  cares : option handle;        (* [self.cares] *)
  pid : Z;                      (* [self.pid] *)
  watching : bool;              (* [self.fork_watcher] is started *)
  next_handle : handle;         (* identity of the next channel built *)
  next_waiter : waiter;         (* identity of the next [Waiter] built *)
  callbacks : list handle;      (* [destroy] calls queued with [run_callback] *)
  clock : nat;                  (* engine calls issued so far *)
  trace : list event            (* most recent first *)
}.

Definition M (A : Type) : Type := state -> res A * state.

Definition ret {A} (v : A) : M A := fun st => (Ok v, st).
Definition raise {A} (e : exn) : M A := fun st => (Raise e, st).
Definition lift {A} (r : res A) : M A := fun st => (r, st).
Definition bind {A B} (m : M A) (k : A -> M B) : M B :=
  fun st =>
    match m st with
    | (Ok v, st') => k v st'
    | (Raise e, st') => (Raise e, st')
    end.

Notation "x <- m ;; k" := (bind m (fun x => k))
  (at level 61, m at next level, right associativity).

(** [a is b] on the channel attribute. *)
Definition same_handle (a b : option handle) : bool :=
  match a, b with
  | None, None => true
  | Some x, Some y => Nat.eqb x y
  | _, _ => false
  end.

(** [self.cares_class(hub.loop, **kwargs)] *)
Definition new_channel (st : state) : handle * state :=
  (next_handle st,
   {| cares := cares st; pid := pid st; watching := watching st;
      next_handle := S (next_handle st); next_waiter := next_waiter st;
      callbacks := callbacks st; clock := clock st; trace := trace st |}).

(** [Resolver.__init__] in a process [p]. *)
Definition init (p : Z) : state :=
  {| cares := Some O; pid := p; watching := true;
     next_handle := 1%nat; next_waiter := O;
     callbacks := []; clock := O; trace := [] |}.

(** [Resolver._on_fork], when [os.getpid()] returns [p]. *)
Definition _on_fork (p : Z) (st : state) : state :=
  if negb (p =? pid st) then
    match cares st with
    | Some old =>
        let (h, st1) := new_channel st in
        {| cares := Some h; pid := p; watching := watching st1;
           next_handle := next_handle st1; next_waiter := next_waiter st1;
           callbacks := callbacks st1 ++ [old];
           clock := clock st1; trace := trace st1 |}
    | None => st
    end
  else st.

(** [Resolver.close] *)
Definition close (st : state) : state :=
  let st1 :=
    match cares st with
    | Some h =>
        {| cares := None; pid := pid st; watching := watching st;
           next_handle := next_handle st; next_waiter := next_waiter st;
           callbacks := callbacks st ++ [h];
           clock := clock st; trace := trace st |}
    | None => st
    end in
  {| cares := cares st1; pid := pid st1; watching := false;
     next_handle := next_handle st1; next_waiter := next_waiter st1;
     callbacks := callbacks st1; clock := clock st1; trace := trace st1 |}.

(** [Waiter(self.hub)] *)
Definition new_waiter : M waiter :=
  fun st =>
    (Ok (next_waiter st),
     {| cares := cares st; pid := pid st; watching := watching st;
        next_handle := next_handle st; next_waiter := S (next_waiter st);
        callbacks := callbacks st; clock := clock st; trace := trace st |}).

Definition log (ev : event) (st : state) : state :=
  {| cares := cares st; pid := pid st; watching := watching st;
     next_handle := next_handle st; next_waiter := next_waiter st;
     callbacks := callbacks st; clock := clock st; trace := ev :: trace st |}.

Definition tick (st : state) : state :=
  {| cares := cares st; pid := pid st; watching := watching st;
     next_handle := next_handle st; next_waiter := next_waiter st;
     callbacks := callbacks st; clock := S (clock st); trace := trace st |}.

(** [waiter.clear()] *)
Definition waiter_clear (w : waiter) : M unit :=
  fun st => (Ok tt, log (EvClear w) st).

(** The state once the caller resumes from [waiter.get()]: the call is on
    record, and the fork watcher has run if it fired in between. *)
Definition resume {A} (h : handle) (w : waiter) (q : query) (r : reply A)
  (st : state) : state :=
  let st1 := tick (log (EvQuery h w q) st) in
  match forked r with
  | Some p => if watching st1 then _on_fork p st1 else st1
  | None => st1
  end.

(** [ch.method(waiter, ...)] followed by [waiter.get()], for the channel
    attribute value [ch]. *)
Definition engine_call {A} (ch : option handle) (w : waiter) (q : query)
  (ask : nat -> handle -> reply A) : M A :=
  fun st =>
    match ch with
    | None =>
        (Raise (AttributeError "'NoneType' object has no attribute"), st)
    | Some h =>
        let r := ask (clock st) h in
        (outcome r, resume h w q r st)
    end.

(** The state when a method that builds a waiter in [st], issues [q] on
    channel [h] and waits, resumes with reply [r]. *)
Definition after_query {A} (st : state) (h : handle) (q : query) (r : reply A)
  : state :=
  resume h (next_waiter st) q r (snd (new_waiter st)).

(** Engine calls on record, by kind. *)
Definition is_reverse (ev : event) : bool :=
  match ev with EvQuery _ _ (Qgethostbyaddr _) => true | _ => false end.

Definition is_forward (ev : event) : bool :=
  match ev with EvQuery _ _ (Qgetaddrinfo _ _ _ _ _ _) => true | _ => false end.

Definition reverse_queries (tr : list event) : nat :=
  List.length (filter is_reverse tr).

Definition forward_queries (tr : list event) : nat :=
  List.length (filter is_forward tr).

(** ** Sample platforms and collaborators, for concrete runs *)

(** [v > n] on Python 3, for [None], text, bytes and tuples. *)
Definition gt_unordered (v : pyval) (_ : Z) : res bool :=
  Raise (TypeError
           (String.append "'>' not supported between instances of '"
              (String.append (type_name v) "' and 'int'"))).

(** [v > n] on Python 2 for the same objects: [None] is below every
    number, the others are above. *)
Definition gt_by_type (v : pyval) (_ : Z) : res bool :=
  Ok (match v with PyNone => false | _ => true end).

Definition linux_py3 : platform :=
  {| PY3 := true; MAC := false; EAI_NONAME := -2; AF_INET6 := 10;
     object_gt := gt_unordered |}.

Definition linux_py2 : platform :=
  {| PY3 := false; MAC := false; EAI_NONAME := -2; AF_INET6 := 10;
     object_gt := gt_by_type |}.

(** [1.5] and [2097152.0] *)
Definition one_and_a_half : pyval := PyFloat 3 2.
Definition two_to_the_21 : pyval := PyFloat 2097152 1.

(** A reply with no fork in between. *)
Definition quiet {A} (o : res A) : reply A := {| outcome := o; forked := None |}.

(** A reply during which the process was forked into process [p]. *)
Definition after_fork {A} (p : Z) (o : res A) : reply A :=
  {| outcome := o; forked := Some p |}.

(** A native resolver that knows no name. *)
Definition native_none (_ _ : pyval) (_ _ _ _ : Z) : res (list addrinfo) :=
  Raise (gaierror (-2) "Name or service not known" (-2)).

Definition native_host_none (_ : string) : res hostent :=
  Raise (herror 1 "Unknown host").

(** ASCII text encodes to itself under both codecs. *)
Definition encode_ascii (_ : string) (s : string) : res string := Ok s.

(** [_resolve_special] on a name that is not special. *)
Definition resolve_plain (hostname : pyval) (_ : Z) : res pyval := Ok hostname.

(** A native resolver that answers with an empty list. *)
Definition native_empty (_ _ : pyval) (_ _ _ _ : Z) : res (list addrinfo) :=
  Ok [].

(** An engine record for an IPv4 address, socket type and protocol unset,
    as c-ares 1.16 delivers them. *)
Definition record_v4 (address : string) (port : Z) : addrinfo :=
  {| ai_family := AF_INET; ai_socktype := 0; ai_proto := 0;
     ai_canonname := ""; ai_sockaddr := [PyText address; PyInt port] |}.

Definition example_hostent : hostent :=
  {| h_name := "example.com"; h_aliases := [];
     h_addrs := ["93.184.216.34"; "93.184.216.35"] |}.

(** An engine whose answers depend on the time of the call only. *)
Definition engine_of
  (hbn : nat -> reply hostent)
  (gai : nat -> reply (list addrinfo))
  (hba : nat -> reply hostent)
  (gni : nat -> reply (option string * option string)) : engine :=
  {| eng_gethostbyname := fun t _ _ _ => hbn t;
     eng_getaddrinfo := fun t _ _ _ _ _ _ _ => gai t;
     eng_gethostbyaddr := fun t _ _ => hba t;
     eng_getnameinfo := fun t _ _ _ => gni t |}.

Definition host_not_found : exn := herror 1 "Host not found".
Definition try_again : exn := herror 2 "Try again".
Definition eai_again : exn := gaierror (-3) "Temporary failure" (-3).

(** Every query fails or comes back empty; nothing forks. *)
Definition engine_nothing : engine :=
  engine_of (fun _ => quiet (Raise host_not_found))
            (fun _ => quiet (Ok []))
            (fun _ => quiet (Raise (InvalidIP "b'example.com'")))
            (fun _ => quiet (Ok (Some "example.com", None))).

(** Every query succeeds with one record. *)
Definition engine_one : engine :=
  engine_of (fun _ => quiet (Ok example_hostent))
            (fun _ => quiet (Ok [record_v4 "93.184.216.34" 80]))
            (fun t => match t with
                      | O => quiet (Raise (InvalidIP "b'example.com'"))
                      | _ => quiet (Ok example_hostent)
                      end)
            (fun _ => quiet (Ok (Some "example.com", None))).

(** Address-info queries come back with two records. *)
Definition engine_two : engine :=
  engine_of (fun _ => quiet (Raise try_again))
            (fun _ => quiet (Ok [record_v4 "93.184.216.34" 80;
                                 record_v4 "93.184.216.35" 80]))
            (fun _ => quiet (Raise try_again))
            (fun _ => quiet (Raise eai_again)).

(** Every query fails, and the first one comes back in a child process. *)
Definition engine_forked : engine :=
  engine_of (fun t => match t with
                      | O => after_fork 101 (Raise host_not_found)
                      | _ => quiet (Raise host_not_found)
                      end)
            (fun t => match t with
                      | O => after_fork 101 (Raise eai_again)
                      | _ => quiet (Raise eai_again)
                      end)
            (fun t => match t with
                      | O => after_fork 101 (Raise try_again)
                      | _ => quiet (Raise try_again)
                      end)
            (fun _ => quiet (Raise eai_again)).

(** The forward lookup answers differently for [AF_INET] and for other
    families. *)
Definition engine_by_family : engine :=
  {| eng_gethostbyname := fun _ _ _ family =>
       if family =? AF_INET then quiet (Ok example_hostent)
       else quiet (Ok {| h_name := "example.com"; h_aliases := [];
                         h_addrs := ["2606:2800:220:1::1"] |});
     eng_getaddrinfo := fun _ _ _ _ _ _ _ _ => quiet (Ok []);
     eng_gethostbyaddr := fun _ _ _ => quiet (Raise host_not_found);
     eng_getnameinfo := fun _ _ _ _ => quiet (Raise eai_again) |}.

(** Every query succeeds, and every answer comes back in a child
    process. *)
Definition engine_forked_ok : engine :=
  engine_of (fun _ => after_fork 101 (Ok example_hostent))
            (fun _ => after_fork 101 (Ok [record_v4 "93.184.216.34" 80]))
            (fun _ => after_fork 101 (Ok example_hostent))
            (fun _ => after_fork 101 (Ok (Some "example.com", Some "http"))).


(** Forward lookups come back with a name and no address. *)
Definition engine_no_address : engine :=
  engine_of (fun _ => quiet (Ok {| h_name := "example.com"; h_aliases := [];
                                   h_addrs := [] |}))
            (fun _ => quiet (Ok []))
            (fun _ => quiet (Raise host_not_found))
            (fun _ => quiet (Ok (Some "example.com", Some ""))).

(** Address-info queries come back with one IPv6 record. *)
Definition engine_v6 : engine :=
  engine_of (fun _ => quiet (Raise host_not_found))
            (fun _ => quiet (Ok [{| ai_family := 10; ai_socktype := 0;
                                    ai_proto := 0; ai_canonname := "";
                                    ai_sockaddr := [PyText "2606:2800:220:1::1";
                                                    PyInt 80; PyInt 0; PyInt 0] |}]))
            (fun _ => quiet (Raise host_not_found))
            (fun _ => quiet (Ok (Some "example.com", Some "http"))).


(** The name-info query comes back with a node and an empty service. *)
Definition engine_blank_service : engine :=
  engine_of (fun _ => quiet (Raise host_not_found))
            (fun _ => quiet (Ok [record_v4 "93.184.216.34" 80]))
            (fun _ => quiet (Raise host_not_found))
            (fun _ => quiet (Ok (Some "example.com", Some ""))).

(** The first address-info query comes back empty in a child process;
    the later ones find one record. *)
Definition engine_empty_then_one : engine :=
  engine_of (fun _ => quiet (Raise host_not_found))
            (fun t => match t with
                      | O => after_fork 101 (Ok [])
                      | _ => quiet (Ok [record_v4 "93.184.216.34" 80])
                      end)
            (fun _ => quiet (Raise host_not_found))
            (fun _ => quiet (Ok (Some "example.com", Some "http"))).

(** The first name-info query (the second call in all) completes with
    no service in a child process; the later ones name the service. *)
Definition engine_service_after_fork : engine :=
  engine_of (fun _ => quiet (Raise host_not_found))
            (fun _ => quiet (Ok [record_v4 "93.184.216.34" 80]))
            (fun _ => quiet (Raise host_not_found))
            (fun t => match t with
                      | 1%nat => after_fork 101 (Ok (Some "example.com", None))
                      | _ => quiet (Ok (Some "example.com", Some "http"))
                      end).

(** ** How a method changes the state

    A method touches the state in four ways only: it builds a waiter, it
    puts an event on record, it lets the clock advance over an engine
    call that came back with no fork, or it lets the clock advance over
    one during which the fork watcher ran. [ok] says at which times of
    asking the engine a fork may be seen. *)
Inductive reach (ok : nat -> Prop) (st0 : state) : state -> Prop :=
| reach_refl : reach ok st0 st0
| reach_waiter st : reach ok st0 st -> reach ok st0 (snd (new_waiter st))
| reach_log ev st : reach ok st0 st -> reach ok st0 (log ev st)
| reach_tick st : reach ok st0 st -> reach ok st0 (tick st)
| reach_fork p st :
    reach ok st0 st -> ok (clock st) -> reach ok st0 (_on_fork p (tick st)).

(** A computation whose final state is reached in those ways. *)
Definition keeps {A} (ok : nat -> Prop) (m : M A) : Prop :=
  forall st, reach ok st (snd (m st)).

(** The channels and the queue of [destroy] callbacks: every identity
    handed out is below [next_handle], no channel is queued twice, and
    the channel in use is not queued. *)
Definition channel_inv (st : state) : Prop :=
  NoDup (callbacks st) /\
  (forall h, In h (callbacks st) -> (h < next_handle st)%nat) /\
  (forall h, cares st = Some h ->
             (h < next_handle st)%nat /\ ~ In h (callbacks st)).





(** ** The keyword arguments of [Resolver.__init__]

    A setting of [config.settings]: whether it is an [AresSettingMixin],
    its [kwarg_name], and what [setting.get()] returns. The keyword
    arguments are a dict, kept in insertion order. *)
Record setting : Type := {
  is_ares : bool;
  kwarg_name : string;
  setting_get : option pyval
}.

Definition dict := list (string * pyval).

(** [d.get(k)] *)
Fixpoint dict_get (k : string) (d : dict) : option pyval :=
  match d with
  | [] => None
  | (k', v) :: d' => if String.eqb k k' then Some v else dict_get k d'
  end.

(** [d.setdefault(k, v)] *)
Definition setdefault (k : string) (v : pyval) (d : dict) : dict :=
  match dict_get k d with
  | Some _ => d
  | None => (d ++ [(k, v)])%list
  end.

(** The [kwargs] with which [__init__] builds the channel and which it
    keeps in [self.params]. *)
Definition init_kwargs (use_environ : bool) (settings : list setting)
  (kwargs : dict) : dict :=
  if use_environ then
    fold_left
      (fun kwargs setting =>
         if is_ares setting then
           match setting_get setting with
           | Some value => setdefault (kwarg_name setting) value kwargs
           | None => kwargs
           end
         else kwargs)
      settings kwargs
  else kwargs.

(** The first setting that can give a default for [k]. *)
Definition default_for (k : string) (settings : list setting) : option pyval :=
  match find (fun s => is_ares s && String.eqb (kwarg_name s) k
                       && match setting_get s with Some _ => true | None => false end)
             settings with
  | Some s => setting_get s
  | None => None
  end.

(** Two c-ares settings and one that is not, as [config.settings] may
    hold them. *)
Definition sample_settings : list setting :=
  [ {| is_ares := true; kwarg_name := "timeout"; setting_get := None |};
    {| is_ares := false; kwarg_name := "servers";
       setting_get := Some (PyText "192.0.2.1") |};
    {| is_ares := true; kwarg_name := "servers";
       setting_get := Some (PyText "8.8.8.8") |};
    {| is_ares := true; kwarg_name := "tries"; setting_get := Some (PyInt 3) |} ].

(** A channel identity is never handed out twice. *)
Definition wf (st : state) : Prop :=
  forall h, cares st = Some h -> (h < next_handle st)%nat.

(** ** The methods of [Resolver] *)

Section Resolver.

Variable P : platform.
Variable E : engine.

(** [_socket.getaddrinfo(host, port, family, socktype, proto, flags)] *)
Variable native_getaddrinfo :
  pyval -> pyval -> Z -> Z -> Z -> Z -> res (list addrinfo).

(** [_socket.gethostbyname_ex(hostname)] *)
Variable native_gethostbyname_ex : string -> res hostent.

(** [text.encode(codec)], by codec name. *)
Variable encode : string -> string -> res string.

(** [gevent.resolver._resolve_special(hostname, family)] *)
Variable _resolve_special : pyval -> Z -> res pyval.

Definition HOSTNAME_ENCODING : string := if PY3 P then "idna" else "ascii".

Definition _LOCAL_HOSTNAMES : list string :=
  ["localhost"; "ip6-localhost"].

Definition _LOCAL_AND_BROADCAST_HOSTNAMES : list string :=
  _LOCAL_HOSTNAMES ++ ["255.255.255.255"; "<broadcast>"].

Definition EAI_NONAME_MSG : string :=
  if MAC P then "nodename nor servname provided, or not known"
  else "Name or service not known".

(** [str(type(v))]: Python 3 writes [<class 'int'>], Python 2
    [<type 'int'>]. *)
Definition type_repr (v : pyval) : string :=
  String.append (if PY3 P then "<class '" else "<type '")
                (String.append (type_name v) "'>").

(** [name in names], on byte strings. *)
Definition mem (name : string) (names : list string) : bool :=
  existsb (String.eqb name) names.

(** [if isinstance(v, text_type): v = v.encode(codec)] *)
Definition encode_if_text (codec : string) (v : pyval) : res pyval :=
  match v with
  | PyText s =>
      match encode codec s with
      | Ok b => Ok (PyBytes b)
      | Raise e => Raise e
      end
  | _ => Ok v
  end.

Definition _hostname_to_bytes (hostname : pyval) : res string :=
  match hostname with
  | PyText s => encode HOSTNAME_ENCODING s
  | PyBytes b => Ok b
  | PyByteArray b => Ok b
  | _ =>
      Raise (TypeError
               (String.append "Expected str, bytes or bytearray, not "
                              (type_name hostname)))
  end.

(** The [while True] loop of [gethostbyname_ex]. *)
Fixpoint gethostbyname_ex_loop (fuel : nat) (hostname : string) (family : Z)
  (st : state) : option (res hostent * state) :=
  match fuel with
  | O => None
  | S fuel' =>
      let ares := cares st in
      let attempt :=
        waiter <- new_waiter ;;
        result <- engine_call ares waiter (Qgethostbyname hostname family)
                    (fun t h => eng_gethostbyname E t h hostname family) ;;
        match h_addrs result with
        | [] => raise (herror (EAI_NONAME P) EAI_NONAME_MSG)
        | _ => ret result
        end in
      match attempt st with
      | (Raise (herror code msg), st') =>
          if same_handle ares (cares st') then
            if code =? 1 then
              Some (Raise (new_gaierror (EAI_NONAME P) EAI_NONAME_MSG), st')
            else Some (Raise (herror code msg), st')
          else gethostbyname_ex_loop fuel' hostname family st'
      | (r, st') => Some (r, st')
      end
  end.

Definition gethostbyname_ex (fuel : nat) (hostname : pyval) (family : option Z)
  (st : state) : option (res hostent * state) :=
  let family := match family with Some f => f | None => AF_INET end in
  match _hostname_to_bytes hostname with
  | Raise e => Some (Raise e, st)
  | Ok hostname =>
      if mem hostname _LOCAL_AND_BROADCAST_HOSTNAMES then
        Some (native_gethostbyname_ex hostname, st)
      else gethostbyname_ex_loop fuel hostname family st
  end.

Definition gethostbyname (fuel : nat) (hostname : pyval) (family : option Z)
  (st : state) : option (res string * state) :=
  let family := match family with Some f => f | None => AF_INET end in
  match _resolve_special hostname family with
  | Raise e => Some (Raise e, st)
  | Ok hostname =>
      match gethostbyname_ex fuel hostname (Some family) st with
      | None => None
      | Some (Raise e, st') => Some (Raise e, st')
      | Some (Ok result, st') =>
          match h_addrs result with
          | a :: _ => Some (Ok a, st')
          | [] => Some (Raise (IndexError "list index out of range"), st')
          end
      end
  end.

(** The pairs used to fill in the socket type and protocol that the
    engine leaves out. *)
Definition hard_type_proto (socktype proto : Z) : list (Z * Z) :=
  if negb (socktype =? 0) then
    [(socktype, if socktype =? SOCK_STREAM then SOL_TCP else SOL_UDP)]
  else if negb (proto =? 0) then
    [(if proto =? SOL_TCP then SOCK_STREAM else SOCK_DGRAM, proto)]
  else
    [(SOCK_STREAM, SOL_TCP); (SOCK_DGRAM, SOL_UDP)].

Definition fill_in (r : addrinfo) (hard : Z * Z) : addrinfo :=
  {| ai_family := ai_family r;
     ai_socktype := if ai_socktype r =? 0 then fst hard else ai_socktype r;
     ai_proto := if ai_proto r =? 0 then snd hard else ai_proto r;
     ai_canonname := ai_canonname r;
     ai_sockaddr := ai_sockaddr r |}.

Definition backfill (socktype proto : Z) (result : list addrinfo)
  : list addrinfo :=
  flat_map (fun r => map (fill_in r) (hard_type_proto socktype proto)) result.

(** The port as the engine wants it. *)
Definition coerce_port (port : pyval) : res pyval :=
  match port with
  | PyText _ => encode_if_text "ascii" port
  | PyInt n => if n =? 0 then Ok PyNone else Ok (PyBytes (str_of_int n))
  | _ => Ok port
  end.

Definition _getaddrinfo (host port : pyval) (family socktype proto flags : Z)
  (fill_in_type_proto : bool) : M (list addrinfo) :=
  host <- lift (encode_if_text "idna" host) ;;
  match host with
  | PyBytes b =>
      if negb (Z.land flags AI_NUMERICHOST =? 0) || mem b _LOCAL_HOSTNAMES then
        lift (native_getaddrinfo host port family socktype proto flags)
      else
        port <- lift (coerce_port port) ;;
        waiter <- new_waiter ;;
        result <- (fun st =>
                     engine_call (cares st) waiter
                       (Qgetaddrinfo b port family socktype proto flags)
                       (fun t h =>
                          eng_getaddrinfo E t h b port family socktype proto flags)
                       st) ;;
        match result with
        | [] => raise (new_gaierror (EAI_NONAME P) EAI_NONAME_MSG)
        | _ =>
            if fill_in_type_proto then ret (backfill socktype proto result)
            else ret result
        end
  | _ => lift (native_getaddrinfo host port family socktype proto flags)
  end.

Fixpoint getaddrinfo (fuel : nat) (host port : pyval)
  (family socktype proto flags : Z) (st : state)
  : option (res (list addrinfo) * state) :=
  match fuel with
  | O => None
  | S fuel' =>
      let ares := cares st in
      match _getaddrinfo host port family socktype proto flags true st with
      | (Raise (gaierror c m n), st') =>
          if same_handle ares (cares st') then Some (Raise (gaierror c m n), st')
          else getaddrinfo fuel' host port family socktype proto flags st'
      | (r, st') => Some (r, st')
      end
  end.

(** [a == b] where [b] is a byte string. *)
Definition eq_bytes (a : pyval) (b : string) : bool :=
  match a with
  | PyBytes x => String.eqb x b
  | PyByteArray x => String.eqb x b
  | _ => false
  end.

Definition _gethostbyaddr (ip_address : pyval) : M hostent :=
  ip_address <- lift (_hostname_to_bytes ip_address) ;;
  waiter <- new_waiter ;;
  fun st =>
    match engine_call (cares st) waiter (Qgethostbyaddr (PyBytes ip_address))
            (fun t h => eng_gethostbyaddr E t h (PyBytes ip_address)) st with
    | (Raise (InvalidIP m), st1) =>
        (result <- _getaddrinfo (PyBytes ip_address) PyNone
                     AF_UNSPEC SOCK_DGRAM 0 0 true ;;
         match result with
         | [] => raise (InvalidIP m)
         | first :: _ =>
             match ai_sockaddr first with
             | [] => raise (IndexError "tuple index out of range")
             | _ip_address :: _ =>
                 _ip_address <- lift (encode_if_text "ascii" _ip_address) ;;
                 if eq_bytes _ip_address ip_address then raise (InvalidIP m)
                 else
                   _ <- waiter_clear waiter ;;
                   fun st2 =>
                     engine_call (cares st2) waiter (Qgethostbyaddr _ip_address)
                       (fun t h => eng_gethostbyaddr E t h _ip_address) st2
             end
         end) st1
    | (r, st1) => (r, st1)
    end.

Fixpoint gethostbyaddr_loop (fuel : nat) (ip_address : pyval) (st : state)
  : option (res hostent * state) :=
  match fuel with
  | O => None
  | S fuel' =>
      let ares := cares st in
      match _gethostbyaddr ip_address st with
      | (Raise (herror c m), st') =>
          if same_handle ares (cares st') then Some (Raise (herror c m), st')
          else gethostbyaddr_loop fuel' ip_address st'
      | (r, st') => Some (r, st')
      end
  end.

Definition gethostbyaddr (fuel : nat) (ip_address : pyval) (st : state)
  : option (res hostent * state) :=
  match _resolve_special ip_address AF_UNSPEC with
  | Raise e => Some (Raise e, st)
  | Ok ip_address => gethostbyaddr_loop fuel ip_address st
  end.

(** [v is None] *)
Definition is_None {A} (v : option A) : bool :=
  match v with None => true | Some _ => false end.

(** [service or '0'] *)
Definition service_or_0 (service : option string) : string :=
  match service with
  | None => "0"
  | Some EmptyString => "0"
  | Some s => s
  end.

(** The address handed to the engine's [getnameinfo]: the resolved one,
    checked against the caller's tuple for IPv4, with the caller's flow
    info and scope id for IPv6. *)
Definition shape_address (r : addrinfo) (sockaddr : list pyval)
  : res (list pyval) :=
  if ai_family r =? AF_INET then
    if negb (Nat.eqb (List.length sockaddr) 2) then
      Raise (error "IPv4 sockaddr must be 2 tuple")
    else Ok (ai_sockaddr r)
  else if ai_family r =? AF_INET6 P then
    Ok (firstn 2 (ai_sockaddr r) ++ skipn 2 sockaddr)%list
  else Ok (ai_sockaddr r).

Definition _getnameinfo (hostname port : pyval) (sockaddr : list pyval)
  (flags : Z) : M (option string * string) :=
  result <- _getaddrinfo hostname port AF_UNSPEC SOCK_DGRAM 0 0 false ;;
  match result with
  | [r] =>
      address <- lift (shape_address r sockaddr) ;;
      waiter <- new_waiter ;;
      ns <- (fun st =>
               engine_call (cares st) waiter (Qgetnameinfo address flags)
                 (fun t h => eng_getnameinfo E t h address flags) st) ;;
      let (node, service) := ns in
      if is_None service && PY3 P then
        let err := new_gaierror (EAI_NONAME P) EAI_NONAME_MSG in
        raise (set_errno err (EAI_NONAME P))
      else ret (node, service_or_0 service)
  | _ => raise (error "sockaddr resolved to multiple addresses")
  end.

Fixpoint getnameinfo_loop (fuel : nat) (address port : pyval)
  (sockaddr : list pyval) (flags : Z) (st : state)
  : option (res (option string * string) * state) :=
  match fuel with
  | O => None
  | S fuel' =>
      let ares := cares st in
      match _getnameinfo address port sockaddr flags st with
      | (Raise (gaierror c m n), st') =>
          if same_handle ares (cares st') then Some (Raise (gaierror c m n), st')
          else getnameinfo_loop fuel' address port sockaddr flags st'
      | (r, st') => Some (r, st')
      end
  end.

(** The test [flowinfo > 0xfffff] on [sockaddr[2]], for the items after
    host and port. Integers, bools and floats compare by value; for any
    other object the interpreter decides, and may raise. *)
Definition check_flowinfo (rest : list pyval) : res unit :=
  match rest with
  | [] => Ok tt
  | flowinfo :: _ =>
      match match flowinfo with
            | PyInt n => Ok (1048575 <? n)
            | PyFloat num den => Ok (1048575 * Z.pos den <? num)
            | _ => object_gt P flowinfo 1048575
            end with
      | Ok true =>
          Raise (OverflowError "getnameinfo(): flowinfo must be 0-1048575.")
      | Ok false => Ok tt
      | Raise e => Raise e
      end
  end.

Definition getnameinfo (fuel : nat) (sockaddr flags : pyval) (st : state)
  : option (res (option string * string) * state) :=
  match flags with
  | PyInt flags =>
      match sockaddr with
      | PyTuple items =>
          match items with
          | [] => Some (Raise (IndexError "tuple index out of range"), st)
          | host :: rest =>
              match _hostname_to_bytes host with
              | Raise e => Some (Raise e, st)
              | Ok address =>
                  match rest with
                  | [] => Some (Raise (IndexError "tuple index out of range"), st)
                  | PyInt port :: rest' =>
                      let port := if 65536 <=? port then 0 else port in
                      match check_flowinfo rest' with
                      | Raise e => Some (Raise e, st)
                      | Ok _ =>
                          getnameinfo_loop fuel (PyBytes address) (PyInt port)
                            items flags st
                      end
                  | other :: _ =>
                      Some (Raise (TypeError
                                     (String.append "port must be an integer, not "
                                                    (type_repr other))), st)
                  end
              end
          end
      | _ => Some (Raise (TypeError "getnameinfo() argument 1 must be a tuple"), st)
      end
  | _ => Some (Raise (TypeError "an integer is required"), st)
  end.


(** The fork watcher fires only over engine calls asked at a time that
    [ok] allows. *)
Definition forks_within (ok : nat -> Prop) : Prop :=
  (forall t h b f p, forked (eng_gethostbyname E t h b f) = Some p -> ok t) /\
  (forall t h b port f s pr fl p,
     forked (eng_getaddrinfo E t h b port f s pr fl) = Some p -> ok t) /\
  (forall t h ip p, forked (eng_gethostbyaddr E t h ip) = Some p -> ok t) /\
  (forall t h a fl p, forked (eng_getnameinfo E t h a fl) = Some p -> ok t).

(** No fork is seen over a call asked at time [T] or later. *)
Definition quiet_from (T : nat) : Prop := forks_within (fun t => (t < T)%nat).

(** The arguments [getnameinfo] accepts. *)
Definition valid_nameinfo_args (sockaddr flags : pyval) : Prop :=
  exists host b p rest f,
    sockaddr = PyTuple (host :: PyInt p :: rest) /\ flags = PyInt f /\
    _hostname_to_bytes host = Ok b /\ check_flowinfo rest = Ok tt.

(** What one pass of the loop of [gethostbyname_ex] sees: the engine's
    outcome, with an answer that has no address turned into an [herror]. *)
Definition checked_hostent (o : res hostent) : res hostent :=
  match o with
  | Ok result =>
      match h_addrs result with
      | [] => Raise (herror (EAI_NONAME P) EAI_NONAME_MSG)
      | _ => Ok result
      end
  | Raise e => Raise e
  end.

(** ** Basic facts about handles and suspension *)

Lemma same_handle_refl (a : option handle) : same_handle a a = true.
Proof. destruct a as [h|]; simpl; auto using Nat.eqb_refl. Qed.

Lemma same_handle_true (a b : option handle) :
  same_handle a b = true <-> a = b.
Proof.
  destruct a as [x|], b as [y|]; simpl; split; intro H;
    try discriminate; try reflexivity.
  - apply Nat.eqb_eq in H. now subst.
  - injection H as ->. apply Nat.eqb_refl.
Qed.

Lemma same_handle_false (a b : option handle) :
  same_handle a b = false <-> a <> b.
Proof.
  split.
  - intros H Heq. apply same_handle_true in Heq. congruence.
  - intro H. destruct (same_handle a b) eqn:Hs; auto.
    apply same_handle_true in Hs. contradiction.
Qed.

Lemma _on_fork_trace p st : trace (_on_fork p st) = trace st.
Proof. unfold _on_fork. destruct (negb _), (cares st); reflexivity. Qed.

Lemma _on_fork_next_waiter p st : next_waiter (_on_fork p st) = next_waiter st.
Proof. unfold _on_fork. destruct (negb _), (cares st); reflexivity. Qed.

Lemma resume_trace {A} h w q (r : reply A) st :
  trace (resume h w q r st) = EvQuery h w q :: trace st.
Proof.
  unfold resume. destruct (forked r); simpl; auto.
  destruct (watching st); simpl; auto. now rewrite _on_fork_trace.
Qed.

Lemma resume_next_waiter {A} h w q (r : reply A) st :
  next_waiter (resume h w q r st) = next_waiter st.
Proof.
  unfold resume. destruct (forked r); simpl; auto.
  destruct (watching st); simpl; auto. now rewrite _on_fork_next_waiter.
Qed.

Lemma wf_init p : wf (init p).
Proof. intros h Hh. injection Hh as <-. apply Nat.lt_0_1. Qed.

Lemma wf_on_fork p st : wf st -> wf (_on_fork p st).
Proof.
  intros Hwf. unfold _on_fork.
  destruct (negb (p =? pid st)); [|exact Hwf].
  destruct (cares st) as [old|] eqn:Hc; [|exact Hwf].
  intros h Hh. simpl in Hh. injection Hh as <-. simpl. lia.
Qed.

Lemma wf_resume {A} h w q (r : reply A) st : wf st -> wf (resume h w q r st).
Proof.
  intro Hwf. unfold resume.
  destruct (forked r) as [p|]; [|exact Hwf].
  destruct (watching _); [|exact Hwf].
  now apply wf_on_fork.
Qed.

(** No fork event: the channel stays. *)
Lemma resume_quiet {A} h w q (r : reply A) st :
  forked r = None -> cares (resume h w q r st) = cares st.
Proof. unfold resume. now intros ->. Qed.

(** A fork seen by the watcher in another process swaps the channel for
    one with a new identity. *)
Lemma resume_forked {A} h w q (r : reply A) st p :
  wf st -> cares st = Some h -> watching st = true ->
  forked r = Some p -> p <> pid st ->
  cares (resume h w q r st) = Some (next_handle st) /\
  cares (resume h w q r st) <> cares st.
Proof.
  intros Hwf Hc Hw Hf Hp. unfold resume. rewrite Hf. simpl. rewrite Hw.
  unfold _on_fork. simpl.
  destruct (Z.eqb_spec p (pid st)) as [|_]; [contradiction|]. simpl.
  rewrite Hc. simpl. split; auto.
  intro Heq. injection Heq as Heq. specialize (Hwf h Hc). lia.
Qed.

(** ** [_getaddrinfo] on its two paths *)

Lemma _getaddrinfo_native b port family socktype proto flags fill st :
  negb (Z.land flags AI_NUMERICHOST =? 0) || mem b _LOCAL_HOSTNAMES = true ->
  _getaddrinfo (PyBytes b) port family socktype proto flags fill st =
  (native_getaddrinfo (PyBytes b) port family socktype proto flags, st).
Proof.
  intro H. unfold _getaddrinfo, bind, lift. cbn [encode_if_text]. rewrite H.
  now destruct (native_getaddrinfo _ _ _ _ _ _).
Qed.

Lemma _getaddrinfo_engine b port port' family socktype proto flags fill st h :
  Z.land flags AI_NUMERICHOST = 0 -> mem b _LOCAL_HOSTNAMES = false ->
  coerce_port port = Ok port' -> cares st = Some h ->
  let q := Qgetaddrinfo b port' family socktype proto flags in
  let r := eng_getaddrinfo E (clock st) h b port' family socktype proto flags in
  _getaddrinfo (PyBytes b) port family socktype proto flags fill st =
  (match outcome r with
   | Ok [] => Raise (gaierror (EAI_NONAME P) EAI_NONAME_MSG (EAI_NONAME P))
   | Ok result => Ok (if fill then backfill socktype proto result else result)
   | Raise e => Raise e
   end, after_query st h q r).
Proof.
  intros Hf Hl Hp Hc q r.
  unfold _getaddrinfo, bind, lift, ret, raise, new_waiter, engine_call, after_query.
  cbn [encode_if_text]. rewrite Hf, Hl, Hp. simpl. rewrite Hc. fold q r.
  destruct (outcome r) as [[|x l]|e]; try reflexivity.
  now destruct fill.
Qed.


Lemma getaddrinfo_step fuel host port family socktype proto flags st :
  getaddrinfo (S fuel) host port family socktype proto flags st =
  match _getaddrinfo host port family socktype proto flags true st with
  | (Raise (gaierror c m n), st') =>
      if same_handle (cares st) (cares st') then Some (Raise (gaierror c m n), st')
      else getaddrinfo fuel host port family socktype proto flags st'
  | (r, st') => Some (r, st')
  end.
Proof. reflexivity. Qed.

Lemma getaddrinfo_Ok fuel host port family socktype proto flags st out st' :
  _getaddrinfo host port family socktype proto flags true st = (Ok out, st') ->
  getaddrinfo (S fuel) host port family socktype proto flags st = Some (Ok out, st').
Proof. intro H. rewrite getaddrinfo_step, H. reflexivity. Qed.

(** An exception leaves the public wrapper at once when the channel is
    the one the call started with. *)
Lemma getaddrinfo_Raise_same fuel host port family socktype proto flags st e st' :
  _getaddrinfo host port family socktype proto flags true st = (Raise e, st') ->
  cares st' = cares st ->
  getaddrinfo (S fuel) host port family socktype proto flags st = Some (Raise e, st').
Proof.
  intros H Hc. rewrite getaddrinfo_step, H, Hc, same_handle_refl.
  now destruct e.
Qed.

Lemma mem_In b names : mem b names = true <-> In b names.
Proof.
  unfold mem. rewrite existsb_exists. split.
  - intros [x [Hin Heq]]. apply String.eqb_eq in Heq. now subst.
  - intro Hin. exists b. split; auto. apply String.eqb_refl.
Qed.

(** ** The special names (C2) *)

(** C2, amended. For address-info lookups, a host in [_LOCAL_HOSTNAMES]
    (b'localhost', b'ip6-localhost') is answered by the native resolver:
    [getaddrinfo] returns the native result as it is and leaves the state,
    and so the record of engine calls, untouched. The two broadcast names
    b'255.255.255.255' and b'<broadcast>' are not in that set: without
    [AI_NUMERICHOST] they are sent to the engine like any other name. *)
Theorem getaddrinfo_special_names
  fuel b port family socktype proto flags st :
  (In b _LOCAL_HOSTNAMES ->
   getaddrinfo (S fuel) (PyBytes b) port family socktype proto flags st =
   Some (native_getaddrinfo (PyBytes b) port family socktype proto flags, st))
  /\
  (In b ["255.255.255.255"; "<broadcast>"] ->
   forall h port',
     Z.land flags AI_NUMERICHOST = 0 ->
     coerce_port port = Ok port' -> cares st = Some h ->
     let q := Qgetaddrinfo b port' family socktype proto flags in
     let r := eng_getaddrinfo E (clock st) h b port' family socktype proto flags in
     snd (_getaddrinfo (PyBytes b) port family socktype proto flags true st)
     = after_query st h q r /\
     trace (after_query st h q r) = EvQuery h (next_waiter st) q :: trace st).
Proof.
  split.
  - intro Hin. apply mem_In in Hin.
    assert (Hn : _getaddrinfo (PyBytes b) port family socktype proto flags true st
                 = (native_getaddrinfo (PyBytes b) port family socktype proto flags, st)).
    { apply _getaddrinfo_native. rewrite Hin. apply orb_true_r. }
    destruct (native_getaddrinfo (PyBytes b) port family socktype proto flags)
      as [out|e] eqn:Hnat.
    + now apply getaddrinfo_Ok.
    + now apply getaddrinfo_Raise_same.
  - intros Hin h port' Hf Hp Hc q r.
    assert (Hl : mem b _LOCAL_HOSTNAMES = false).
    { destruct Hin as [<-|[<-|[]]]; reflexivity. }
    rewrite (_getaddrinfo_engine b port port' family socktype proto flags true st h
               Hf Hl Hp Hc).
    split; [reflexivity|]. unfold after_query. now rewrite resume_trace.
Qed.

(** ** Filling in socket type and protocol (C3) *)

Lemma backfill_nonempty socktype proto result :
  result <> [] -> backfill socktype proto result <> [].
Proof.
  destruct result as [|r l]; [congruence|]. intros _.
  unfold backfill, hard_type_proto. simpl.
  destruct (negb (socktype =? 0)); [discriminate|].
  destruct (negb (proto =? 0)); discriminate.
Qed.

Lemma flat_map_singleton {A B} (f : A -> B) (l : list A) :
  flat_map (fun x => [f x]) l = map f l.
Proof. induction l; simpl; congruence. Qed.

(** C3, amended. When the engine answers with a non-empty list,
    [getaddrinfo] returns it backfilled. With a socket type requested,
    there is one output record per engine record, and an unset type or
    protocol is filled with the requested type and the protocol that goes
    with it (TCP for [SOCK_STREAM], UDP otherwise), whatever protocol was
    requested. With only a protocol requested, it is filled with that
    protocol and the type that goes with it. With neither, every engine
    record gives two output records, filled with
    ([SOCK_STREAM], [SOL_TCP]) and ([SOCK_DGRAM], [SOL_UDP]); family,
    canonical name and socket address are those of the engine record. *)
Theorem getaddrinfo_backfill
  fuel b port port' family socktype proto flags st h result :
  Z.land flags AI_NUMERICHOST = 0 -> mem b _LOCAL_HOSTNAMES = false ->
  coerce_port port = Ok port' -> cares st = Some h ->
  let q := Qgetaddrinfo b port' family socktype proto flags in
  let r := eng_getaddrinfo E (clock st) h b port' family socktype proto flags in
  outcome r = Ok result -> result <> [] ->
  exists out,
    getaddrinfo (S fuel) (PyBytes b) port family socktype proto flags st
    = Some (Ok out, after_query st h q r) /\
    (socktype <> 0 ->
     out = map (fun rec =>
                  fill_in rec (socktype,
                               if socktype =? SOCK_STREAM then SOL_TCP else SOL_UDP))
               result) /\
    (socktype = 0 -> proto <> 0 ->
     out = map (fun rec =>
                  fill_in rec (if proto =? SOL_TCP then SOCK_STREAM else SOCK_DGRAM,
                               proto))
               result) /\
    (socktype <> 0 \/ proto <> 0 -> List.length out = List.length result) /\
    (socktype = 0 -> proto = 0 ->
     out = flat_map (fun rec => [fill_in rec (SOCK_STREAM, SOL_TCP);
                                 fill_in rec (SOCK_DGRAM, SOL_UDP)]) result) /\
    (forall rec hard,
       ai_socktype rec = 0 -> ai_proto rec = 0 ->
       fill_in rec hard =
       {| ai_family := ai_family rec; ai_socktype := fst hard;
          ai_proto := snd hard; ai_canonname := ai_canonname rec;
          ai_sockaddr := ai_sockaddr rec |}).
Proof.
  intros Hf Hl Hp Hc q r Ho Hne.
  exists (backfill socktype proto result).
  assert (Hs : socktype <> 0 ->
               backfill socktype proto result =
               map (fun rec =>
                      fill_in rec (socktype,
                                   if socktype =? SOCK_STREAM then SOL_TCP else SOL_UDP))
                   result).
  { intro Hs. unfold backfill, hard_type_proto.
    destruct (Z.eqb_spec socktype 0) as [|_]; [contradiction|]. simpl.
    apply flat_map_singleton. }
  assert (Hpr : socktype = 0 -> proto <> 0 ->
                backfill socktype proto result =
                map (fun rec =>
                       fill_in rec (if proto =? SOL_TCP then SOCK_STREAM else SOCK_DGRAM,
                                    proto))
                    result).
  { intros -> Hpr. unfold backfill, hard_type_proto. simpl.
    destruct (Z.eqb_spec proto 0) as [|_]; [contradiction|]. simpl.
    apply flat_map_singleton. }
  split; [|split; [|split; [|split; [|split]]]]; auto.
  - apply getaddrinfo_Ok.
    rewrite (_getaddrinfo_engine b port port' family socktype proto flags true st h
               Hf Hl Hp Hc).
    fold q r. rewrite Ho. destruct result; [congruence|reflexivity].
  - intros [Hs'|Hp'].
    + rewrite (Hs Hs'). apply length_map.
    + destruct (Z.eq_dec socktype 0) as [Hz|Hnz].
      * rewrite (Hpr Hz Hp'). apply length_map.
      * rewrite (Hs Hnz). apply length_map.
  - intros -> ->. reflexivity.
  - intros rec hard Ht Hpp. unfold fill_in. now rewrite Ht, Hpp.
Qed.

(** ** An empty answer of the engine (C4) *)

(** C4, amended. When the engine delivers an empty list to a
    [getaddrinfo] query, [_getaddrinfo] raises
    [gaierror(EAI_NONAME, EAI_NONAME_MSG)]. The public [getaddrinfo]
    raises it to the caller when the channel is the one the call was
    issued on; when the channel was swapped meanwhile it drops the error
    and runs the lookup again. Whatever the engine and the forks do, a
    [getaddrinfo] that went to the engine never returns an empty list. *)
Theorem getaddrinfo_empty_is_error
  b port port' family socktype proto flags :
  Z.land flags AI_NUMERICHOST = 0 -> mem b _LOCAL_HOSTNAMES = false ->
  coerce_port port = Ok port' ->
  (forall st h fill,
     cares st = Some h ->
     let q := Qgetaddrinfo b port' family socktype proto flags in
     let r := eng_getaddrinfo E (clock st) h b port' family socktype proto flags in
     outcome r = Ok [] ->
     _getaddrinfo (PyBytes b) port family socktype proto flags fill st =
     (Raise (gaierror (EAI_NONAME P) EAI_NONAME_MSG (EAI_NONAME P)),
      after_query st h q r) /\
     (cares (after_query st h q r) = cares st ->
      forall fuel,
        getaddrinfo (S fuel) (PyBytes b) port family socktype proto flags st =
        Some (Raise (gaierror (EAI_NONAME P) EAI_NONAME_MSG (EAI_NONAME P)),
              after_query st h q r)) /\
     (cares (after_query st h q r) <> cares st ->
      forall fuel,
        getaddrinfo (S fuel) (PyBytes b) port family socktype proto flags st =
        getaddrinfo fuel (PyBytes b) port family socktype proto flags
          (after_query st h q r)))
  /\
  (forall fuel st st',
     getaddrinfo fuel (PyBytes b) port family socktype proto flags st
     <> Some (Ok [], st')).
Proof.
  intros Hf Hl Hp. split.
  - intros st h fill Hc q r Ho.
    assert (Hg : forall fl,
               _getaddrinfo (PyBytes b) port family socktype proto flags fl st =
               (Raise (gaierror (EAI_NONAME P) EAI_NONAME_MSG (EAI_NONAME P)),
                after_query st h q r)).
    { intro fl.
      rewrite (_getaddrinfo_engine b port port' family socktype proto flags fl st h
                 Hf Hl Hp Hc).
      fold q r. now rewrite Ho. }
    split; [apply Hg|]. split.
    + intros Hsame fuel. now apply getaddrinfo_Raise_same.
    + intros Hdiff fuel. rewrite getaddrinfo_step, (Hg true).
      apply not_eq_sym, same_handle_false in Hdiff. now rewrite Hdiff.
  - induction fuel as [|fuel IH]; intros st st'; [discriminate|].
    rewrite getaddrinfo_step.
    destruct (cares st) as [h|] eqn:Hc.
    + rewrite (_getaddrinfo_engine b port port' family socktype proto flags true st h
                 Hf Hl Hp Hc).
      destruct (outcome _) as [[|x l]|e].
      * cbv beta iota. destruct (same_handle _ _); [discriminate|apply IH].
      * intro H. injection H as H _.
        apply (backfill_nonempty socktype proto (x :: l)); [discriminate|exact H].
      * destruct e; try discriminate.
        cbv beta iota. destruct (same_handle _ _); [discriminate|apply IH].
    + unfold _getaddrinfo, bind, lift, ret, raise, new_waiter, engine_call.
      cbn [encode_if_text]. rewrite Hf, Hl, Hp. simpl. rewrite Hc. discriminate.
Qed.


(** ** Forward lookups by name (C8, C9) *)

Lemma gethostbyname_ex_loop_step fuel b family st h :
  cares st = Some h ->
  let q := Qgethostbyname b family in
  let r := eng_gethostbyname E (clock st) h b family in
  let st' := after_query st h q r in
  gethostbyname_ex_loop (S fuel) b family st =
  match checked_hostent (outcome r) with
  | Raise (herror code msg) =>
      if same_handle (Some h) (cares st') then
        if code =? 1 then
          Some (Raise (gaierror (EAI_NONAME P) EAI_NONAME_MSG (EAI_NONAME P)), st')
        else Some (Raise (herror code msg), st')
      else gethostbyname_ex_loop fuel b family st'
  | x => Some (x, st')
  end.
Proof.
  intros Hc q r st'. subst q r st'. unfold after_query.
  cbn [gethostbyname_ex_loop].
  unfold bind, new_waiter, engine_call, raise, ret, checked_hostent, new_gaierror.
  rewrite Hc. simpl.
  destruct (outcome _) as [result|e].
  - destruct (h_addrs result); reflexivity.
  - destruct e; reflexivity.
Qed.

Lemma gethostbyname_ex_engine fuel hostname b family st :
  _hostname_to_bytes hostname = Ok b ->
  mem b _LOCAL_AND_BROADCAST_HOSTNAMES = false ->
  gethostbyname_ex fuel hostname family st =
  gethostbyname_ex_loop fuel b
    (match family with Some f => f | None => AF_INET end) st.
Proof. intros Hb Hm. unfold gethostbyname_ex. now rewrite Hb, Hm. Qed.

(** C8. A forward-name lookup that reaches the engine, whose engine call
    raises [herror(code, msg)] while the channel stays the same: with
    [code = 1] the caller gets [gaierror(EAI_NONAME, EAI_NONAME_MSG)],
    with any other code the [herror] itself. *)
Theorem gethostbyname_ex_host_not_found
  fuel hostname b family st h code msg :
  _hostname_to_bytes hostname = Ok b ->
  mem b _LOCAL_AND_BROADCAST_HOSTNAMES = false ->
  cares st = Some h ->
  let fam := match family with Some f => f | None => AF_INET end in
  let q := Qgethostbyname b fam in
  let r := eng_gethostbyname E (clock st) h b fam in
  outcome r = Raise (herror code msg) ->
  cares (after_query st h q r) = cares st ->
  gethostbyname_ex (S fuel) hostname family st =
  Some (Raise (if code =? 1
               then gaierror (EAI_NONAME P) EAI_NONAME_MSG (EAI_NONAME P)
               else herror code msg),
        after_query st h q r).
Proof.
  intros Hb Hm Hc fam q r Ho Hsame.
  rewrite (gethostbyname_ex_engine _ _ _ _ _ Hb Hm).
  rewrite (gethostbyname_ex_loop_step fuel b _ st h Hc).
  fold fam q r. rewrite Ho. simpl checked_hostent. cbv beta iota.
  rewrite Hsame, Hc, same_handle_refl.
  now destruct (code =? 1).
Qed.

(** C9, amended. Without a family argument [gethostbyname] looks the name
    up in the [AF_INET] family: the call is the call with [AF_INET], the
    query that reaches the engine carries [AF_INET], and the value
    returned is the first address of the full lookup's address list. *)
Theorem gethostbyname_default_family fuel hostname st :
  gethostbyname fuel hostname None st
  = gethostbyname fuel hostname (Some AF_INET) st
  /\
  (forall hn b h result a rest,
     _resolve_special hostname AF_INET = Ok hn ->
     _hostname_to_bytes hn = Ok b ->
     mem b _LOCAL_AND_BROADCAST_HOSTNAMES = false ->
     cares st = Some h ->
     let q := Qgethostbyname b AF_INET in
     let r := eng_gethostbyname E (clock st) h b AF_INET in
     outcome r = Ok result -> h_addrs result = a :: rest ->
     gethostbyname (S fuel) hostname None st = Some (Ok a, after_query st h q r)
     /\ trace (after_query st h q r) = EvQuery h (next_waiter st) q :: trace st)
  /\
  (forall family hn result a rest st',
     let fam := match family with Some f => f | None => AF_INET end in
     _resolve_special hostname fam = Ok hn ->
     gethostbyname_ex fuel hn (Some fam) st = Some (Ok result, st') ->
     h_addrs result = a :: rest ->
     gethostbyname fuel hostname family st = Some (Ok a, st')).
Proof.
  split; [reflexivity|]. split.
  - intros hn b h result a rest Hs Hb Hm Hc q r Ho Ha. split.
    + unfold gethostbyname. rewrite Hs.
      rewrite (gethostbyname_ex_engine _ _ _ _ _ Hb Hm).
      rewrite (gethostbyname_ex_loop_step fuel b AF_INET st h Hc).
      fold q r. rewrite Ho. unfold checked_hostent. rewrite Ha.
      cbv beta iota. now rewrite Ha.
    + unfold after_query. now rewrite resume_trace.
  - intros family hn result a rest st' fam Hs Hex Ha.
    unfold gethostbyname. fold fam. rewrite Hs, Hex. now rewrite Ha.
Qed.


(** ** Name-info lookups (C5, C6, C7) *)

Lemma getnameinfo_valid fuel host b p rest flags st :
  _hostname_to_bytes host = Ok b -> check_flowinfo rest = Ok tt ->
  getnameinfo fuel (PyTuple (host :: PyInt p :: rest)) (PyInt flags) st =
  getnameinfo_loop fuel (PyBytes b) (PyInt (if 65536 <=? p then 0 else p))
    (host :: PyInt p :: rest) flags st.
Proof. intros Hb Hk. unfold getnameinfo. now rewrite Hb, Hk. Qed.

Lemma getnameinfo_loop_step fuel address port sockaddr flags st :
  getnameinfo_loop (S fuel) address port sockaddr flags st =
  match _getnameinfo address port sockaddr flags st with
  | (Raise (gaierror c m n), st') =>
      if same_handle (cares st) (cares st') then Some (Raise (gaierror c m n), st')
      else getnameinfo_loop fuel address port sockaddr flags st'
  | (r, st') => Some (r, st')
  end.
Proof. reflexivity. Qed.

Lemma getnameinfo_loop_Ok fuel address port sockaddr flags st v st' :
  _getnameinfo address port sockaddr flags st = (Ok v, st') ->
  getnameinfo_loop (S fuel) address port sockaddr flags st = Some (Ok v, st').
Proof. intro H. now rewrite getnameinfo_loop_step, H. Qed.

Lemma getnameinfo_loop_Raise_same fuel address port sockaddr flags st e st' :
  _getnameinfo address port sockaddr flags st = (Raise e, st') ->
  cares st' = cares st ->
  getnameinfo_loop (S fuel) address port sockaddr flags st = Some (Raise e, st').
Proof.
  intros H Hc. rewrite getnameinfo_loop_step, H, Hc, same_handle_refl.
  now destruct e.
Qed.

Lemma getnameinfo_loop_error fuel address port sockaddr flags st m st' :
  _getnameinfo address port sockaddr flags st = (Raise (error m), st') ->
  getnameinfo_loop (S fuel) address port sockaddr flags st
  = Some (Raise (error m), st').
Proof. intro H. now rewrite getnameinfo_loop_step, H. Qed.

Lemma _getnameinfo_aux_raise hostname port sockaddr flags st e st1 :
  _getaddrinfo hostname port AF_UNSPEC SOCK_DGRAM 0 0 false st = (Raise e, st1) ->
  _getnameinfo hostname port sockaddr flags st = (Raise e, st1).
Proof. intro H. unfold _getnameinfo, bind. now rewrite H. Qed.

Lemma _getnameinfo_ambiguous hostname port sockaddr flags st l st1 :
  _getaddrinfo hostname port AF_UNSPEC SOCK_DGRAM 0 0 false st = (Ok l, st1) ->
  List.length l <> 1%nat ->
  _getnameinfo hostname port sockaddr flags st =
  (Raise (error "sockaddr resolved to multiple addresses"), st1).
Proof.
  intros H Hl. unfold _getnameinfo, bind. rewrite H.
  destruct l as [|x [|y l]]; try reflexivity. now elim Hl.
Qed.

Lemma _getnameinfo_one hostname port sockaddr flags st rec st1 address h1 :
  _getaddrinfo hostname port AF_UNSPEC SOCK_DGRAM 0 0 false st = (Ok [rec], st1) ->
  shape_address rec sockaddr = Ok address ->
  cares st1 = Some h1 ->
  let q := Qgetnameinfo address flags in
  let r := eng_getnameinfo E (clock st1) h1 address flags in
  _getnameinfo hostname port sockaddr flags st =
  (match outcome r with
   | Ok (node, service) =>
       if is_None service && PY3 P then
         Raise (gaierror (EAI_NONAME P) EAI_NONAME_MSG (EAI_NONAME P))
       else Ok (node, service_or_0 service)
   | Raise e => Raise e
   end, after_query st1 h1 q r).
Proof.
  intros H Hs Hc q r. subst q r. unfold after_query.
  unfold _getnameinfo, bind, lift, new_waiter, engine_call, raise, ret.
  rewrite H, Hs. simpl. rewrite Hc. simpl.
  destruct (outcome _) as [[node service]|e]; [|reflexivity].
  now destruct (is_None service && PY3 P).
Qed.

(** C5, amended. When the auxiliary address-info lookup of [getnameinfo]
    returns a list whose length is not 1, [error('sockaddr resolved to
    multiple addresses')] is raised, with no name-info query issued and
    no tuple returned; this is what happens when the engine delivers two
    records or more. When the engine delivers no record, the auxiliary
    lookup itself raises [gaierror(EAI_NONAME, ...)], and that is the
    error of [getnameinfo]. *)
Theorem getnameinfo_ambiguous fuel host b p rest flags st :
  _hostname_to_bytes host = Ok b -> check_flowinfo rest = Ok tt ->
  let sockaddr := host :: PyInt p :: rest in
  let port := PyInt (if 65536 <=? p then 0 else p) in
  let aux := _getaddrinfo (PyBytes b) port AF_UNSPEC SOCK_DGRAM 0 0 false st in
  (forall l,
     fst aux = Ok l -> List.length l <> 1%nat ->
     getnameinfo (S fuel) (PyTuple sockaddr) (PyInt flags) st =
     Some (Raise (error "sockaddr resolved to multiple addresses"), snd aux))
  /\
  (forall h port',
     mem b _LOCAL_HOSTNAMES = false -> coerce_port port = Ok port' ->
     cares st = Some h ->
     let q := Qgetaddrinfo b port' AF_UNSPEC SOCK_DGRAM 0 0 in
     let r := eng_getaddrinfo E (clock st) h b port' AF_UNSPEC SOCK_DGRAM 0 0 in
     (forall x y l,
        outcome r = Ok (x :: y :: l) ->
        getnameinfo (S fuel) (PyTuple sockaddr) (PyInt flags) st =
        Some (Raise (error "sockaddr resolved to multiple addresses"),
              after_query st h q r))
     /\
     (outcome r = Ok [] -> cares (after_query st h q r) = cares st ->
      getnameinfo (S fuel) (PyTuple sockaddr) (PyInt flags) st =
      Some (Raise (gaierror (EAI_NONAME P) EAI_NONAME_MSG (EAI_NONAME P)),
            after_query st h q r))).
Proof.
  intros Hb Hk sockaddr port aux.
  assert (Hlen : forall l st1,
             aux = (Ok l, st1) -> List.length l <> 1%nat ->
             getnameinfo (S fuel) (PyTuple sockaddr) (PyInt flags) st =
             Some (Raise (error "sockaddr resolved to multiple addresses"), st1)).
  { intros l st1 Ha Hl. unfold sockaddr.
    rewrite (getnameinfo_valid _ _ _ _ _ _ _ Hb Hk).
    apply getnameinfo_loop_error. now apply _getnameinfo_ambiguous with (l := l). }
  split.
  - intros l Hl Hn. apply (Hlen l); auto.
    destruct aux as [o st1]. simpl in *. now subst.
  - intros h port' Hm Hp Hc q r.
    assert (Ha : aux =
                 (match outcome r with
                  | Ok [] => Raise (gaierror (EAI_NONAME P) EAI_NONAME_MSG (EAI_NONAME P))
                  | Ok result => Ok result
                  | Raise e => Raise e
                  end, after_query st h q r)).
    { unfold aux.
      now rewrite (_getaddrinfo_engine b port port' AF_UNSPEC SOCK_DGRAM 0 0 false
                     st h eq_refl Hm Hp Hc). }
    split.
    + intros x y l Ho. apply (Hlen (x :: y :: l)).
      * rewrite Ha. now rewrite Ho.
      * simpl. lia.
    + intros Ho Hsame. unfold sockaddr.
      rewrite (getnameinfo_valid _ _ _ _ _ _ _ Hb Hk).
      apply getnameinfo_loop_Raise_same; auto.
      apply _getnameinfo_aux_raise. fold port. fold aux. rewrite Ha. now rewrite Ho.
Qed.

(** C6, amended. The auxiliary lookup gave one record and the engine
    completes the name-info query with a node and no service. On Python 3
    [_getnameinfo] raises [gaierror(EAI_NONAME, EAI_NONAME_MSG)] whose
    [errno] is [EAI_NONAME]; [getnameinfo] raises it to the caller when
    the channel is still the one it started with, and when the channel
    was swapped it drops the error and runs the whole lookup again. On
    Python 2 [getnameinfo] returns the node and the service ['0']. *)
Theorem getnameinfo_no_service
  fuel host b p rest flags st rec st1 address h1 node :
  _hostname_to_bytes host = Ok b -> check_flowinfo rest = Ok tt ->
  let sockaddr := host :: PyInt p :: rest in
  let port := PyInt (if 65536 <=? p then 0 else p) in
  _getaddrinfo (PyBytes b) port AF_UNSPEC SOCK_DGRAM 0 0 false st
  = (Ok [rec], st1) ->
  shape_address rec sockaddr = Ok address ->
  cares st1 = Some h1 ->
  let q := Qgetnameinfo address flags in
  let r := eng_getnameinfo E (clock st1) h1 address flags in
  outcome r = Ok (node, None) ->
  (PY3 P = true ->
   _getnameinfo (PyBytes b) port sockaddr flags st =
   (Raise (gaierror (EAI_NONAME P) EAI_NONAME_MSG (EAI_NONAME P)),
    after_query st1 h1 q r)
   /\
   (cares (after_query st1 h1 q r) = cares st ->
    getnameinfo (S fuel) (PyTuple sockaddr) (PyInt flags) st =
    Some (Raise (gaierror (EAI_NONAME P) EAI_NONAME_MSG (EAI_NONAME P)),
          after_query st1 h1 q r))
   /\
   (cares (after_query st1 h1 q r) <> cares st ->
    getnameinfo (S fuel) (PyTuple sockaddr) (PyInt flags) st =
    getnameinfo fuel (PyTuple sockaddr) (PyInt flags) (after_query st1 h1 q r)))
  /\
  (PY3 P = false ->
   getnameinfo (S fuel) (PyTuple sockaddr) (PyInt flags) st =
   Some (Ok (node, "0"), after_query st1 h1 q r)).
Proof.
  intros Hb Hk sockaddr port Haux Hs Hc q r Ho.
  pose proof (_getnameinfo_one (PyBytes b) port sockaddr flags st rec st1 address h1
                Haux Hs Hc) as Hone.
  cbv zeta in Hone. fold q r in Hone. rewrite Ho in Hone. simpl in Hone.
  split; intro Hpy; rewrite Hpy in Hone.
  - split; [exact Hone|]. split.
    + intro Hsame. unfold sockaddr.
      rewrite (getnameinfo_valid _ _ _ _ _ _ _ Hb Hk).
      now apply getnameinfo_loop_Raise_same.
    + intro Hdiff. unfold sockaddr.
      rewrite !(getnameinfo_valid _ _ _ _ _ _ _ Hb Hk).
      change (getnameinfo_loop (S fuel) (PyBytes b) port sockaddr flags st =
              getnameinfo_loop fuel (PyBytes b) port sockaddr flags
                (after_query st1 h1 q r)).
      rewrite getnameinfo_loop_step, Hone.
      apply not_eq_sym, same_handle_false in Hdiff. now rewrite Hdiff.
  - unfold sockaddr. rewrite (getnameinfo_valid _ _ _ _ _ _ _ Hb Hk).
    now apply getnameinfo_loop_Ok.
Qed.

Lemma _getnameinfo_port a prt host port port' rest flags st :
  _getnameinfo a prt (host :: port :: rest) flags st
  = _getnameinfo a prt (host :: port' :: rest) flags st.
Proof.
  unfold _getnameinfo, bind.
  destruct (_getaddrinfo a prt AF_UNSPEC SOCK_DGRAM 0 0 false st) as [[l|e] st1];
    [|reflexivity].
  destruct l as [|rec [|y l]]; reflexivity.
Qed.

Lemma getnameinfo_loop_port fuel a prt host port port' rest flags :
  forall st,
    getnameinfo_loop fuel a prt (host :: port :: rest) flags st
    = getnameinfo_loop fuel a prt (host :: port' :: rest) flags st.
Proof.
  induction fuel as [|fuel IH]; intro st; [reflexivity|].
  rewrite !getnameinfo_loop_step.
  rewrite (_getnameinfo_port a prt host port port' rest flags st).
  destruct (_getnameinfo _ _ _ _ _) as [[v|e] st']; [reflexivity|].
  destruct e; try reflexivity.
  destruct (same_handle _ _); [reflexivity|apply IH].
Qed.

(** C7, amended. A port of 65536 or more given to [getnameinfo] is taken
    as port 0: the call behaves as the call with port 0 in every respect,
    and its auxiliary address-info query reaches the engine with no
    service ([None]). [getaddrinfo] has no such clamp: it sends the port,
    written in decimal, to the engine. *)
Theorem getnameinfo_port_clamped fuel host p rest flags st :
  65536 <= p ->
  getnameinfo fuel (PyTuple (host :: PyInt p :: rest)) flags st
  = getnameinfo fuel (PyTuple (host :: PyInt 0 :: rest)) flags st
  /\
  (forall b h,
     mem b _LOCAL_HOSTNAMES = false -> cares st = Some h ->
     let q := Qgetaddrinfo b PyNone AF_UNSPEC SOCK_DGRAM 0 0 in
     let r := eng_getaddrinfo E (clock st) h b PyNone AF_UNSPEC SOCK_DGRAM 0 0 in
     snd (_getaddrinfo (PyBytes b) (PyInt (if 65536 <=? p then 0 else p))
            AF_UNSPEC SOCK_DGRAM 0 0 false st)
     = after_query st h q r)
  /\
  (forall b h family socktype proto flags',
     Z.land flags' AI_NUMERICHOST = 0 ->
     mem b _LOCAL_HOSTNAMES = false -> cares st = Some h ->
     let q := Qgetaddrinfo b (PyBytes (str_of_int p)) family socktype proto flags' in
     let r := eng_getaddrinfo E (clock st) h b (PyBytes (str_of_int p))
                family socktype proto flags' in
     snd (_getaddrinfo (PyBytes b) (PyInt p) family socktype proto flags' true st)
     = after_query st h q r).
Proof.
  intro Hp.
  assert (Hle : (65536 <=? p) = true) by now apply Z.leb_le.
  assert (Hnz : (p =? 0) = false) by (apply Z.eqb_neq; lia).
  split; [|split].
  - unfold getnameinfo. destruct flags; try reflexivity.
    destruct (_hostname_to_bytes host) as [b|e]; [|reflexivity].
    rewrite Hle. change (65536 <=? 0) with false. cbv beta iota.
    destruct (check_flowinfo rest); [|reflexivity].
    apply getnameinfo_loop_port.
  - intros b h Hm Hc q r. rewrite Hle.
    now rewrite (_getaddrinfo_engine b (PyInt 0) PyNone AF_UNSPEC SOCK_DGRAM 0 0
                   false st h eq_refl Hm eq_refl Hc).
  - intros b h family socktype proto flags' Hf Hm Hc q r.
    assert (Hcp : coerce_port (PyInt p) = Ok (PyBytes (str_of_int p))).
    { unfold coerce_port. now rewrite Hnz. }
    now rewrite (_getaddrinfo_engine b (PyInt p) _ family socktype proto flags'
                   true st h Hf Hm Hcp Hc).
Qed.


(** ** Reverse lookups (C10) *)

Lemma gethostbyaddr_loop_step fuel ip st :
  gethostbyaddr_loop (S fuel) ip st =
  match _gethostbyaddr ip st with
  | (Raise (herror c m), st') =>
      if same_handle (cares st) (cares st') then Some (Raise (herror c m), st')
      else gethostbyaddr_loop fuel ip st'
  | (r, st') => Some (r, st')
  end.
Proof. reflexivity. Qed.

(** [_getaddrinfo] puts at most one call on record, a forward one. *)
Lemma _getaddrinfo_trace host port family socktype proto flags fill st :
  let st' := snd (_getaddrinfo host port family socktype proto flags fill st) in
  trace st' = trace st \/
  exists h w q, is_forward (EvQuery h w q) = true /\
                trace st' = EvQuery h w q :: trace st.
Proof.
  unfold _getaddrinfo, bind, lift, ret, raise, new_waiter, engine_call.
  destruct (encode_if_text "idna" host) as [host'|e]; [|left; reflexivity].
  destruct host' as [| | |b| | | |];
    try (destruct (native_getaddrinfo _ _ _ _ _ _); left; reflexivity).
  destruct (negb _ || _).
  { destruct (native_getaddrinfo _ _ _ _ _ _); left; reflexivity. }
  destruct (coerce_port port) as [port'|e]; [|left; reflexivity].
  cbn [cares clock next_waiter].
  destruct (cares st) as [h|]; [|left; reflexivity].
  right. exists h, (next_waiter st),
    (Qgetaddrinfo b port' family socktype proto flags).
  split; [reflexivity|].
  destruct (outcome _) as [[|x l]|e]; [| destruct fill |];
    cbn [snd]; now rewrite resume_trace.
Qed.

Lemma _getaddrinfo_counts host port family socktype proto flags fill st :
  let st' := snd (_getaddrinfo host port family socktype proto flags fill st) in
  reverse_queries (trace st') = reverse_queries (trace st) /\
  (forward_queries (trace st') <= S (forward_queries (trace st)))%nat.
Proof.
  intro st'.
  destruct (_getaddrinfo_trace host port family socktype proto flags fill st)
    as [Ht|[h [w [q [Hq Ht]]]]]; fold st' in Ht; rewrite Ht.
  - split; [reflexivity|lia].
  - unfold reverse_queries, forward_queries. cbn [filter]. rewrite Hq.
    destruct q; try discriminate. cbn [is_reverse List.length]. split; lia.
Qed.

(** C10, amended. The engine rejects the address of a reverse lookup with
    [InvalidIP]. Then [_getaddrinfo] is called once on the same bytes; it
    issues at most one forward query and no reverse query. If it returns
    an empty list, or a list whose first address equals the input, the
    [InvalidIP] is raised again and no second reverse query is issued. If
    the first address differs, the waiter is cleared and one second
    reverse query is issued on it for that address. If the forward lookup
    raises, as it does with [gaierror(EAI_NONAME, ...)] when the engine
    delivers no record, that exception is raised in place of the
    [InvalidIP], and there is no second reverse query either. *)
Theorem gethostbyaddr_fallback ip b st h m :
  _hostname_to_bytes ip = Ok b -> cares st = Some h ->
  let w := next_waiter st in
  let q1 := Qgethostbyaddr (PyBytes b) in
  let r1 := eng_gethostbyaddr E (clock st) h (PyBytes b) in
  let st1 := after_query st h q1 r1 in
  outcome r1 = Raise (InvalidIP m) ->
  let aux := _getaddrinfo (PyBytes b) PyNone AF_UNSPEC SOCK_DGRAM 0 0 true st1 in
  let st2 := snd aux in
  (reverse_queries (trace st2) = S (reverse_queries (trace st)) /\
   (forward_queries (trace st2) <= S (forward_queries (trace st)))%nat)
  /\
  (fst aux = Ok [] ->
   _gethostbyaddr ip st = (Raise (InvalidIP m), st2) /\
   forall fuel, gethostbyaddr_loop (S fuel) ip st = Some (Raise (InvalidIP m), st2))
  /\
  (forall first l a items a',
     fst aux = Ok (first :: l) -> ai_sockaddr first = a :: items ->
     encode_if_text "ascii" a = Ok a' ->
     (eq_bytes a' b = true ->
      _gethostbyaddr ip st = (Raise (InvalidIP m), st2) /\
      forall fuel,
        gethostbyaddr_loop (S fuel) ip st = Some (Raise (InvalidIP m), st2))
     /\
     (eq_bytes a' b = false ->
      forall h2, cares st2 = Some h2 ->
        let q2 := Qgethostbyaddr a' in
        let r2 := eng_gethostbyaddr E (clock st2) h2 a' in
        let st3 := resume h2 w q2 r2 (log (EvClear w) st2) in
        _gethostbyaddr ip st = (outcome r2, st3) /\
        trace st3 = EvQuery h2 w q2 :: EvClear w :: trace st2 /\
        reverse_queries (trace st3) = S (S (reverse_queries (trace st)))))
  /\
  (forall e,
     fst aux = Raise e -> _gethostbyaddr ip st = (Raise e, st2))
  /\
  (forall h1,
     mem b _LOCAL_HOSTNAMES = false -> cares st1 = Some h1 ->
     outcome (eng_getaddrinfo E (clock st1) h1 b PyNone AF_UNSPEC SOCK_DGRAM 0 0)
     = Ok [] ->
     _gethostbyaddr ip st =
     (Raise (gaierror (EAI_NONAME P) EAI_NONAME_MSG (EAI_NONAME P)), st2)).
Proof.
  intros Hb Hc w q1 r1 st1 Ho aux st2.
  assert (Hbody :
            _gethostbyaddr ip st =
            match aux with
            | (Raise e, s2) => (Raise e, s2)
            | (Ok [], s2) => (Raise (InvalidIP m), s2)
            | (Ok (first :: _), s2) =>
                match ai_sockaddr first with
                | [] => (Raise (IndexError "tuple index out of range"), s2)
                | a :: _ =>
                    match encode_if_text "ascii" a with
                    | Raise e => (Raise e, s2)
                    | Ok a' =>
                        if eq_bytes a' b then (Raise (InvalidIP m), s2)
                        else
                          match cares s2 with
                          | None =>
                              (Raise (AttributeError
                                        "'NoneType' object has no attribute"),
                               log (EvClear w) s2)
                          | Some h2 =>
                              let r2 := eng_gethostbyaddr E (clock s2) h2 a' in
                              (outcome r2,
                               resume h2 w (Qgethostbyaddr a') r2
                                 (log (EvClear w) s2))
                          end
                    end
                end
            end).
  { unfold aux, st1, after_query, r1, q1, w. clear st2 aux.
    unfold _gethostbyaddr, bind, lift, new_waiter, engine_call, waiter_clear, raise.
    rewrite Hb. cbn [cares clock snd next_waiter]. rewrite Hc.
    unfold r1 in Ho. rewrite Ho.
    destruct (_getaddrinfo _ _ _ _ _ _ _ _) as [[[|rec l]|e] s2]; try reflexivity.
    destruct (ai_sockaddr rec) as [|a items]; [reflexivity|].
    destruct (encode_if_text "ascii" a) as [a'|e]; [|reflexivity].
    destruct (eq_bytes a' b); [reflexivity|].
    cbn [log cares clock].
    now destruct (cares s2). }
  assert (Ht1 : trace st1 = EvQuery h w q1 :: trace st).
  { unfold st1, after_query. now rewrite resume_trace. }
  assert (Hcount : reverse_queries (trace st2) = S (reverse_queries (trace st)) /\
                   (forward_queries (trace st2) <= S (forward_queries (trace st)))%nat).
  { destruct (_getaddrinfo_counts (PyBytes b) PyNone AF_UNSPEC SOCK_DGRAM 0 0 true st1)
      as [Hr Hfw]. fold aux in Hr, Hfw. fold st2 in Hr, Hfw.
    rewrite Hr, Ht1. split; [reflexivity|].
    rewrite Ht1 in Hfw. exact Hfw. }
  assert (Hloop : forall fuel,
             _gethostbyaddr ip st = (Raise (InvalidIP m), st2) ->
             gethostbyaddr_loop (S fuel) ip st = Some (Raise (InvalidIP m), st2)).
  { intros fuel H. now rewrite gethostbyaddr_loop_step, H. }
  split; [exact Hcount|]. split; [|split; [|split]].
  - intro Ha.
    assert (H : _gethostbyaddr ip st = (Raise (InvalidIP m), st2)).
    { rewrite Hbody. unfold st2. destruct aux as [o s2]. simpl in Ha. now subst o. }
    split; auto.
  - intros first l a items a' Ha Hs He. split.
    + intro Heq.
      assert (H : _gethostbyaddr ip st = (Raise (InvalidIP m), st2)).
      { rewrite Hbody. unfold st2. destruct aux as [o s2]. simpl in Ha. subst o.
        now rewrite Hs, He, Heq. }
      split; auto.
    + intros Hne h2 Hc2 q2 r2 st3.
      assert (Ht3 : trace st3 = EvQuery h2 w q2 :: EvClear w :: trace st2).
      { unfold st3. now rewrite resume_trace. }
      split; [|split; [exact Ht3|]].
      * rewrite Hbody. unfold st3, r2, q2, st2 in *.
        destruct aux as [o s2]. simpl in Ha, Hc2 |- *. subst o.
        now rewrite Hs, He, Hne, Hc2.
      * rewrite Ht3. destruct Hcount as [Hr _]. rewrite <- Hr. reflexivity.
  - intros e Ha. rewrite Hbody. unfold st2. destruct aux as [o s2].
    simpl in Ha. now subst o.
  - intros h1 Hm Hc1 Hempty. rewrite Hbody. unfold st2, aux.
    rewrite (_getaddrinfo_engine b PyNone PyNone AF_UNSPEC SOCK_DGRAM 0 0 true st1 h1
               eq_refl Hm eq_refl Hc1).
    now rewrite Hempty.
Qed.


(** ** Retrying on a swapped channel (C1) *)

Lemma after_query_quiet {A} st h q (r : reply A) :
  forked r = None -> cares (after_query st h q r) = cares st.
Proof. intro H. unfold after_query. now rewrite resume_quiet. Qed.

Lemma after_query_forked {A} st h q (r : reply A) p :
  wf st -> cares st = Some h -> watching st = true ->
  forked r = Some p -> p <> pid st ->
  cares (after_query st h q r) = Some (next_handle st) /\
  cares (after_query st h q r) <> cares st.
Proof.
  intros Hwf Hc Hw Hf Hp. unfold after_query.
  apply (resume_forked h (next_waiter st) q r (snd (new_waiter st)) p); auto.
Qed.

Lemma _gethostbyaddr_herror ip b st h c m :
  _hostname_to_bytes ip = Ok b -> cares st = Some h ->
  let q := Qgethostbyaddr (PyBytes b) in
  let r := eng_gethostbyaddr E (clock st) h (PyBytes b) in
  outcome r = Raise (herror c m) ->
  _gethostbyaddr ip st = (Raise (herror c m), after_query st h q r).
Proof.
  intros Hb Hc q r Ho. unfold r in Ho. unfold after_query, q, r.
  unfold _gethostbyaddr, bind, lift, new_waiter, engine_call.
  rewrite Hb. cbn [cares clock snd next_waiter]. rewrite Hc. now rewrite Ho.
Qed.

(** C1, amended. The engine call of a public operation raises the error
    kind the operation watches for ([gaierror] for [getaddrinfo] and
    [getnameinfo], [herror] for [gethostbyaddr] and [gethostbyname_ex]).
    If [self.cares] is still the channel the pass started with, the error
    is raised to the caller: as it is in [getaddrinfo], [gethostbyaddr]
    and [getnameinfo], and in [gethostbyname_ex] as it is unless its code
    is 1, which is raised as [gaierror(EAI_NONAME, ...)]. If [self.cares]
    has changed, the error is dropped and the operation runs again from
    the state left by the call, that is on the new channel. A fork seen
    by the watcher in another process gives [self.cares] a new
    identity. *)
Theorem retry_on_swapped_channel fuel st h :
  cares st = Some h ->
  (forall b port port' family socktype proto flags c m n,
     Z.land flags AI_NUMERICHOST = 0 -> mem b _LOCAL_HOSTNAMES = false ->
     coerce_port port = Ok port' ->
     let q := Qgetaddrinfo b port' family socktype proto flags in
     let r := eng_getaddrinfo E (clock st) h b port' family socktype proto flags in
     let st' := after_query st h q r in
     outcome r = Raise (gaierror c m n) ->
     (cares st' = cares st ->
      getaddrinfo (S fuel) (PyBytes b) port family socktype proto flags st
      = Some (Raise (gaierror c m n), st')) /\
     (cares st' <> cares st ->
      getaddrinfo (S fuel) (PyBytes b) port family socktype proto flags st
      = getaddrinfo fuel (PyBytes b) port family socktype proto flags st'))
  /\
  (forall ip0 ip b c m,
     _resolve_special ip0 AF_UNSPEC = Ok ip -> _hostname_to_bytes ip = Ok b ->
     let q := Qgethostbyaddr (PyBytes b) in
     let r := eng_gethostbyaddr E (clock st) h (PyBytes b) in
     let st' := after_query st h q r in
     outcome r = Raise (herror c m) ->
     (cares st' = cares st ->
      gethostbyaddr (S fuel) ip0 st = Some (Raise (herror c m), st')) /\
     (cares st' <> cares st ->
      gethostbyaddr (S fuel) ip0 st = gethostbyaddr fuel ip0 st'))
  /\
  (forall host b p rest flags port' c m n,
     _hostname_to_bytes host = Ok b -> check_flowinfo rest = Ok tt ->
     mem b _LOCAL_HOSTNAMES = false ->
     coerce_port (PyInt (if 65536 <=? p then 0 else p)) = Ok port' ->
     let sockaddr := PyTuple (host :: PyInt p :: rest) in
     let q := Qgetaddrinfo b port' AF_UNSPEC SOCK_DGRAM 0 0 in
     let r := eng_getaddrinfo E (clock st) h b port' AF_UNSPEC SOCK_DGRAM 0 0 in
     let st' := after_query st h q r in
     outcome r = Raise (gaierror c m n) ->
     (cares st' = cares st ->
      getnameinfo (S fuel) sockaddr (PyInt flags) st
      = Some (Raise (gaierror c m n), st')) /\
     (cares st' <> cares st ->
      getnameinfo (S fuel) sockaddr (PyInt flags) st
      = getnameinfo fuel sockaddr (PyInt flags) st'))
  /\
  (forall host b p rest flags rec st1 address h1 c m n,
     _hostname_to_bytes host = Ok b -> check_flowinfo rest = Ok tt ->
     let items := host :: PyInt p :: rest in
     _getaddrinfo (PyBytes b) (PyInt (if 65536 <=? p then 0 else p))
       AF_UNSPEC SOCK_DGRAM 0 0 false st = (Ok [rec], st1) ->
     shape_address rec items = Ok address -> cares st1 = Some h1 ->
     let q := Qgetnameinfo address flags in
     let r := eng_getnameinfo E (clock st1) h1 address flags in
     let st' := after_query st1 h1 q r in
     outcome r = Raise (gaierror c m n) ->
     (cares st' = cares st ->
      getnameinfo (S fuel) (PyTuple items) (PyInt flags) st
      = Some (Raise (gaierror c m n), st')) /\
     (cares st' <> cares st ->
      getnameinfo (S fuel) (PyTuple items) (PyInt flags) st
      = getnameinfo fuel (PyTuple items) (PyInt flags) st'))
  /\
  (forall hostname b family c m,
     _hostname_to_bytes hostname = Ok b ->
     mem b _LOCAL_AND_BROADCAST_HOSTNAMES = false ->
     let fam := match family with Some f => f | None => AF_INET end in
     let q := Qgethostbyname b fam in
     let r := eng_gethostbyname E (clock st) h b fam in
     let st' := after_query st h q r in
     outcome r = Raise (herror c m) ->
     (cares st' = cares st ->
      gethostbyname_ex (S fuel) hostname family st
      = Some (Raise (if c =? 1
                     then gaierror (EAI_NONAME P) EAI_NONAME_MSG (EAI_NONAME P)
                     else herror c m), st')) /\
     (cares st' <> cares st ->
      gethostbyname_ex (S fuel) hostname family st
      = gethostbyname_ex fuel hostname family st'))
  /\
  (forall A q (r : reply A) p,
     wf st -> watching st = true -> forked r = Some p -> p <> pid st ->
     cares (after_query st h q r) = Some (next_handle st) /\
     cares (after_query st h q r) <> cares st).
Proof.
  intro Hc. split; [|split; [|split; [|split; [|split]]]].
  - intros b port port' family socktype proto flags c m n Hf Hm Hp q r st' Ho.
    assert (Hbody : _getaddrinfo (PyBytes b) port family socktype proto flags true st
                    = (Raise (gaierror c m n), st')).
    { rewrite (_getaddrinfo_engine b port port' family socktype proto flags true st h
                 Hf Hm Hp Hc).
      fold q r. now rewrite Ho. }
    split; intro Hs.
    + now apply getaddrinfo_Raise_same.
    + rewrite getaddrinfo_step, Hbody.
      apply not_eq_sym, same_handle_false in Hs. now rewrite Hs.
  - intros ip0 ip b c m Hsp Hb q r st' Ho.
    pose proof (_gethostbyaddr_herror ip b st h c m Hb Hc Ho) as Hbody.
    fold q r in Hbody. fold st' in Hbody.
    unfold gethostbyaddr. rewrite Hsp. rewrite gethostbyaddr_loop_step, Hbody.
    split; intro Hs.
    + now rewrite Hs, same_handle_refl.
    + apply not_eq_sym, same_handle_false in Hs. now rewrite Hs.
  - intros host b p rest flags port' c m n Hb Hk Hm Hp sockaddr q r st' Ho.
    unfold sockaddr. rewrite !(getnameinfo_valid _ _ _ _ _ _ _ Hb Hk).
    assert (Hbody : _getnameinfo (PyBytes b) (PyInt (if 65536 <=? p then 0 else p))
                      (host :: PyInt p :: rest) flags st
                    = (Raise (gaierror c m n), st')).
    { apply _getnameinfo_aux_raise.
      rewrite (_getaddrinfo_engine b _ port' AF_UNSPEC SOCK_DGRAM 0 0 false st h
                 eq_refl Hm Hp Hc).
      fold q r. now rewrite Ho. }
    split; intro Hs.
    + now apply getnameinfo_loop_Raise_same.
    + rewrite getnameinfo_loop_step, Hbody.
      apply not_eq_sym, same_handle_false in Hs. now rewrite Hs.
  - intros host b p rest flags rec st1 address h1 c m n Hb Hk items Haux Hsh Hc1
      q r st' Ho.
    subst items. rewrite !(getnameinfo_valid _ _ _ _ _ _ _ Hb Hk).
    assert (Hbody : _getnameinfo (PyBytes b) (PyInt (if 65536 <=? p then 0 else p))
                      (host :: PyInt p :: rest) flags st
                    = (Raise (gaierror c m n), st')).
    { rewrite (_getnameinfo_one _ _ _ flags st rec st1 address h1 Haux Hsh Hc1).
      fold q r. now rewrite Ho. }
    split; intro Hs.
    + now apply getnameinfo_loop_Raise_same.
    + rewrite getnameinfo_loop_step, Hbody.
      apply not_eq_sym, same_handle_false in Hs. now rewrite Hs.
  - intros hostname b family c m Hb Hm fam q r st' Ho.
    rewrite !(gethostbyname_ex_engine _ _ _ _ _ Hb Hm).
    rewrite (gethostbyname_ex_loop_step fuel b _ st h Hc).
    fold fam q r. fold st'. rewrite Ho. simpl checked_hostent. cbv beta iota.
    split; intro Hs.
    + rewrite Hs, Hc, same_handle_refl. now destruct (c =? 1).
    + rewrite Hc in Hs. apply not_eq_sym, same_handle_false in Hs. now rewrite Hs.
  - intros A q r p Hwf Hw Hf Hp. now apply after_query_forked with (p := p).
Qed.

(** * Further properties of the resolver *)

(** ** Channel lifecycle: [close] and [_on_fork] *)

Lemma reach_trans ok a b c : reach ok a b -> reach ok b c -> reach ok a c.
Proof.
  intros Hab Hbc. induction Hbc.
  - exact Hab.
  - now apply reach_waiter.
  - now apply reach_log.
  - now apply reach_tick.
  - now apply reach_fork.
Qed.

Lemma resume_reach {A} (ok : nat -> Prop) h w q (r : reply A) st :
  (forall p, forked r = Some p -> ok (clock st)) ->
  reach ok st (resume h w q r st).
Proof.
  intro Hok. unfold resume.
  assert (Hlog : reach ok st (log (EvQuery h w q) st))
    by apply reach_log, reach_refl.
  destruct (forked r) as [p|]; [|now apply reach_tick].
  destruct (watching _); [|now apply reach_tick].
  apply (reach_fork ok st p (log (EvQuery h w q) st) Hlog).
  exact (Hok p eq_refl).
Qed.

Lemma keeps_ret {A} ok (v : A) : keeps ok (ret v).
Proof. intro st. apply reach_refl. Qed.

Lemma keeps_raise {A} ok e : keeps ok (@raise A e).
Proof. intro st. apply reach_refl. Qed.

Lemma keeps_lift {A} ok (r : res A) : keeps ok (lift r).
Proof. intro st. apply reach_refl. Qed.

Lemma keeps_new_waiter ok : keeps ok new_waiter.
Proof. intro st. apply reach_waiter, reach_refl. Qed.

Lemma keeps_waiter_clear ok w : keeps ok (waiter_clear w).
Proof. intro st. apply reach_log, reach_refl. Qed.

Lemma keeps_bind {A B} ok (m : M A) (k : A -> M B) :
  keeps ok m -> (forall v, keeps ok (k v)) -> keeps ok (bind m k).
Proof.
  intros Hm Hk st. unfold bind. specialize (Hm st).
  destruct (m st) as [[v|e] st1]; simpl in Hm; [|exact Hm].
  apply (reach_trans ok st st1); [exact Hm|apply Hk].
Qed.

Lemma keeps_engine_call {A} (ok : nat -> Prop) ch w q
  (ask : nat -> handle -> reply A) :
  (forall t h p, forked (ask t h) = Some p -> ok t) ->
  keeps ok (engine_call ch w q ask).
Proof.
  intros Hok st. unfold engine_call. destruct ch as [h|]; [|apply reach_refl].
  apply resume_reach. intros p Hp. exact (Hok _ _ _ Hp).
Qed.

Lemma channel_inv_init p : channel_inv (init p).
Proof.
  split; [constructor|]. split; [intros h []|].
  intros h Hh. injection Hh as <-. split; [apply Nat.lt_0_1|intros []].
Qed.

Lemma channel_inv_on_fork p st : channel_inv st -> channel_inv (_on_fork p st).
Proof.
  intros Hinv. unfold _on_fork.
  destruct (negb (p =? pid st)); [|exact Hinv].
  destruct (cares st) as [old|] eqn:Hold; [|exact Hinv].
  destruct Hinv as [Hnd [Hq Hc]].
  destruct (Hc old Hold) as [Hlt Hnin]. simpl.
  split; [|split]; simpl.
  - apply NoDup_app; [exact Hnd|repeat constructor; intros []|].
    intros h Hin [<-|[]]. contradiction.
  - intros h Hin. apply in_app_or in Hin as [Hin|[<-|[]]].
    + specialize (Hq h Hin). lia.
    + lia.
  - intros h Hh. injection Hh as <-. split; [lia|].
    intro Hin. apply in_app_or in Hin as [Hin|[Heq|[]]].
    + specialize (Hq _ Hin). lia.
    + lia.
Qed.

Lemma channel_inv_close st : channel_inv st -> channel_inv (close st).
Proof.
  intros [Hnd [Hq Hc]]. unfold close.
  destruct (cares st) as [h|] eqn:Hh; simpl.
  - destruct (Hc h eq_refl) as [Hlt Hnin].
    split; [|split]; simpl.
    + apply NoDup_app; [exact Hnd|repeat constructor; intros []|].
      intros x Hin [<-|[]]. contradiction.
    + intros x Hin. apply in_app_or in Hin as [Hin|[<-|[]]]; auto.
    + discriminate.
  - split; [exact Hnd|]. split; [exact Hq|].
    simpl. rewrite Hh. discriminate.
Qed.

Lemma channel_inv_reach ok st0 st :
  reach ok st0 st -> channel_inv st0 -> channel_inv st.
Proof.
  intros Hr H0. induction Hr; auto.
  apply channel_inv_on_fork. exact IHHr.
Qed.

(** X1. [close] drops the channel, stops the fork watcher and queues one
    [destroy] call for the channel that was in use. A second [close]
    changes nothing: no second [destroy] is queued. The queue of a
    resolver in good order stays without duplicates. *)
Theorem close_idempotent st :
  close (close st) = close st /\
  cares (close st) = None /\
  watching (close st) = false /\
  callbacks (close st)
  = (callbacks st ++ match cares st with Some h => [h] | None => [] end)%list /\
  (channel_inv st -> channel_inv (close st)).
Proof.
  split; [|split; [|split; [|split]]].
  - unfold close. destruct (cares st) eqn:H; simpl; rewrite ?H; reflexivity.
  - unfold close. now destruct (cares st) eqn:H.
  - reflexivity.
  - unfold close. destruct (cares st); simpl; [reflexivity|].
    now rewrite app_nil_r.
  - apply channel_inv_close.
Qed.

(** X2. [_on_fork] in the process the resolver was built in changes
    nothing. In another process it installs a channel whose identity was
    never used, queues the [destroy] of the old channel instead of
    running it, and records the new process id; the handler is
    idempotent, so a second notification in the same child builds no
    further channel. *)
Theorem on_fork_swaps_once p st :
  (p = pid st -> _on_fork p st = st) /\
  (forall h,
     p <> pid st -> cares st = Some h -> channel_inv st ->
     cares (_on_fork p st) = Some (next_handle st) /\
     next_handle st <> h /\
     ~ In (next_handle st) (callbacks st) /\
     callbacks (_on_fork p st) = (callbacks st ++ [h])%list /\
     pid (_on_fork p st) = p /\
     channel_inv (_on_fork p st)) /\
  _on_fork p (_on_fork p st) = _on_fork p st.
Proof.
  split; [|split].
  - intros ->. unfold _on_fork. now rewrite Z.eqb_refl.
  - intros h Hp Hc Hinv.
    pose proof (channel_inv_on_fork p st Hinv) as Hinv'.
    destruct Hinv as [_ [Hq Hlive]]. destruct (Hlive h Hc) as [Hlt _].
    unfold _on_fork in *.
    destruct (Z.eqb_spec p (pid st)) as [|_]; [contradiction|].
    simpl in *. rewrite Hc in *. simpl.
    split; [reflexivity|]. split; [lia|].
    split; [intro Hin; specialize (Hq _ Hin); lia|].
    split; [reflexivity|]. split; [reflexivity|exact Hinv'].
  - assert (Hsame : forall s, p = pid s -> _on_fork p s = s).
    { intros s ->. unfold _on_fork. now rewrite Z.eqb_refl. }
    destruct (Z.eq_dec p (pid st)) as [Heq|Hne].
    + now rewrite !(Hsame st Heq).
    + destruct (cares st) as [h|] eqn:Hc.
      * apply Hsame. unfold _on_fork.
        destruct (Z.eqb_spec p (pid st)) as [|_]; [contradiction|].
        simpl. now rewrite Hc.
      * assert (Hnone : _on_fork p st = st).
        { unfold _on_fork. rewrite Hc. now destruct (negb _). }
        now rewrite !Hnone.
Qed.

(** ** What an operation does to the state *)

Lemma forks_within_True : forks_within (fun _ => True).
Proof. repeat split. Qed.

Lemma _getaddrinfo_keeps ok host port family socktype proto flags fill :
  forks_within ok ->
  keeps ok (_getaddrinfo host port family socktype proto flags fill).
Proof.
  intros [_ [Hgai _]]. unfold _getaddrinfo.
  apply keeps_bind; [apply keeps_lift|]. intros host'.
  destruct host'; try apply keeps_lift.
  destruct (negb _ || _); [apply keeps_lift|].
  apply keeps_bind; [apply keeps_lift|]. intros port'.
  apply keeps_bind; [apply keeps_new_waiter|]. intros w.
  apply keeps_bind.
  - intro st. apply keeps_engine_call. intros t h p Hp. exact (Hgai _ _ _ _ _ _ _ _ _ Hp).
  - intros [|x l]; [apply keeps_raise|]. destruct fill; apply keeps_ret.
Qed.

Lemma _gethostbyaddr_keeps ok ip :
  forks_within ok -> keeps ok (_gethostbyaddr ip).
Proof.
  intros Hok. pose proof Hok as [_ [_ [Hhba _]]]. unfold _gethostbyaddr.
  apply keeps_bind; [apply keeps_lift|]. intros b.
  apply keeps_bind; [apply keeps_new_waiter|]. intros w st.
  assert (Hcall : forall a,
             keeps ok (fun s => engine_call (cares s) w (Qgethostbyaddr a)
                                  (fun t h => eng_gethostbyaddr E t h a) s)).
  { intros a s. apply keeps_engine_call. intros t h p Hp. exact (Hhba _ _ _ _ Hp). }
  pose proof (Hcall (PyBytes b) st) as H1. cbv beta in H1 |- *.
  match type of H1 with
  | reach _ _ (snd ?c) => destruct c as [[v|e] st1]
  end; simpl in H1; [exact H1|].
  destruct e; try exact H1.
  apply (reach_trans ok st st1); [exact H1|].
  apply keeps_bind; [now apply _getaddrinfo_keeps|].
  intros [|rec l]; [apply keeps_raise|].
  destruct (ai_sockaddr rec) as [|a items]; [apply keeps_raise|].
  apply keeps_bind; [apply keeps_lift|]. intros a'.
  destruct (eq_bytes a' b); [apply keeps_raise|].
  apply keeps_bind; [apply keeps_waiter_clear|]. intros _. apply Hcall.
Qed.

Lemma _getnameinfo_keeps ok hostname port sockaddr flags :
  forks_within ok -> keeps ok (_getnameinfo hostname port sockaddr flags).
Proof.
  intros Hok. pose proof Hok as [_ [_ [_ Hgni]]]. unfold _getnameinfo.
  apply keeps_bind; [now apply _getaddrinfo_keeps|].
  intros [|rec [|y l]]; try apply keeps_raise.
  apply keeps_bind; [apply keeps_lift|]. intros address.
  apply keeps_bind; [apply keeps_new_waiter|]. intros w.
  apply keeps_bind.
  - intro st. apply keeps_engine_call. intros t h p Hp. exact (Hgni _ _ _ _ _ Hp).
  - intros [node service]. destruct (is_None service && PY3 P);
      [apply keeps_raise|apply keeps_ret].
Qed.

Lemma getaddrinfo_reach ok host port family socktype proto flags :
  forks_within ok ->
  forall fuel st r st',
    getaddrinfo fuel host port family socktype proto flags st = Some (r, st') ->
    reach ok st st'.
Proof.
  intros Hok. induction fuel as [|fuel IH]; intros st r st' H; [discriminate|].
  rewrite getaddrinfo_step in H.
  pose proof (_getaddrinfo_keeps ok host port family socktype proto flags true Hok st)
    as Hbody.
  destruct (_getaddrinfo _ _ _ _ _ _ _ st) as [[v|e] st1]; simpl in Hbody.
  - injection H as _ <-. exact Hbody.
  - destruct e; try (injection H as _ <-; exact Hbody).
    destruct (same_handle _ _).
    + injection H as _ <-. exact Hbody.
    + apply (reach_trans ok st st1); [exact Hbody|]. exact (IH _ _ _ H).
Qed.

Lemma gethostbyaddr_loop_reach ok ip :
  forks_within ok ->
  forall fuel st r st',
    gethostbyaddr_loop fuel ip st = Some (r, st') -> reach ok st st'.
Proof.
  intros Hok. induction fuel as [|fuel IH]; intros st r st' H; [discriminate|].
  rewrite gethostbyaddr_loop_step in H.
  pose proof (_gethostbyaddr_keeps ok ip Hok st) as Hbody.
  destruct (_gethostbyaddr ip st) as [[v|e] st1]; simpl in Hbody.
  - injection H as _ <-. exact Hbody.
  - destruct e; try (injection H as _ <-; exact Hbody).
    destruct (same_handle _ _).
    + injection H as _ <-. exact Hbody.
    + apply (reach_trans ok st st1); [exact Hbody|]. exact (IH _ _ _ H).
Qed.

Lemma getnameinfo_loop_reach ok address port sockaddr flags :
  forks_within ok ->
  forall fuel st r st',
    getnameinfo_loop fuel address port sockaddr flags st = Some (r, st') ->
    reach ok st st'.
Proof.
  intros Hok. induction fuel as [|fuel IH]; intros st r st' H; [discriminate|].
  rewrite getnameinfo_loop_step in H.
  pose proof (_getnameinfo_keeps ok address port sockaddr flags Hok st) as Hbody.
  destruct (_getnameinfo _ _ _ _ st) as [[v|e] st1]; simpl in Hbody.
  - injection H as _ <-. exact Hbody.
  - destruct e; try (injection H as _ <-; exact Hbody).
    destruct (same_handle _ _).
    + injection H as _ <-. exact Hbody.
    + apply (reach_trans ok st st1); [exact Hbody|]. exact (IH _ _ _ H).
Qed.

(** One pass of the loop of [gethostbyname_ex]. *)
Lemma gethostbyname_ex_loop_pass fuel b family st :
  exists o st1,
    (forall ok, forks_within ok -> reach ok st st1) /\
    gethostbyname_ex_loop (S fuel) b family st =
    match o with
    | Raise (herror code msg) =>
        if same_handle (cares st) (cares st1) then
          if code =? 1 then
            Some (Raise (gaierror (EAI_NONAME P) EAI_NONAME_MSG (EAI_NONAME P)), st1)
          else Some (Raise (herror code msg), st1)
        else gethostbyname_ex_loop fuel b family st1
    | x => Some (x, st1)
    end /\
    (forall v, o = Ok v -> h_addrs v <> []).
Proof.
  destruct (cares st) as [h|] eqn:Hc.
  - exists (checked_hostent (outcome (eng_gethostbyname E (clock st) h b family))),
      (after_query st h (Qgethostbyname b family)
         (eng_gethostbyname E (clock st) h b family)).
    split; [|split].
    + intros ok [Hhbn _]. unfold after_query.
      apply (reach_trans ok st (snd (new_waiter st)));
        [apply reach_waiter, reach_refl|].
      apply resume_reach. intros p Hp. exact (Hhbn _ _ _ _ _ Hp).
    + rewrite (gethostbyname_ex_loop_step fuel b family st h Hc). cbv zeta.
      destruct (checked_hostent _) as [v|e]; [reflexivity|].
      destruct e; reflexivity.
    + intros v. unfold checked_hostent.
      destruct (outcome _) as [result|e]; [|discriminate].
      destruct (h_addrs result) eqn:Ha; [discriminate|].
      intros [= <-]. now rewrite Ha.
  - exists (Raise (AttributeError "'NoneType' object has no attribute")),
      (snd (new_waiter st)).
    split; [|split].
    + intros ok _. apply reach_waiter, reach_refl.
    + cbn [gethostbyname_ex_loop].
      unfold bind, new_waiter, engine_call. now rewrite Hc.
    + discriminate.
Qed.

Lemma gethostbyname_ex_loop_reach ok b family :
  forks_within ok ->
  forall fuel st r st',
    gethostbyname_ex_loop fuel b family st = Some (r, st') -> reach ok st st'.
Proof.
  intros Hok. induction fuel as [|fuel IH]; intros st r st' H; [discriminate|].
  destruct (gethostbyname_ex_loop_pass fuel b family st) as [o [st1 [Hr [Hstep _]]]].
  rewrite Hstep in H. specialize (Hr ok Hok).
  destruct o as [v|e].
  - injection H as _ <-. exact Hr.
  - destruct e; try (injection H as _ <-; exact Hr).
    destruct (same_handle _ _).
    + destruct (code =? 1); injection H as _ <-; exact Hr.
    + apply (reach_trans ok st st1); [exact Hr|]. exact (IH _ _ _ H).
Qed.

Lemma gethostbyname_ex_reach ok hostname family :
  forks_within ok ->
  forall fuel st r st',
    gethostbyname_ex fuel hostname family st = Some (r, st') -> reach ok st st'.
Proof.
  intros Hok fuel st r st' H. unfold gethostbyname_ex in H.
  destruct (_hostname_to_bytes hostname) as [b|e].
  - destruct (mem b _LOCAL_AND_BROADCAST_HOSTNAMES).
    + injection H as _ <-. apply reach_refl.
    + exact (gethostbyname_ex_loop_reach ok b _ Hok _ _ _ _ H).
  - injection H as _ <-. apply reach_refl.
Qed.

Lemma gethostbyname_reach ok hostname family :
  forks_within ok ->
  forall fuel st r st',
    gethostbyname fuel hostname family st = Some (r, st') -> reach ok st st'.
Proof.
  intros Hok fuel st r st' H. unfold gethostbyname in H.
  destruct (_resolve_special hostname _) as [hn|e].
  - destruct (gethostbyname_ex fuel hn _ st) as [[[v|e] st1]|] eqn:Hex;
      [| |discriminate].
    + pose proof (gethostbyname_ex_reach ok hn _ Hok _ _ _ _ Hex) as Hr.
      destruct (h_addrs v); injection H as _ <-; exact Hr.
    + injection H as _ <-. exact (gethostbyname_ex_reach ok hn _ Hok _ _ _ _ Hex).
  - injection H as _ <-. apply reach_refl.
Qed.

Lemma gethostbyaddr_reach ok ip :
  forks_within ok ->
  forall fuel st r st',
    gethostbyaddr fuel ip st = Some (r, st') -> reach ok st st'.
Proof.
  intros Hok fuel st r st' H. unfold gethostbyaddr in H.
  destruct (_resolve_special ip AF_UNSPEC) as [ip'|e].
  - exact (gethostbyaddr_loop_reach ok ip' Hok _ _ _ _ H).
  - injection H as _ <-. apply reach_refl.
Qed.

Lemma getnameinfo_reach ok sockaddr flags :
  forks_within ok ->
  forall fuel st r st',
    getnameinfo fuel sockaddr flags st = Some (r, st') -> reach ok st st'.
Proof.
  intros Hok fuel st r st' H. unfold getnameinfo in H.
  destruct flags; try (injection H as _ <-; apply reach_refl).
  destruct sockaddr; try (injection H as _ <-; apply reach_refl).
  destruct items as [|host rest]; [injection H as _ <-; apply reach_refl|].
  destruct (_hostname_to_bytes host) as [b|e];
    [|injection H as _ <-; apply reach_refl].
  destruct rest as [|port rest']; [injection H as _ <-; apply reach_refl|].
  destruct port; try (injection H as _ <-; apply reach_refl).
  destruct (check_flowinfo rest'); [|injection H as _ <-; apply reach_refl].
  exact (getnameinfo_loop_reach ok _ _ _ _ Hok _ _ _ _ H).
Qed.

(** X3. Whatever the engine answers and however often the process
    forks, the public operations keep the channels in good order: after
    [gethostbyname], [gethostbyname_ex], [getaddrinfo], [gethostbyaddr]
    or [getnameinfo] returns, no channel is queued for [destroy] twice
    and the channel in use is not queued. *)
Theorem operations_keep_channels fuel st st' :
  channel_inv st ->
  (forall hostname family r,
     gethostbyname fuel hostname family st = Some (r, st') -> channel_inv st') /\
  (forall hostname family r,
     gethostbyname_ex fuel hostname family st = Some (r, st') ->
     channel_inv st') /\
  (forall host port family socktype proto flags r,
     getaddrinfo fuel host port family socktype proto flags st = Some (r, st') ->
     channel_inv st') /\
  (forall ip r,
     gethostbyaddr fuel ip st = Some (r, st') -> channel_inv st') /\
  (forall sockaddr flags r,
     getnameinfo fuel sockaddr flags st = Some (r, st') -> channel_inv st').
Proof.
  intro Hinv.
  assert (Hr : reach (fun _ => True) st st' -> channel_inv st').
  { intro H. exact (channel_inv_reach _ _ _ H Hinv). }
  split; [|split; [|split; [|split]]]; intros; apply Hr.
  - eapply gethostbyname_reach; [apply forks_within_True|eassumption].
  - eapply gethostbyname_ex_reach; [apply forks_within_True|eassumption].
  - eapply getaddrinfo_reach; [apply forks_within_True|eassumption].
  - eapply gethostbyaddr_reach; [apply forks_within_True|eassumption].
  - eapply getnameinfo_reach; [apply forks_within_True|eassumption].
Qed.

(** ** Retries are bounded by the forks *)

Lemma _on_fork_clock p st : clock (_on_fork p st) = clock st.
Proof. unfold _on_fork. destruct (negb _), (cares st); reflexivity. Qed.

(** The channel changes only over a call during which a fork was seen,
    and such a call advances the clock. *)
Lemma reach_progress T st0 st :
  reach (fun t => (t < T)%nat) st0 st ->
  (clock st0 <= clock st)%nat /\
  (cares st = cares st0 \/ ((clock st0 < T)%nat /\ (clock st0 < clock st)%nat)).
Proof.
  induction 1 as [|st _ [IH1 IH2]|ev st _ [IH1 IH2]|st _ [IH1 IH2]
                  |p st _ [IH1 IH2] Hok]; simpl.
  - split; [lia|now left].
  - split; [exact IH1|exact IH2].
  - split; [exact IH1|exact IH2].
  - split; [lia|]. destruct IH2 as [IH2|[Ha Hb]]; [now left|right; lia].
  - rewrite _on_fork_clock. simpl. split; [lia|]. right. lia.
Qed.

Lemma retry_advances T st st1 :
  reach (fun t => (t < T)%nat) st st1 ->
  same_handle (cares st) (cares st1) = false ->
  (clock st < T)%nat /\ (clock st < clock st1)%nat.
Proof.
  intros Hr Hs. apply same_handle_false in Hs.
  destruct (reach_progress T st st1 Hr) as [_ [Heq|H]]; [|exact H].
  now elim Hs.
Qed.

Lemma getaddrinfo_terminates T host port family socktype proto flags :
  quiet_from T ->
  forall fuel st,
    (T - clock st < fuel)%nat ->
    exists r, getaddrinfo fuel host port family socktype proto flags st = Some r.
Proof.
  intros Hq. induction fuel as [|fuel IH]; intros st Hlt; [lia|].
  rewrite getaddrinfo_step.
  pose proof (_getaddrinfo_keeps _ host port family socktype proto flags true Hq st)
    as Hbody.
  destruct (_getaddrinfo _ _ _ _ _ _ _ st) as [[v|e] st1]; simpl in Hbody;
    [eauto|].
  destruct e; eauto.
  destruct (same_handle _ _) eqn:Hs; [eauto|].
  destruct (retry_advances T st st1 Hbody Hs). apply IH. lia.
Qed.

Lemma gethostbyaddr_loop_terminates T ip :
  quiet_from T ->
  forall fuel st,
    (T - clock st < fuel)%nat ->
    exists r, gethostbyaddr_loop fuel ip st = Some r.
Proof.
  intros Hq. induction fuel as [|fuel IH]; intros st Hlt; [lia|].
  rewrite gethostbyaddr_loop_step.
  pose proof (_gethostbyaddr_keeps _ ip Hq st) as Hbody.
  destruct (_gethostbyaddr ip st) as [[v|e] st1]; simpl in Hbody; [eauto|].
  destruct e; eauto.
  destruct (same_handle _ _) eqn:Hs; [eauto|].
  destruct (retry_advances T st st1 Hbody Hs). apply IH. lia.
Qed.

Lemma getnameinfo_loop_terminates T address port sockaddr flags :
  quiet_from T ->
  forall fuel st,
    (T - clock st < fuel)%nat ->
    exists r, getnameinfo_loop fuel address port sockaddr flags st = Some r.
Proof.
  intros Hq. induction fuel as [|fuel IH]; intros st Hlt; [lia|].
  rewrite getnameinfo_loop_step.
  pose proof (_getnameinfo_keeps _ address port sockaddr flags Hq st) as Hbody.
  destruct (_getnameinfo _ _ _ _ st) as [[v|e] st1]; simpl in Hbody; [eauto|].
  destruct e; eauto.
  destruct (same_handle _ _) eqn:Hs; [eauto|].
  destruct (retry_advances T st st1 Hbody Hs). apply IH. lia.
Qed.

Lemma gethostbyname_ex_loop_terminates T b family :
  quiet_from T ->
  forall fuel st,
    (T - clock st < fuel)%nat ->
    exists r, gethostbyname_ex_loop fuel b family st = Some r.
Proof.
  intros Hq. induction fuel as [|fuel IH]; intros st Hlt; [lia|].
  destruct (gethostbyname_ex_loop_pass fuel b family st) as [o [st1 [Hr [Hstep _]]]].
  rewrite Hstep. specialize (Hr _ Hq).
  destruct o as [v|e]; [eauto|].
  destruct e; eauto.
  destruct (same_handle _ _) eqn:Hs; [destruct (code =? 1); eauto|].
  destruct (retry_advances T st st1 Hr Hs). apply IH. lia.
Qed.

(** X4. If no fork is seen over the engine calls asked at time [T] or
    later, every public operation returns, with a value or an exception,
    as soon as its fuel exceeds the number of calls that remain before
    [T]: the [while True] loops retry at most once per fork. With no fork
    at all ([T = 0]), one pass is enough. *)
Theorem retries_bounded_by_forks T fuel st :
  quiet_from T -> (T - clock st < fuel)%nat ->
  (forall hostname family,
     exists r, gethostbyname fuel hostname family st = Some r) /\
  (forall hostname family,
     exists r, gethostbyname_ex fuel hostname family st = Some r) /\
  (forall host port family socktype proto flags,
     exists r,
       getaddrinfo fuel host port family socktype proto flags st = Some r) /\
  (forall ip, exists r, gethostbyaddr fuel ip st = Some r) /\
  (forall sockaddr flags, exists r, getnameinfo fuel sockaddr flags st = Some r).
Proof.
  intros Hq Hlt.
  assert (Hex : forall hostname family,
             exists r, gethostbyname_ex fuel hostname family st = Some r).
  { intros hostname family. unfold gethostbyname_ex.
    destruct (_hostname_to_bytes hostname) as [b|e]; [|eauto].
    destruct (mem b _LOCAL_AND_BROADCAST_HOSTNAMES); [eauto|].
    now apply gethostbyname_ex_loop_terminates with (T := T). }
  split; [|split; [|split; [|split]]].
  - intros hostname family. unfold gethostbyname.
    destruct (_resolve_special hostname _) as [hn|e]; [|eauto].
    destruct (Hex hn (Some match family with Some f => f | None => AF_INET end))
      as [[[v|e] st1] ->]; [|eauto].
    destruct (h_addrs v); eauto.
  - exact Hex.
  - intros. now apply getaddrinfo_terminates with (T := T).
  - intros ip. unfold gethostbyaddr.
    destruct (_resolve_special ip AF_UNSPEC) as [ip'|e]; [|eauto].
    now apply gethostbyaddr_loop_terminates with (T := T).
  - intros sockaddr flags. unfold getnameinfo.
    destruct flags; eauto. destruct sockaddr; eauto.
    destruct items as [|host rest]; [eauto|].
    destruct (_hostname_to_bytes host) as [b|e]; [|eauto].
    destruct rest as [|port rest']; [eauto|].
    destruct port; eauto.
    destruct (check_flowinfo rest'); [|eauto].
    now apply getnameinfo_loop_terminates with (T := T).
Qed.

(** ** What the retry loops let through *)

Lemma gethostbyaddr_first ip b st h :
  _hostname_to_bytes ip = Ok b -> cares st = Some h ->
  let q := Qgethostbyaddr (PyBytes b) in
  let r := eng_gethostbyaddr E (clock st) h (PyBytes b) in
  (forall m, outcome r <> Raise (InvalidIP m)) ->
  _gethostbyaddr ip st = (outcome r, after_query st h q r).
Proof.
  intros Hb Hc q r Ho. unfold after_query, q, r in *.
  unfold _gethostbyaddr, bind, lift, new_waiter, engine_call.
  rewrite Hb. cbn [cares clock snd next_waiter]. rewrite Hc.
  destruct (outcome _) as [v|e]; [reflexivity|].
  destruct e; try reflexivity. now elim (Ho msg).
Qed.

(** X5. An answer of the engine that a method turns into a return value
    is returned by the first pass, whether or not the process forked while
    the caller waited: the four loops test the channel only when an
    exception arrives. [getaddrinfo] returns a non-empty list of records
    with its socket types and protocols filled in; [gethostbyname_ex]
    returns a host entry that has an address as it is; [gethostbyaddr]
    returns a host entry as it is; [getnameinfo] returns the node with the
    service, ['0'] standing for an empty one and, on Python 2, for a
    missing one. The answers that the methods turn into exceptions (an
    empty list, a host entry with no address, a missing service on
    Python 3) are outside this statement: after a fork they are asked
    again. *)
Theorem success_is_never_retried fuel st h :
  cares st = Some h ->
  (forall b port port' family socktype proto flags x result,
     Z.land flags AI_NUMERICHOST = 0 -> mem b _LOCAL_HOSTNAMES = false ->
     coerce_port port = Ok port' ->
     let q := Qgetaddrinfo b port' family socktype proto flags in
     let r := eng_getaddrinfo E (clock st) h b port' family socktype proto flags in
     outcome r = Ok (x :: result) ->
     getaddrinfo (S fuel) (PyBytes b) port family socktype proto flags st
     = Some (Ok (backfill socktype proto (x :: result)), after_query st h q r))
  /\
  (forall hostname b family v a rest,
     _hostname_to_bytes hostname = Ok b ->
     mem b _LOCAL_AND_BROADCAST_HOSTNAMES = false ->
     let fam := match family with Some f => f | None => AF_INET end in
     let q := Qgethostbyname b fam in
     let r := eng_gethostbyname E (clock st) h b fam in
     outcome r = Ok v -> h_addrs v = a :: rest ->
     gethostbyname_ex (S fuel) hostname family st
     = Some (Ok v, after_query st h q r))
  /\
  (forall ip0 ip b v,
     _resolve_special ip0 AF_UNSPEC = Ok ip -> _hostname_to_bytes ip = Ok b ->
     let q := Qgethostbyaddr (PyBytes b) in
     let r := eng_gethostbyaddr E (clock st) h (PyBytes b) in
     outcome r = Ok v ->
     gethostbyaddr (S fuel) ip0 st = Some (Ok v, after_query st h q r))
  /\
  (forall host b p rest flags rec st1 address h1 node service,
     _hostname_to_bytes host = Ok b -> check_flowinfo rest = Ok tt ->
     let items := host :: PyInt p :: rest in
     _getaddrinfo (PyBytes b) (PyInt (if 65536 <=? p then 0 else p))
       AF_UNSPEC SOCK_DGRAM 0 0 false st = (Ok [rec], st1) ->
     shape_address rec items = Ok address -> cares st1 = Some h1 ->
     let q := Qgetnameinfo address flags in
     let r := eng_getnameinfo E (clock st1) h1 address flags in
     outcome r = Ok (node, service) ->
     is_None service && PY3 P = false ->
     getnameinfo (S fuel) (PyTuple items) (PyInt flags) st
     = Some (Ok (node, service_or_0 service), after_query st1 h1 q r)).
Proof.
  intro Hc. split; [|split; [|split]].
  - intros b port port' family socktype proto flags x result Hf Hm Hp q r Ho.
    apply getaddrinfo_Ok.
    rewrite (_getaddrinfo_engine b port port' family socktype proto flags true st h
               Hf Hm Hp Hc).
    fold q r. now rewrite Ho.
  - intros hostname b family v a rest Hb Hm fam q r Ho Ha.
    rewrite (gethostbyname_ex_engine _ _ _ _ _ Hb Hm).
    rewrite (gethostbyname_ex_loop_step fuel b _ st h Hc).
    fold fam q r. rewrite Ho. unfold checked_hostent. now rewrite Ha.
  - intros ip0 ip b v Hsp Hb q r Ho.
    unfold gethostbyaddr. rewrite Hsp, gethostbyaddr_loop_step.
    rewrite (gethostbyaddr_first ip b st h Hb Hc).
    + fold q r. now rewrite Ho.
    + fold r. rewrite Ho. discriminate.
  - intros host b p rest flags rec st1 address h1 node service Hb Hk items
      Haux Hsh Hc1 q r Ho Hserv.
    subst items. rewrite (getnameinfo_valid _ _ _ _ _ _ _ Hb Hk).
    apply getnameinfo_loop_Ok.
    rewrite (_getnameinfo_one _ _ _ flags st rec st1 address h1 Haux Hsh Hc1).
    fold q r. now rewrite Ho, Hserv.
Qed.


(** ** Forward lookups always come with an address *)

Lemma gethostbyname_ex_loop_nonempty b family :
  forall fuel st v st',
    gethostbyname_ex_loop fuel b family st = Some (Ok v, st') ->
    h_addrs v <> [].
Proof.
  induction fuel as [|fuel IH]; intros st v st' H; [discriminate|].
  destruct (gethostbyname_ex_loop_pass fuel b family st) as [o [st1 [_ [Hstep Hne]]]].
  rewrite Hstep in H. destruct o as [v1|e].
  - injection H as <- _. now apply Hne.
  - destruct e; try discriminate.
    destruct (same_handle _ _); [destruct (code =? 1); discriminate|].
    exact (IH _ _ _ H).
Qed.

(** X7. A forward lookup answered by the engine never returns an empty
    address list, so that [gethostbyname] always finds the first address
    it returns: whenever the full lookup succeeds, [gethostbyname]
    succeeds with the head of its address list. *)
Theorem gethostbyname_ex_has_address fuel hostname0 family hostname b st v st' :
  let fam := match family with Some f => f | None => AF_INET end in
  _resolve_special hostname0 fam = Ok hostname ->
  _hostname_to_bytes hostname = Ok b ->
  mem b _LOCAL_AND_BROADCAST_HOSTNAMES = false ->
  gethostbyname_ex fuel hostname (Some fam) st = Some (Ok v, st') ->
  exists a rest,
    h_addrs v = a :: rest /\
    gethostbyname fuel hostname0 family st = Some (Ok a, st').
Proof.
  intros fam Hsp Hb Hm Hex.
  assert (Hne : h_addrs v <> []).
  { rewrite (gethostbyname_ex_engine _ _ _ _ _ Hb Hm) in Hex.
    exact (gethostbyname_ex_loop_nonempty _ _ _ _ _ _ Hex). }
  destruct (h_addrs v) as [|a rest] eqn:Ha; [now elim Hne|].
  exists a, rest. split; [reflexivity|].
  unfold gethostbyname. fold fam. rewrite Hsp, Hex. now rewrite Ha.
Qed.

(** X8. When the engine answers a forward lookup with no address,
    [gethostbyname_ex] turns the answer into [herror(EAI_NONAME,
    EAI_NONAME_MSG)]: that error reaches the caller when the channel is
    unchanged (as a [gaierror] only on a platform where [EAI_NONAME] is
    1), and the lookup is run again when the channel was swapped. *)
Theorem gethostbyname_ex_no_address fuel hostname b family st h v :
  _hostname_to_bytes hostname = Ok b ->
  mem b _LOCAL_AND_BROADCAST_HOSTNAMES = false ->
  cares st = Some h ->
  let fam := match family with Some f => f | None => AF_INET end in
  let q := Qgethostbyname b fam in
  let r := eng_gethostbyname E (clock st) h b fam in
  let st' := after_query st h q r in
  outcome r = Ok v -> h_addrs v = [] ->
  (cares st' = cares st ->
   gethostbyname_ex (S fuel) hostname family st
   = Some (Raise (if EAI_NONAME P =? 1
                  then gaierror (EAI_NONAME P) EAI_NONAME_MSG (EAI_NONAME P)
                  else herror (EAI_NONAME P) EAI_NONAME_MSG), st')) /\
  (cares st' <> cares st ->
   gethostbyname_ex (S fuel) hostname family st
   = gethostbyname_ex fuel hostname family st').
Proof.
  intros Hb Hm Hc fam q r st' Ho Ha.
  rewrite !(gethostbyname_ex_engine _ _ _ _ _ Hb Hm).
  rewrite (gethostbyname_ex_loop_step fuel b _ st h Hc).
  fold fam q r. fold st'. rewrite Ho. unfold checked_hostent. rewrite Ha.
  cbv beta iota. split; intro Hs.
  - rewrite Hs, Hc, same_handle_refl. now destruct (EAI_NONAME P =? 1).
  - rewrite Hc in Hs. apply not_eq_sym, same_handle_false in Hs. now rewrite Hs.
Qed.

(** ** Which hosts [getaddrinfo] sends where *)

Lemma getaddrinfo_pure fuel host port family socktype proto flags st r :
  _getaddrinfo host port family socktype proto flags true st = (r, st) ->
  getaddrinfo (S fuel) host port family socktype proto flags st = Some (r, st).
Proof.
  intro H. destruct r as [v|e].
  - now apply getaddrinfo_Ok.
  - now apply getaddrinfo_Raise_same.
Qed.

(** X9. [getaddrinfo] hands the lookup to the native resolver, and leaves
    the engine alone, for every host that is neither text nor [bytes]
    ([None], a [bytearray], any other object) and for every host when
    [AI_NUMERICHOST] is set; a text host is passed to the native resolver
    in its IDNA encoding. *)
Theorem getaddrinfo_native_cases
  fuel host port family socktype proto flags st :
  ((forall s, host <> PyText s) -> (forall b, host <> PyBytes b) ->
   getaddrinfo (S fuel) host port family socktype proto flags st
   = Some (native_getaddrinfo host port family socktype proto flags, st))
  /\
  (forall b,
     encode_if_text "idna" host = Ok (PyBytes b) ->
     Z.land flags AI_NUMERICHOST <> 0 ->
     getaddrinfo (S fuel) host port family socktype proto flags st
     = Some (native_getaddrinfo (PyBytes b) port family socktype proto flags, st)).
Proof.
  split.
  - intros Ht Hb. apply getaddrinfo_pure.
    unfold _getaddrinfo, bind, lift.
    destruct host; try reflexivity; [now elim (Ht s)|now elim (Hb b)].
  - intros b He Hf. apply getaddrinfo_pure.
    unfold _getaddrinfo, bind, lift. rewrite He.
    destruct (Z.eqb_spec (Z.land flags AI_NUMERICHOST) 0) as [|_];
      [contradiction|reflexivity].
Qed.

Lemma _getaddrinfo_text s b port family socktype proto flags fill st :
  encode "idna" s = Ok b ->
  _getaddrinfo (PyText s) port family socktype proto flags fill st
  = _getaddrinfo (PyBytes b) port family socktype proto flags fill st.
Proof.
  intro He. unfold _getaddrinfo, bind, lift. cbn [encode_if_text]. now rewrite He.
Qed.

(** X10. A text host is looked up exactly as its encoding: [getaddrinfo]
    on a [str] behaves as on its IDNA encoding, and [gethostbyname_ex]
    on a [str] (in [HOSTNAME_ENCODING]) or a [bytearray] behaves as on
    the same [bytes]. A host that cannot be encoded raises the codec's
    error before anything is asked of the engine. *)
Theorem text_host_is_its_encoding s b fuel st :
  (encode "idna" s = Ok b ->
   forall port family socktype proto flags,
     getaddrinfo fuel (PyText s) port family socktype proto flags st
     = getaddrinfo fuel (PyBytes b) port family socktype proto flags st)
  /\
  (forall e port family socktype proto flags,
     encode "idna" s = Raise e ->
     getaddrinfo (S fuel) (PyText s) port family socktype proto flags st
     = Some (Raise e, st))
  /\
  (encode HOSTNAME_ENCODING s = Ok b ->
   forall family,
     gethostbyname_ex fuel (PyText s) family st
     = gethostbyname_ex fuel (PyBytes b) family st)
  /\
  (forall family,
     gethostbyname_ex fuel (PyByteArray b) family st
     = gethostbyname_ex fuel (PyBytes b) family st)
  /\
  (forall e family,
     encode HOSTNAME_ENCODING s = Raise e ->
     gethostbyname_ex fuel (PyText s) family st = Some (Raise e, st)).
Proof.
  split; [|split; [|split; [|split]]].
  - intros He port family socktype proto flags. revert st.
    induction fuel as [|fuel' IH]; intro st; [reflexivity|].
    rewrite !getaddrinfo_step, (_getaddrinfo_text s b _ _ _ _ _ _ st He).
    destruct (_getaddrinfo _ _ _ _ _ _ _ st) as [[v|e] st1]; [reflexivity|].
    destruct e; try reflexivity.
    destruct (same_handle _ _); [reflexivity|apply IH].
  - intros e port family socktype proto flags He. apply getaddrinfo_pure.
    unfold _getaddrinfo, bind, lift. cbn [encode_if_text]. now rewrite He.
  - intros He family. unfold gethostbyname_ex. cbn [_hostname_to_bytes].
    now rewrite He.
  - reflexivity.
  - intros e family He. unfold gethostbyname_ex. cbn [_hostname_to_bytes].
    now rewrite He.
Qed.

(** ** The records [getaddrinfo] returns *)

Lemma hard_type_proto_filled socktype proto hard :
  In hard (hard_type_proto socktype proto) -> fst hard <> 0 /\ snd hard <> 0.
Proof.
  unfold hard_type_proto.
  destruct (Z.eqb_spec socktype 0) as [->|Hs]; simpl.
  - destruct (Z.eqb_spec proto 0) as [->|Hp]; simpl.
    + intros [<-|[<-|[]]]; split; discriminate.
    + intros [<-|[]]; simpl. split; [|exact Hp].
      destruct (proto =? SOL_TCP); discriminate.
  - intros [<-|[]]; simpl. split; [exact Hs|].
    destruct (socktype =? SOCK_STREAM); discriminate.
Qed.

Lemma backfill_filled socktype proto result :
  Forall (fun r => ai_socktype r <> 0 /\ ai_proto r <> 0)
         (backfill socktype proto result).
Proof.
  apply Forall_forall. intros r Hin. unfold backfill in Hin.
  apply in_flat_map in Hin as [r0 [_ Hin]].
  apply in_map_iff in Hin as [hard [<- Hh]].
  destruct (hard_type_proto_filled _ _ _ Hh) as [Ht Hp].
  unfold fill_in. simpl. split.
  - now destruct (Z.eqb_spec (ai_socktype r0) 0).
  - now destruct (Z.eqb_spec (ai_proto r0) 0).
Qed.

(** X11. Every record that [getaddrinfo] returns from the engine has a
    socket type and a protocol: none is left at 0, whatever the engine
    delivered and whatever hints the caller gave. *)
Theorem getaddrinfo_records_are_filled
  b port port' family socktype proto flags :
  Z.land flags AI_NUMERICHOST = 0 -> mem b _LOCAL_HOSTNAMES = false ->
  coerce_port port = Ok port' ->
  forall fuel st out st',
    getaddrinfo fuel (PyBytes b) port family socktype proto flags st
    = Some (Ok out, st') ->
    Forall (fun r => ai_socktype r <> 0 /\ ai_proto r <> 0) out.
Proof.
  intros Hf Hl Hp. induction fuel as [|fuel IH]; intros st out st' H;
    [discriminate|].
  rewrite getaddrinfo_step in H.
  destruct (cares st) as [h|] eqn:Hc.
  - rewrite (_getaddrinfo_engine b port port' family socktype proto flags true st h
               Hf Hl Hp Hc) in H.
    destruct (outcome _) as [[|x l]|e].
    + cbv beta iota in H. destruct (same_handle _ _); [discriminate|].
      exact (IH _ _ _ H).
    + injection H as <- _. apply (backfill_filled socktype proto (x :: l)).
    + destruct e; try discriminate. cbv beta iota in H.
      destruct (same_handle _ _); [discriminate|]. exact (IH _ _ _ H).
  - unfold _getaddrinfo, bind, lift, ret, raise, new_waiter, engine_call in H.
    cbn [encode_if_text] in H. rewrite Hf, Hl, Hp in H. simpl in H.
    rewrite Hc in H. discriminate.
Qed.

(** X12. The backfill never drops, reorders or alters what the engine
    delivered: reading family, canonical name and socket address off the
    output gives the engine's records in order, each once when a socket
    type or a protocol was requested and twice otherwise; a record whose
    type and protocol the engine did set comes out as it is, twice over
    when neither was requested. *)
Theorem backfill_keeps_records socktype proto result :
  let n := if (socktype =? 0) && (proto =? 0) then 2%nat else 1%nat in
  let key r := (ai_family r, ai_canonname r, ai_sockaddr r) in
  map key (backfill socktype proto result)
  = flat_map (fun r => repeat (key r) n) result
  /\
  (Forall (fun r => ai_socktype r <> 0 /\ ai_proto r <> 0) result ->
   backfill socktype proto result = flat_map (fun r => repeat r n) result).
Proof.
  intros n key.
  assert (Hlen : List.length (hard_type_proto socktype proto) = n).
  { unfold n, hard_type_proto.
    destruct (socktype =? 0); simpl; [|reflexivity].
    destruct (proto =? 0); reflexivity. }
  assert (Hmap : forall (A : Type) (f : addrinfo -> A) r,
             (forall hard, f (fill_in r hard) = f r) ->
             map f (map (fill_in r) (hard_type_proto socktype proto))
             = repeat (f r) n).
  { intros A f r Hf.
    assert (Hany : forall l : list (Z * Z),
               map f (map (fill_in r) l) = repeat (f r) (List.length l)).
    { induction l as [|hard l IHl]; simpl; [reflexivity|]. now rewrite Hf, IHl. }
    now rewrite Hany, Hlen. }
  split.
  - unfold backfill. induction result as [|r l IH]; simpl; [reflexivity|].
    rewrite map_app, IH. f_equal. now apply Hmap.
  - intro Hall. unfold backfill.
    induction Hall as [|r l [Ht Hp] _ IH]; simpl; [reflexivity|].
    rewrite IH. f_equal.
    rewrite <- (map_id (map (fill_in r) _)). apply (Hmap _ (fun x => x)).
    intro hard. unfold fill_in.
    destruct (Z.eqb_spec (ai_socktype r) 0) as [|_]; [contradiction|].
    destruct (Z.eqb_spec (ai_proto r) 0) as [|_]; [contradiction|].
    now destruct r.
Qed.

(** ** The port sent to the engine *)


(** ** More on name-info lookups *)

Lemma _getnameinfo_shape_error hostname port sockaddr flags st rec st1 e :
  _getaddrinfo hostname port AF_UNSPEC SOCK_DGRAM 0 0 false st = (Ok [rec], st1) ->
  shape_address rec sockaddr = Raise e ->
  _getnameinfo hostname port sockaddr flags st = (Raise e, st1).
Proof.
  intros H Hs. unfold _getnameinfo, bind, lift. now rewrite H, Hs.
Qed.

(** X14. When the one address found for the host is an IPv4 address and
    the caller's tuple has more than two items, [getnameinfo] raises
    [error('IPv4 sockaddr must be 2 tuple')] without asking the engine
    for the name, and without another pass. *)
Theorem getnameinfo_ipv4_needs_pair fuel host b p x rest flags st rec st1 :
  _hostname_to_bytes host = Ok b -> check_flowinfo (x :: rest) = Ok tt ->
  let items := host :: PyInt p :: x :: rest in
  _getaddrinfo (PyBytes b) (PyInt (if 65536 <=? p then 0 else p))
    AF_UNSPEC SOCK_DGRAM 0 0 false st = (Ok [rec], st1) ->
  ai_family rec = AF_INET ->
  getnameinfo (S fuel) (PyTuple items) (PyInt flags) st
  = Some (Raise (error "IPv4 sockaddr must be 2 tuple"), st1).
Proof.
  intros Hb Hk items Haux Hfam. subst items.
  rewrite (getnameinfo_valid _ _ _ _ _ _ _ Hb Hk).
  apply getnameinfo_loop_error.
  apply (_getnameinfo_shape_error _ _ _ _ _ rec); [exact Haux|].
  unfold shape_address. now rewrite Hfam.
Qed.

(** X15. The address for which the engine is asked the name: for an IPv6
    result, the host and port that were looked up followed by the flow
    info and scope id the caller gave; for any other family (IPv4 with a
    pair included) the looked-up socket address as it is. *)
Theorem getnameinfo_address_shaping
  host b p rest flags st rec st1 h1 :
  let items := host :: PyInt p :: rest in
  let port := PyInt (if 65536 <=? p then 0 else p) in
  _getaddrinfo (PyBytes b) port AF_UNSPEC SOCK_DGRAM 0 0 false st
  = (Ok [rec], st1) ->
  cares st1 = Some h1 ->
  let asked address :=
    trace (snd (_getnameinfo (PyBytes b) port items flags st))
    = EvQuery h1 (next_waiter st1) (Qgetnameinfo address flags) :: trace st1 in
  (ai_family rec = AF_INET6 P -> AF_INET6 P <> AF_INET ->
   asked (firstn 2 (ai_sockaddr rec) ++ rest)%list) /\
  (ai_family rec = AF_INET -> rest = [] -> asked (ai_sockaddr rec)) /\
  (ai_family rec <> AF_INET -> ai_family rec <> AF_INET6 P ->
   asked (ai_sockaddr rec)).
Proof.
  intros items port Haux Hc1 asked.
  assert (H : forall address,
             shape_address rec items = Ok address -> asked address).
  { intros address Hs. unfold asked.
    rewrite (_getnameinfo_one _ _ _ flags st rec st1 address h1 Haux Hs Hc1).
    unfold after_query. cbn [snd]. now rewrite resume_trace. }
  split; [|split].
  - intros Hfam Hne. apply H. unfold shape_address. rewrite Hfam.
    destruct (Z.eqb_spec (AF_INET6 P) AF_INET) as [|_]; [contradiction|].
    now rewrite Z.eqb_refl.
  - intros Hfam ->. apply H. unfold shape_address. now rewrite Hfam.
  - intros H4 H6. apply H. unfold shape_address.
    destruct (Z.eqb_spec (ai_family rec) AF_INET) as [|_]; [contradiction|].
    now destruct (Z.eqb_spec (ai_family rec) (AF_INET6 P)) as [|_];
      [contradiction|].
Qed.

Lemma service_or_0_nonempty service : service_or_0 service <> "".
Proof. destruct service as [[|c s]|]; discriminate. Qed.

Lemma _getnameinfo_service hostname port sockaddr flags st node s st' :
  _getnameinfo hostname port sockaddr flags st = (Ok (node, s), st') -> s <> "".
Proof.
  unfold _getnameinfo, bind, lift, raise, ret.
  destruct (_getaddrinfo _ _ _ _ _ _ _ st) as [[[|rec [|y l]]|e] st1];
    try discriminate.
  destruct (shape_address rec sockaddr) as [address|e]; [|discriminate].
  destruct (new_waiter st1) as [[w|e] st2]; [|discriminate].
  destruct (engine_call _ _ _ _ st2) as [[[nd service]|e] st3]; [|discriminate].
  destruct (is_None service && PY3 P); [discriminate|].
  intros [= _ <- _]. apply service_or_0_nonempty.
Qed.

(** X16. The service that [getnameinfo] returns is never the empty
    string: a missing or empty service comes back as ['0']. *)
Theorem getnameinfo_service_never_empty fuel sockaddr flags st node s st' :
  getnameinfo fuel sockaddr flags st = Some (Ok (node, s), st') -> s <> "".
Proof.
  assert (Hloop : forall address port items fl fuel' st0,
             getnameinfo_loop fuel' address port items fl st0
             = Some (Ok (node, s), st') -> s <> "").
  { intros address port items fl. induction fuel' as [|fuel' IH]; intros st0 H;
      [discriminate|].
    rewrite getnameinfo_loop_step in H.
    destruct (_getnameinfo address port items fl st0) as [[[nd sv]|e] st1] eqn:Hb.
    - injection H as -> -> ->. exact (_getnameinfo_service _ _ _ _ _ _ _ _ Hb).
    - destruct e; try discriminate.
      destruct (same_handle _ _); [discriminate|]. exact (IH _ H). }
  unfold getnameinfo.
  destruct flags; try discriminate. destruct sockaddr; try discriminate.
  destruct items as [|host rest]; [discriminate|].
  destruct (_hostname_to_bytes host) as [b|e]; [|discriminate].
  destruct rest as [|port rest']; [discriminate|].
  destruct port; try discriminate.
  destruct (check_flowinfo rest'); [|discriminate].
  apply Hloop.
Qed.

(** X17. Arguments that [getnameinfo] does not accept (flags that are
    not an integer, a socket address that is not a tuple or has fewer
    than two items, a host of the wrong type or that cannot be encoded, a
    port that is not an integer, a flow info that compares above 0xfffff
    or that cannot be compared with it) raise an exception that depends on
    the arguments and the interpreter alone: no waiter is built, the
    engine is not asked, and there is no second pass. A flow info that is
    an integer or a float is accepted exactly when its value is at most
    1048575; one that is neither is accepted exactly when the interpreter
    answers [False] to the comparison. *)
Theorem getnameinfo_rejects_before_dispatch sockaddr flags :
  (~ valid_nameinfo_args sockaddr flags ->
   exists e, forall fuel st,
       getnameinfo fuel sockaddr flags st = Some (Raise e, st))
  /\
  (forall flowinfo rest,
     check_flowinfo (PyInt flowinfo :: rest) = Ok tt <-> flowinfo <= 1048575)
  /\
  (forall num den rest,
     check_flowinfo (PyFloat num den :: rest) = Ok tt
     <-> num <= 1048575 * Z.pos den)
  /\
  (forall v rest,
     (forall n, v <> PyInt n) -> (forall num den, v <> PyFloat num den) ->
     (check_flowinfo (v :: rest) = Ok tt <-> object_gt P v 1048575 = Ok false)).
Proof.
  split; [|split; [|split]].
  - intro Hbad. unfold getnameinfo.
    destruct flags; try (eexists; intros; reflexivity).
    destruct sockaddr; try (eexists; intros; reflexivity).
    destruct items as [|host rest]; [eexists; intros; reflexivity|].
    destruct (_hostname_to_bytes host) as [b|e] eqn:Hb;
      [|eexists; intros; reflexivity].
    destruct rest as [|port rest']; [eexists; intros; reflexivity|].
    destruct port; try (eexists; intros; reflexivity).
    destruct (check_flowinfo rest') as [[]|e] eqn:Hk;
      [|eexists; intros; reflexivity].
    elim Hbad. exists host, b, z0, rest', z. auto.
  - intros flowinfo rest. unfold check_flowinfo.
    destruct (Z.ltb_spec 1048575 flowinfo); split; intro H0;
      try reflexivity; try discriminate; lia.
  - intros num den rest. unfold check_flowinfo.
    destruct (Z.ltb_spec (1048575 * Z.pos den) num); split; intro H0;
      try reflexivity; try discriminate; lia.
  - intros v rest Hint Hfloat. unfold check_flowinfo.
    destruct v; try (now elim (Hint z)); try (now elim (Hfloat num den));
      (destruct (object_gt P _ 1048575) as [[|]|e]; split; intro H0;
       try reflexivity; discriminate).
Qed.

(** ** A closed resolver *)

(** X18. After [close], an operation that needs the engine raises
    [AttributeError] at the point where it would use the channel: the
    engine is not asked, nothing is retried, and the only trace of the
    call is the waiter it built. *)
Theorem closed_resolver_raises fuel st :
  let st' := close st in
  let e := AttributeError "'NoneType' object has no attribute" in
  (forall b port port' family socktype proto flags,
     Z.land flags AI_NUMERICHOST = 0 -> mem b _LOCAL_HOSTNAMES = false ->
     coerce_port port = Ok port' ->
     getaddrinfo (S fuel) (PyBytes b) port family socktype proto flags st'
     = Some (Raise e, snd (new_waiter st')))
  /\
  (forall hostname b family,
     _hostname_to_bytes hostname = Ok b ->
     mem b _LOCAL_AND_BROADCAST_HOSTNAMES = false ->
     gethostbyname_ex (S fuel) hostname family st'
     = Some (Raise e, snd (new_waiter st')))
  /\
  (forall ip0 ip b,
     _resolve_special ip0 AF_UNSPEC = Ok ip -> _hostname_to_bytes ip = Ok b ->
     gethostbyaddr (S fuel) ip0 st' = Some (Raise e, snd (new_waiter st')))
  /\
  (forall host b p rest flags,
     _hostname_to_bytes host = Ok b -> check_flowinfo rest = Ok tt ->
     mem b _LOCAL_HOSTNAMES = false ->
     getnameinfo (S fuel) (PyTuple (host :: PyInt p :: rest)) (PyInt flags) st'
     = Some (Raise e, snd (new_waiter st')))
  /\
  trace (snd (new_waiter st')) = trace st /\
  clock (snd (new_waiter st')) = clock st.
Proof.
  intros st' e.
  assert (Hc : cares st' = None).
  { unfold st', close. destruct (cares st) eqn:H; simpl; [reflexivity|exact H]. }
  assert (Htr : trace (snd (new_waiter st')) = trace st)
    by (unfold st', close; now destruct (cares st)).
  assert (Hck : clock (snd (new_waiter st')) = clock st)
    by (unfold st', close; now destruct (cares st)).
  clearbody st'.
  assert (Hgai : forall b port port' family socktype proto flags fill,
             Z.land flags AI_NUMERICHOST = 0 -> mem b _LOCAL_HOSTNAMES = false ->
             coerce_port port = Ok port' ->
             _getaddrinfo (PyBytes b) port family socktype proto flags fill st'
             = (Raise e, snd (new_waiter st'))).
  { intros b port port' family socktype proto flags fill Hf Hm Hp.
    unfold _getaddrinfo, bind, lift, new_waiter, engine_call.
    cbn [encode_if_text]. rewrite Hf, Hm, Hp. simpl. now rewrite Hc. }
  split; [|split; [|split; [|split; [|split]]]].
  - intros b port port' family socktype proto flags Hf Hm Hp.
    rewrite getaddrinfo_step, (Hgai _ _ port' _ _ _ _ true Hf Hm Hp).
    reflexivity.
  - intros hostname b family Hb Hm.
    rewrite (gethostbyname_ex_engine _ _ _ _ _ Hb Hm).
    cbn [gethostbyname_ex_loop]. unfold bind, new_waiter, engine_call.
    now rewrite Hc.
  - intros ip0 ip b Hsp Hb. unfold gethostbyaddr.
    rewrite Hsp, gethostbyaddr_loop_step.
    unfold _gethostbyaddr, bind, lift, new_waiter, engine_call.
    rewrite Hb. cbn [cares]. now rewrite Hc.
  - intros host b p rest flags Hb Hk Hm.
    rewrite (getnameinfo_valid _ _ _ _ _ _ _ Hb Hk), getnameinfo_loop_step.
    rewrite (_getnameinfo_aux_raise _ _ _ _ st' e (snd (new_waiter st'))).
    + reflexivity.
    + apply (Hgai b _ (if (if 65536 <=? p then 0 else p) =? 0
                       then PyNone
                       else PyBytes (str_of_int (if 65536 <=? p then 0 else p))));
        auto.
      unfold coerce_port. now destruct (_ =? 0).
  - exact Htr.
  - exact Hck.
Qed.

(** ** The keyword arguments of the constructor *)

Lemma dict_get_app k (d d' : dict) :
  dict_get k (d ++ d')%list =
  match dict_get k d with Some v => Some v | None => dict_get k d' end.
Proof.
  induction d as [|[k' v] d IH]; simpl; [reflexivity|].
  now destruct (String.eqb k k').
Qed.

Lemma dict_get_setdefault k k' v d :
  dict_get k (setdefault k' v d) =
  match dict_get k d with
  | Some x => Some x
  | None => if String.eqb k k' then Some v else None
  end.
Proof.
  unfold setdefault. destruct (dict_get k' d) as [x|] eqn:Hk'.
  - destruct (dict_get k d) as [y|] eqn:Hk; [reflexivity|].
    destruct (String.eqb_spec k k') as [->|_]; [congruence|reflexivity].
  - rewrite dict_get_app. simpl. now destruct (dict_get k d).
Qed.

(** X19. [__init__] fills the keyword arguments from the configuration
    without overriding the caller: a key the caller passed keeps the
    caller's value; a key the caller left out gets the value of the first
    c-ares setting of that name whose value is not [None], and stays
    absent if there is none; with [use_environ] false the arguments are
    left as they are. *)
Theorem init_kwargs_defaults use_environ settings kwargs k :
  dict_get k (init_kwargs use_environ settings kwargs) =
  match dict_get k kwargs with
  | Some v => Some v
  | None => if use_environ then default_for k settings else None
  end.
Proof.
  unfold init_kwargs. destruct use_environ; [|now destruct (dict_get k kwargs)].
  revert kwargs. induction settings as [|s l IH]; intro kwargs; simpl.
  - now destruct (dict_get k kwargs).
  - rewrite IH. unfold default_for. simpl.
    destruct (is_ares s); simpl.
    + destruct (setting_get s) as [value|] eqn:Hg.
      * rewrite dict_get_setdefault.
        destruct (dict_get k kwargs) as [x|]; [reflexivity|].
        rewrite String.eqb_sym.
        destruct (String.eqb (kwarg_name s) k); simpl; [now rewrite Hg|].
        reflexivity.
      * rewrite andb_false_r. reflexivity.
    + reflexivity.
Qed.

(** ** Special names in forward lookups, and equivalent ports *)

(** X20. [gethostbyname_ex] answers the four names of
    [_LOCAL_AND_BROADCAST_HOSTNAMES] from the native resolver alone: the
    state is untouched, no fuel is needed, and the address family the
    caller asked for plays no part, since the native call is given the
    name only. *)
Theorem gethostbyname_ex_special_names fuel hostname b family st :
  _hostname_to_bytes hostname = Ok b ->
  In b _LOCAL_AND_BROADCAST_HOSTNAMES ->
  gethostbyname_ex fuel hostname family st
  = Some (native_gethostbyname_ex b, st).
Proof.
  intros Hb Hin. apply mem_In in Hin.
  unfold gethostbyname_ex. now rewrite Hb, Hin.
Qed.



End Resolver.

(** * Concrete runs

    The resolver is built in process 100 ([init 100]); its first channel
    is channel 0. *)

(** ** Retrying on a swapped channel (C1) *)

(** C1 as stated fails: [gethostbyname_ex] does not raise the engine's
    [herror(1, ...)] to the caller although the channel is unchanged; it
    raises a [gaierror] in its place. *)
Lemma retry_on_swapped_channel_counterexample :
  let run := gethostbyname_ex linux_py3 engine_nothing native_host_none
               encode_ascii 1 (PyBytes "example.com") None (init 100) in
  outcome (eng_gethostbyname engine_nothing 0%nat 0%nat "example.com" AF_INET)
  = Raise (herror 1 "Host not found") /\
  option_map (fun x => cares (snd x)) run = Some (cares (init 100)) /\
  option_map fst run
  = Some (Raise (gaierror (-2) "Name or service not known" (-2))) /\
  option_map fst run <> Some (Raise (herror 1 "Host not found")).
Proof.
  cbv zeta. repeat split; try reflexivity. vm_compute. discriminate.
Qed.

(** The first address-info query of [getaddrinfo] and of [getnameinfo]
    comes back with [gaierror] in a child process: the error is dropped
    and the lookup runs again, with [self.cares] now channel 1. Without a
    fork, the [herror(2, ...)] of a forward or reverse lookup reaches the
    caller. *)
Lemma retry_on_swapped_channel_witness :
  (let q := Qgetaddrinfo "example.com" (PyBytes "80") 0 0 0 0 in
   let st' := after_query (init 100) 0%nat q
                (after_fork (A:=list addrinfo) 101 (Raise eai_again)) in
   getaddrinfo linux_py3 engine_forked native_none encode_ascii 2
     (PyBytes "example.com") (PyInt 80) 0 0 0 0 (init 100)
   = getaddrinfo linux_py3 engine_forked native_none encode_ascii 1
       (PyBytes "example.com") (PyInt 80) 0 0 0 0 st'
   /\ cares st' = Some 1%nat)
  /\
  (let q := Qgethostbyaddr (PyBytes "10.0.0.1") in
   gethostbyaddr linux_py3 engine_two native_none encode_ascii resolve_plain 1
     (PyText "10.0.0.1") (init 100)
   = Some (Raise try_again,
           after_query (init 100) 0%nat q (quiet (A:=hostent) (Raise try_again))))
  /\
  (let q := Qgetaddrinfo "example.com" PyNone AF_UNSPEC SOCK_DGRAM 0 0 in
   getnameinfo linux_py3 engine_forked native_none encode_ascii 2
     (PyTuple [PyText "example.com"; PyInt 0]) (PyInt 0) (init 100)
   = getnameinfo linux_py3 engine_forked native_none encode_ascii 1
       (PyTuple [PyText "example.com"; PyInt 0]) (PyInt 0)
       (after_query (init 100) 0%nat q (after_fork (A:=list addrinfo) 101 (Raise eai_again))))
  /\
  (let q := Qgethostbyname "example.com" AF_INET in
   gethostbyname_ex linux_py3 engine_two native_host_none encode_ascii 1
     (PyText "example.com") None (init 100)
   = Some (Raise try_again,
           after_query (init 100) 0%nat q (quiet (A:=hostent) (Raise try_again)))).
Proof.
  destruct (retry_on_swapped_channel linux_py3 engine_forked native_none
              native_host_none encode_ascii resolve_plain 1 (init 100) 0%nat eq_refl)
    as [Hgai [_ [Hgni [_ [_ Hfork]]]]].
  destruct (retry_on_swapped_channel linux_py3 engine_two native_none
              native_host_none encode_ascii resolve_plain 0 (init 100) 0%nat eq_refl)
    as [_ [Hhba [_ [_ [Hhbn _]]]]].
  assert (Hwf : wf (init 100)) by apply wf_init.
  split; [|split; [|split]].
  - cbv zeta.
    destruct (Hfork (list addrinfo) (Qgetaddrinfo "example.com" (PyBytes "80") 0 0 0 0)
                (after_fork (A:=list addrinfo) 101 (Raise eai_again)) 101 Hwf eq_refl eq_refl)
      as [Hnew Hdiff]; [discriminate|].
    split; [|exact Hnew].
    apply (Hgai "example.com" (PyInt 80) (PyBytes "80") 0 0 0 0 (-3) "Temporary failure" (-3)
             eq_refl eq_refl eq_refl eq_refl).
    exact Hdiff.
  - apply (Hhba (PyText "10.0.0.1") (PyText "10.0.0.1") "10.0.0.1" 2 "Try again"
             eq_refl eq_refl eq_refl).
    reflexivity.
  - cbv zeta.
    destruct (Hfork (list addrinfo) (Qgetaddrinfo "example.com" PyNone AF_UNSPEC SOCK_DGRAM 0 0)
                (after_fork (A:=list addrinfo) 101 (Raise eai_again)) 101 Hwf eq_refl eq_refl)
      as [_ Hdiff]; [discriminate|].
    apply (Hgni (PyText "example.com") "example.com" 0 [] 0 PyNone (-3) "Temporary failure" (-3)
             eq_refl eq_refl eq_refl eq_refl eq_refl).
    exact Hdiff.
  - apply (Hhbn (PyText "example.com") "example.com" None 2 "Try again" eq_refl eq_refl eq_refl).
    reflexivity.
Defined.

(** ** The special names (C2) *)

(** C2 as stated fails: [getaddrinfo] on b'<broadcast>' is not answered
    by the native resolver. The native resolver knows no name here, yet
    the call returns records, and an engine call is on record. *)
Lemma getaddrinfo_special_names_counterexample :
  let run := getaddrinfo linux_py3 engine_one native_none encode_ascii 1
               (PyBytes "<broadcast>") (PyInt 0) 0 0 0 0 (init 100) in
  option_map fst run
  <> Some (native_none (PyBytes "<broadcast>") (PyInt 0) 0 0 0 0) /\
  option_map (fun x => trace (snd x)) run
  = Some [EvQuery 0%nat 0%nat (Qgetaddrinfo "<broadcast>" PyNone 0 0 0 0)] /\
  trace (init 100) = [].
Proof.
  cbv zeta. repeat split; try reflexivity. vm_compute. discriminate.
Qed.

Lemma getaddrinfo_special_names_witness :
  getaddrinfo linux_py3 engine_one native_none encode_ascii 1
    (PyBytes "localhost") (PyInt 80) 0 0 0 0 (init 100)
  = Some (native_none (PyBytes "localhost") (PyInt 80) 0 0 0 0, init 100)
  /\
  trace (snd (_getaddrinfo linux_py3 engine_one native_none encode_ascii
                (PyBytes "<broadcast>") (PyInt 80) 0 0 0 0 true (init 100)))
  = [EvQuery 0%nat 0%nat (Qgetaddrinfo "<broadcast>" (PyBytes "80") 0 0 0 0)].
Proof.
  split.
  - apply (proj1 (getaddrinfo_special_names linux_py3 engine_one native_none
                    encode_ascii 0 "localhost" (PyInt 80) 0 0 0 0 (init 100))).
    left. reflexivity.
  - destruct (proj2 (getaddrinfo_special_names linux_py3 engine_one native_none
                       encode_ascii 0 "<broadcast>" (PyInt 80) 0 0 0 0 (init 100))
                (or_intror (or_introl eq_refl)) 0%nat (PyBytes "80")
                eq_refl eq_refl eq_refl) as [Hst Htr].
    rewrite Hst. exact Htr.
Defined.

(** ** Filling in socket type and protocol (C3) *)

(** C3 as stated fails: the caller asks for ([SOCK_STREAM], [SOL_UDP]) and
    the engine record has neither field set; the output record carries
    protocol [SOL_TCP], not the protocol asked for. *)
Lemma getaddrinfo_backfill_counterexample :
  let run := getaddrinfo linux_py3 engine_one native_none encode_ascii 1
               (PyBytes "example.com") (PyInt 80) 0 SOCK_STREAM SOL_UDP 0
               (init 100) in
  outcome (eng_getaddrinfo engine_one 0%nat 0%nat "example.com" (PyBytes "80")
             0 SOCK_STREAM SOL_UDP 0)
  = Ok [record_v4 "93.184.216.34" 80] /\
  option_map fst run
  = Some (Ok [{| ai_family := AF_INET; ai_socktype := SOCK_STREAM;
                 ai_proto := SOL_TCP; ai_canonname := "";
                 ai_sockaddr := [PyText "93.184.216.34"; PyInt 80] |}]) /\
  (SOCK_STREAM, SOL_TCP) <> (SOCK_STREAM, SOL_UDP).
Proof.
  cbv zeta. repeat split; try reflexivity. discriminate.
Qed.

Lemma getaddrinfo_backfill_witness :
  exists out,
    getaddrinfo linux_py3 engine_one native_none encode_ascii 1
      (PyBytes "example.com") (PyInt 80) 0 0 0 0 (init 100)
    = Some (Ok out,
            after_query (init 100) 0%nat
              (Qgetaddrinfo "example.com" (PyBytes "80") 0 0 0 0)
              (quiet (Ok [record_v4 "93.184.216.34" 80])))
    /\
    out = [{| ai_family := AF_INET; ai_socktype := SOCK_STREAM;
              ai_proto := SOL_TCP; ai_canonname := "";
              ai_sockaddr := [PyText "93.184.216.34"; PyInt 80] |};
           {| ai_family := AF_INET; ai_socktype := SOCK_DGRAM;
              ai_proto := SOL_UDP; ai_canonname := "";
              ai_sockaddr := [PyText "93.184.216.34"; PyInt 80] |}].
Proof.
  destruct (getaddrinfo_backfill linux_py3 engine_one native_none encode_ascii
              0 "example.com" (PyInt 80) (PyBytes "80") 0 0 0 0 (init 100) 0%nat
              [record_v4 "93.184.216.34" 80]
              eq_refl eq_refl eq_refl eq_refl eq_refl)
    as [out [Hrun [_ [_ [_ [Hboth _]]]]]]; [discriminate|].
  exists out. split; [exact Hrun|].
  rewrite (Hboth eq_refl eq_refl). reflexivity.
Defined.

(** ** An empty answer of the engine (C4) *)

Lemma getaddrinfo_empty_is_error_witness :
  getaddrinfo linux_py3 engine_nothing native_none encode_ascii 1
    (PyBytes "example.com") (PyInt 80) 0 0 0 0 (init 100)
  = Some (Raise (gaierror (-2) "Name or service not known" (-2)),
          after_query (init 100) 0%nat
            (Qgetaddrinfo "example.com" (PyBytes "80") 0 0 0 0)
            (quiet (A:=list addrinfo) (Ok [])))
  /\
  getaddrinfo linux_py3 engine_empty_then_one native_none encode_ascii 2
    (PyBytes "example.com") (PyInt 80) 0 0 0 0 (init 100)
  = getaddrinfo linux_py3 engine_empty_then_one native_none encode_ascii 1
      (PyBytes "example.com") (PyInt 80) 0 0 0 0
      (after_query (init 100) 0%nat
         (Qgetaddrinfo "example.com" (PyBytes "80") 0 0 0 0)
         (after_fork (A:=list addrinfo) 101 (Ok [])))
  /\
  forall fuel st',
    getaddrinfo linux_py3 engine_one native_none encode_ascii fuel
      (PyBytes "example.com") (PyInt 80) 0 0 0 0 (init 100)
    <> Some (Ok [], st').
Proof.
  split; [|split].
  - destruct (getaddrinfo_empty_is_error linux_py3 engine_nothing native_none
                encode_ascii "example.com" (PyInt 80) (PyBytes "80") 0 0 0 0
                eq_refl eq_refl eq_refl) as [Hraise _].
    destruct (Hraise (init 100) 0%nat true eq_refl eq_refl) as [_ [Hpub _]].
    exact (Hpub eq_refl 0%nat).
  - destruct (getaddrinfo_empty_is_error linux_py3 engine_empty_then_one
                native_none encode_ascii "example.com" (PyInt 80) (PyBytes "80")
                0 0 0 0 eq_refl eq_refl eq_refl) as [Hraise _].
    destruct (Hraise (init 100) 0%nat true eq_refl eq_refl) as [_ [_ Hretry]].
    apply (Hretry ltac:(discriminate) 1%nat).
  - intros fuel st'.
    exact (proj2 (getaddrinfo_empty_is_error linux_py3 engine_one native_none
                    encode_ascii "example.com" (PyInt 80) (PyBytes "80") 0 0 0 0
                    eq_refl eq_refl eq_refl) fuel (init 100) st').
Defined.

(** C4 as stated fails: the engine delivers an empty list to the query,
    the process forks meanwhile, and [getaddrinfo] raises nothing: it
    asks again on the new channel and returns the records found then. *)
Lemma getaddrinfo_empty_is_error_counterexample :
  let run := getaddrinfo linux_py3 engine_empty_then_one native_none
               encode_ascii 2 (PyBytes "example.com") (PyInt 80) 0 0 0 0
               (init 100) in
  outcome (eng_getaddrinfo engine_empty_then_one 0%nat 0%nat "example.com"
             (PyBytes "80") 0 0 0 0) = Ok [] /\
  option_map fst run
  = Some (Ok [{| ai_family := AF_INET; ai_socktype := SOCK_STREAM;
                 ai_proto := SOL_TCP; ai_canonname := "";
                 ai_sockaddr := [PyText "93.184.216.34"; PyInt 80] |};
              {| ai_family := AF_INET; ai_socktype := SOCK_DGRAM;
                 ai_proto := SOL_UDP; ai_canonname := "";
                 ai_sockaddr := [PyText "93.184.216.34"; PyInt 80] |}]) /\
  option_map fst run
  <> Some (Raise (gaierror (-2) "Name or service not known" (-2))) /\
  option_map (fun x => trace (snd x)) run
  = Some [EvQuery 1%nat 1%nat (Qgetaddrinfo "example.com" (PyBytes "80") 0 0 0 0);
          EvQuery 0%nat 0%nat (Qgetaddrinfo "example.com" (PyBytes "80") 0 0 0 0)].
Proof.
  cbv zeta. repeat split; try reflexivity. vm_compute. discriminate.
Qed.

(** ** Name-info lookups (C5, C6, C7) *)

(** C5 as stated fails: the engine delivers no candidate for the
    auxiliary lookup, and [getnameinfo] raises [gaierror(EAI_NONAME, ...)],
    not the ambiguous-result error. *)
Lemma getnameinfo_ambiguous_counterexample :
  let run := getnameinfo linux_py3 engine_nothing native_none encode_ascii 1
               (PyTuple [PyText "example.com"; PyInt 80]) (PyInt 0) (init 100) in
  outcome (eng_getaddrinfo engine_nothing 0%nat 0%nat "example.com" (PyBytes "80")
             AF_UNSPEC SOCK_DGRAM 0 0) = Ok [] /\
  option_map fst run
  = Some (Raise (gaierror (-2) "Name or service not known" (-2))) /\
  option_map fst run
  <> Some (Raise (error "sockaddr resolved to multiple addresses")).
Proof.
  cbv zeta. repeat split; try reflexivity. vm_compute. discriminate.
Qed.

Lemma getnameinfo_ambiguous_witness :
  getnameinfo linux_py3 engine_two native_none encode_ascii 1
    (PyTuple [PyText "example.com"; PyInt 80]) (PyInt 0) (init 100)
  = Some (Raise (error "sockaddr resolved to multiple addresses"),
          after_query (init 100) 0%nat
            (Qgetaddrinfo "example.com" (PyBytes "80") AF_UNSPEC SOCK_DGRAM 0 0)
            (quiet (Ok [record_v4 "93.184.216.34" 80;
                        record_v4 "93.184.216.35" 80])))
  /\
  getnameinfo linux_py3 engine_two native_empty encode_ascii 1
    (PyTuple [PyText "localhost"; PyInt 80]) (PyInt 0) (init 100)
  = Some (Raise (error "sockaddr resolved to multiple addresses"), init 100)
  /\
  getnameinfo linux_py3 engine_nothing native_none encode_ascii 1
    (PyTuple [PyText "example.com"; PyInt 80]) (PyInt 0) (init 100)
  = Some (Raise (gaierror (-2) "Name or service not known" (-2)),
          after_query (init 100) 0%nat
            (Qgetaddrinfo "example.com" (PyBytes "80") AF_UNSPEC SOCK_DGRAM 0 0)
            (quiet (A:=list addrinfo) (Ok []))).
Proof.
  split; [|split].
  - destruct (getnameinfo_ambiguous linux_py3 engine_two native_none encode_ascii
                0 (PyText "example.com") "example.com" 80 [] 0 (init 100)
                eq_refl eq_refl) as [_ Heng].
    destruct (Heng 0%nat (PyBytes "80") eq_refl eq_refl eq_refl) as [Hmany _].
    exact (Hmany _ _ _ eq_refl).
  - destruct (getnameinfo_ambiguous linux_py3 engine_two native_empty encode_ascii
                0 (PyText "localhost") "localhost" 80 [] 0 (init 100)
                eq_refl eq_refl) as [Hlen _].
    apply (Hlen [] eq_refl). discriminate.
  - destruct (getnameinfo_ambiguous linux_py3 engine_nothing native_none
                encode_ascii 0 (PyText "example.com") "example.com" 80 [] 0
                (init 100) eq_refl eq_refl) as [_ Heng].
    destruct (Heng 0%nat (PyBytes "80") eq_refl eq_refl eq_refl) as [_ Hnone].
    exact (Hnone eq_refl eq_refl).
Defined.

Lemma getnameinfo_no_service_witness :
  option_map fst
    (getnameinfo linux_py3 engine_one native_none encode_ascii 1
       (PyTuple [PyText "example.com"; PyInt 80]) (PyInt 0) (init 100))
  = Some (Raise (gaierror (-2) "Name or service not known" (-2)))
  /\
  (exists st',
     cares st' = Some 1%nat /\
     getnameinfo linux_py3 engine_service_after_fork native_none encode_ascii 2
       (PyTuple [PyText "example.com"; PyInt 80]) (PyInt 0) (init 100)
     = getnameinfo linux_py3 engine_service_after_fork native_none encode_ascii 1
         (PyTuple [PyText "example.com"; PyInt 80]) (PyInt 0) st')
  /\
  option_map fst
    (getnameinfo linux_py2 engine_one native_none encode_ascii 1
       (PyTuple [PyText "example.com"; PyInt 80]) (PyInt 0) (init 100))
  = Some (Ok (Some "example.com", "0")).
Proof.
  split; [|split].
  - destruct (getnameinfo_no_service linux_py3 engine_one native_none encode_ascii
                0 (PyText "example.com") "example.com" 80 [] 0 (init 100)
                (record_v4 "93.184.216.34" 80) _
                [PyText "93.184.216.34"; PyInt 80] 0%nat (Some "example.com")
                eq_refl eq_refl eq_refl eq_refl eq_refl eq_refl) as [Hpy3 _].
    destruct (Hpy3 eq_refl) as [_ [Hpub _]]. rewrite (Hpub eq_refl). reflexivity.
  - destruct (getnameinfo_no_service linux_py3 engine_service_after_fork
                native_none encode_ascii
                1 (PyText "example.com") "example.com" 80 [] 0 (init 100)
                (record_v4 "93.184.216.34" 80) _
                [PyText "93.184.216.34"; PyInt 80] 0%nat (Some "example.com")
                eq_refl eq_refl eq_refl eq_refl eq_refl eq_refl) as [Hpy3 _].
    destruct (Hpy3 eq_refl) as [_ [_ Hretry]].
    eexists. split; [|apply Hretry; discriminate]. reflexivity.
  - destruct (getnameinfo_no_service linux_py2 engine_one native_none encode_ascii
                0 (PyText "example.com") "example.com" 80 [] 0 (init 100)
                (record_v4 "93.184.216.34" 80) _
                [PyText "93.184.216.34"; PyInt 80] 0%nat (Some "example.com")
                eq_refl eq_refl eq_refl eq_refl eq_refl eq_refl) as [_ Hpy2].
    rewrite (Hpy2 eq_refl). reflexivity.
Defined.

(** C6 as stated fails: on Python 3 the name-info query completes with no
    service while the process forks, and [getnameinfo] raises nothing: it
    runs the lookup again on the new channel and returns the tuple found
    then. *)
Lemma getnameinfo_no_service_counterexample :
  let run := getnameinfo linux_py3 engine_service_after_fork native_none
               encode_ascii 2 (PyTuple [PyText "example.com"; PyInt 80])
               (PyInt 0) (init 100) in
  PY3 linux_py3 = true /\
  outcome (eng_getnameinfo engine_service_after_fork 1%nat 0%nat
             [PyText "93.184.216.34"; PyInt 80] 0)
  = Ok (Some "example.com", None) /\
  option_map fst run = Some (Ok (Some "example.com", "http")) /\
  option_map fst run
  <> Some (Raise (gaierror (-2) "Name or service not known" (-2))) /\
  option_map (fun x => trace (snd x)) run
  = Some [EvQuery 1%nat 3%nat
            (Qgetnameinfo [PyText "93.184.216.34"; PyInt 80] 0);
          EvQuery 1%nat 2%nat
            (Qgetaddrinfo "example.com" (PyBytes "80") AF_UNSPEC SOCK_DGRAM 0 0);
          EvQuery 0%nat 1%nat
            (Qgetnameinfo [PyText "93.184.216.34"; PyInt 80] 0);
          EvQuery 0%nat 0%nat
            (Qgetaddrinfo "example.com" (PyBytes "80") AF_UNSPEC SOCK_DGRAM 0 0)].
Proof.
  cbv zeta. repeat split; try reflexivity. vm_compute. discriminate.
Qed.

(** C7 as stated fails for address-info queries: [getaddrinfo] with port
    70000 sends b'70000' to the engine, where port 0 sends no service. *)
Lemma getnameinfo_port_clamped_counterexample :
  let run port := getaddrinfo linux_py3 engine_one native_none encode_ascii 1
                    (PyBytes "example.com") (PyInt port) 0 0 0 0 (init 100) in
  option_map (fun x => trace (snd x)) (run 70000)
  = Some [EvQuery 0%nat 0%nat
            (Qgetaddrinfo "example.com" (PyBytes "70000") 0 0 0 0)] /\
  option_map (fun x => trace (snd x)) (run 0)
  = Some [EvQuery 0%nat 0%nat (Qgetaddrinfo "example.com" PyNone 0 0 0 0)] /\
  run 70000 <> run 0.
Proof.
  cbv zeta. repeat split; try reflexivity. vm_compute. discriminate.
Qed.

Lemma getnameinfo_port_clamped_witness :
  65536 <= 70000 /\
  getnameinfo linux_py3 engine_one native_none encode_ascii 1
    (PyTuple [PyText "example.com"; PyInt 70000]) (PyInt 0) (init 100)
  = getnameinfo linux_py3 engine_one native_none encode_ascii 1
      (PyTuple [PyText "example.com"; PyInt 0]) (PyInt 0) (init 100)
  /\
  snd (_getaddrinfo linux_py3 engine_one native_none encode_ascii
         (PyBytes "example.com") (PyInt 0) AF_UNSPEC SOCK_DGRAM 0 0 false (init 100))
  = after_query (init 100) 0%nat
      (Qgetaddrinfo "example.com" PyNone AF_UNSPEC SOCK_DGRAM 0 0)
      (quiet (Ok [record_v4 "93.184.216.34" 80])).
Proof.
  assert (Hp : 65536 <= 70000) by (intro H; discriminate H).
  split; [exact Hp|].
  destruct (getnameinfo_port_clamped linux_py3 engine_one native_none encode_ascii
              1 (PyText "example.com") 70000 [] (PyInt 0) (init 100) Hp)
    as [Heq [Haux _]].
  split; [exact Heq|].
  exact (Haux "example.com" 0%nat eq_refl eq_refl).
Defined.

(** ** Forward lookups by name (C8, C9) *)

Lemma gethostbyname_ex_host_not_found_witness :
  gethostbyname_ex linux_py3 engine_nothing native_host_none encode_ascii 1
    (PyText "example.com") None (init 100)
  = Some (Raise (gaierror (-2) "Name or service not known" (-2)),
          after_query (init 100) 0%nat (Qgethostbyname "example.com" AF_INET)
            (quiet (A:=hostent) (Raise host_not_found)))
  /\
  gethostbyname_ex linux_py3 engine_two native_host_none encode_ascii 1
    (PyText "example.com") None (init 100)
  = Some (Raise (herror 2 "Try again"),
          after_query (init 100) 0%nat (Qgethostbyname "example.com" AF_INET)
            (quiet (A:=hostent) (Raise try_again))).
Proof.
  split.
  - exact (gethostbyname_ex_host_not_found linux_py3 engine_nothing
             native_host_none encode_ascii 0 (PyText "example.com") "example.com"
             None (init 100) 0%nat 1 "Host not found"
             eq_refl eq_refl eq_refl eq_refl eq_refl).
  - exact (gethostbyname_ex_host_not_found linux_py3 engine_two
             native_host_none encode_ascii 0 (PyText "example.com") "example.com"
             None (init 100) 0%nat 2 "Try again"
             eq_refl eq_refl eq_refl eq_refl eq_refl).
Defined.

(** C9 as stated fails: without a family, the query that reaches the
    engine carries [AF_INET], not [AF_UNSPEC], and the address returned
    is not the one the [AF_UNSPEC] lookup returns. *)
Lemma gethostbyname_default_family_counterexample :
  let run family := gethostbyname linux_py3 engine_by_family native_host_none
                      encode_ascii resolve_plain 1 (PyText "example.com") family
                      (init 100) in
  option_map (fun x => trace (snd x)) (run None)
  = Some [EvQuery 0%nat 0%nat (Qgethostbyname "example.com" AF_INET)] /\
  AF_INET <> AF_UNSPEC /\
  option_map fst (run None) = Some (Ok "93.184.216.34") /\
  option_map fst (run (Some AF_UNSPEC)) = Some (Ok "2606:2800:220:1::1") /\
  run None <> run (Some AF_UNSPEC).
Proof.
  cbv zeta. repeat split; try reflexivity; discriminate.
Qed.

Lemma gethostbyname_default_family_witness :
  gethostbyname linux_py3 engine_one native_host_none encode_ascii resolve_plain 1
    (PyText "example.com") None (init 100)
  = Some (Ok "93.184.216.34",
          after_query (init 100) 0%nat (Qgethostbyname "example.com" AF_INET)
            (quiet (Ok example_hostent)))
  /\
  gethostbyname linux_py3 engine_one native_host_none encode_ascii resolve_plain 1
    (PyText "example.com") (Some AF_UNSPEC) (init 100)
  = Some (Ok "93.184.216.34",
          after_query (init 100) 0%nat (Qgethostbyname "example.com" AF_UNSPEC)
            (quiet (Ok example_hostent))).
Proof.
  destruct (gethostbyname_default_family linux_py3 engine_one native_host_none
              encode_ascii resolve_plain 0 (PyText "example.com") (init 100))
    as [_ [Hdefault _]].
  destruct (gethostbyname_default_family linux_py3 engine_one native_host_none
              encode_ascii resolve_plain 1 (PyText "example.com") (init 100))
    as [_ [_ Hfirst]].
  split.
  - exact (proj1 (Hdefault (PyText "example.com") "example.com" 0%nat
                    example_hostent "93.184.216.34" ["93.184.216.35"]
                    eq_refl eq_refl eq_refl eq_refl eq_refl eq_refl)).
  - exact (Hfirst (Some AF_UNSPEC) (PyText "example.com") example_hostent
             "93.184.216.34" ["93.184.216.35"] _ eq_refl eq_refl eq_refl).
Defined.

(** ** Reverse lookups (C10) *)

(** C10 as stated fails: the engine rejects b'example.com' as an address
    and the forward lookup yields no record; the caller gets the
    [gaierror] of the forward lookup, not the [InvalidIP]. *)
Lemma gethostbyaddr_fallback_counterexample :
  let run := gethostbyaddr linux_py3 engine_nothing native_none encode_ascii
               resolve_plain 1 (PyText "example.com") (init 100) in
  outcome (eng_gethostbyaddr engine_nothing 0%nat 0%nat (PyBytes "example.com"))
  = Raise (InvalidIP "b'example.com'") /\
  outcome (eng_getaddrinfo engine_nothing 1%nat 0%nat "example.com" PyNone
             AF_UNSPEC SOCK_DGRAM 0 0) = Ok [] /\
  option_map fst run
  = Some (Raise (gaierror (-2) "Name or service not known" (-2))) /\
  option_map fst run <> Some (Raise (InvalidIP "b'example.com'")).
Proof.
  cbv zeta. repeat split; try reflexivity. vm_compute. discriminate.
Qed.

(** The address found differs from the input: one second reverse query,
    on the first waiter, after it is cleared. The native resolver finds
    nothing for b'localhost', or the engine finds the input itself: the
    [InvalidIP] comes back and the reverse query stays the only one. *)
Lemma gethostbyaddr_fallback_witness :
  (exists st3,
     _gethostbyaddr linux_py3 engine_one native_none encode_ascii
       (PyText "example.com") (init 100) = (Ok example_hostent, st3) /\
     trace st3
     = [EvQuery 0%nat 0%nat (Qgethostbyaddr (PyBytes "93.184.216.34"));
        EvClear 0%nat;
        EvQuery 0%nat 1%nat
          (Qgetaddrinfo "example.com" PyNone AF_UNSPEC SOCK_DGRAM 0 0);
        EvQuery 0%nat 0%nat (Qgethostbyaddr (PyBytes "example.com"))] /\
     reverse_queries (trace st3) = 2%nat)
  /\
  (exists st2,
     gethostbyaddr_loop linux_py3 engine_nothing native_empty encode_ascii 1
       (PyText "localhost") (init 100)
     = Some (Raise (InvalidIP "b'example.com'"), st2) /\
     reverse_queries (trace st2) = 1%nat)
  /\
  (let echo :=
     engine_of (fun _ => quiet (Raise host_not_found))
               (fun _ => quiet (Ok [record_v4 "example.com" 0]))
               (fun _ => quiet (Raise (InvalidIP "b'example.com'")))
               (fun _ => quiet (Raise eai_again)) in
   exists st2,
     gethostbyaddr_loop linux_py3 echo native_none encode_ascii 1
       (PyText "example.com") (init 100)
     = Some (Raise (InvalidIP "b'example.com'"), st2) /\
     reverse_queries (trace st2) = 1%nat).
Proof.
  split; [|split].
  - destruct (gethostbyaddr_fallback linux_py3 engine_one native_none encode_ascii
                (PyText "example.com") "example.com" (init 100) 0%nat
                "b'example.com'" eq_refl eq_refl eq_refl)
      as [_ [_ [Hfirst _]]].
    destruct (Hfirst _ _ (PyText "93.184.216.34")
                [PyInt 80] (PyBytes "93.184.216.34") eq_refl eq_refl eq_refl)
      as [_ Hdiff].
    destruct (Hdiff eq_refl 0%nat eq_refl) as [Hrun [Htrace Hcount]].
    eexists. split; [exact Hrun|]. split; [exact Htrace|exact Hcount].
  - destruct (gethostbyaddr_fallback linux_py3 engine_nothing native_empty
                encode_ascii (PyText "localhost") "localhost" (init 100) 0%nat
                "b'example.com'" eq_refl eq_refl eq_refl)
      as [[Hcount _] [Hempty _]].
    destruct (Hempty eq_refl) as [_ Hloop].
    eexists. split; [exact (Hloop 0%nat)|exact Hcount].
  - intro echo.
    destruct (gethostbyaddr_fallback linux_py3 echo native_none encode_ascii
                (PyText "example.com") "example.com" (init 100) 0%nat
                "b'example.com'" eq_refl eq_refl eq_refl)
      as [[Hcount _] [_ [Hfirst _]]].
    destruct (Hfirst _ _ (PyText "example.com")
                [PyInt 0] (PyBytes "example.com") eq_refl eq_refl eq_refl)
      as [Hsame _].
    destruct (Hsame eq_refl) as [_ Hloop].
    eexists. split; [exact (Hloop 0%nat)|exact Hcount].
Defined.

(** * Concrete runs of the further properties *)

Lemma close_idempotent_witness :
  callbacks (close (close (init 100))) = [0%nat] /\
  channel_inv (close (init 100)).
Proof.
  destruct (close_idempotent (init 100)) as [Hidem [_ [_ [Hq Hinv]]]].
  split.
  - rewrite Hidem, Hq. reflexivity.
  - apply Hinv. apply channel_inv_init.
Defined.

Lemma on_fork_swaps_once_witness :
  _on_fork 100 (init 100) = init 100 /\
  cares (_on_fork 101 (init 100)) = Some 1%nat /\
  callbacks (_on_fork 101 (init 100)) = [0%nat] /\
  _on_fork 101 (_on_fork 101 (init 100)) = _on_fork 101 (init 100).
Proof.
  destruct (on_fork_swaps_once 100 (init 100)) as [Hsame _].
  destruct (on_fork_swaps_once 101 (init 100)) as [_ [Hswap Hidem]].
  destruct (Hswap 0%nat) as [Hc [_ [_ [Hq _]]]];
    [discriminate|reflexivity|apply channel_inv_init|].
  split; [exact (Hsame eq_refl)|]. split; [exact Hc|]. split; [exact Hq|exact Hidem].
Defined.

Lemma operations_keep_channels_witness :
  match getaddrinfo linux_py3 engine_forked native_none encode_ascii 2
          (PyBytes "example.com") (PyInt 80) 0 0 0 0 (init 100) with
  | Some (_, st') =>
      callbacks st' = [0%nat] /\ cares st' = Some 1%nat /\ channel_inv st'
  | None => False
  end.
Proof.
  destruct (getaddrinfo linux_py3 engine_forked native_none encode_ascii 2
              (PyBytes "example.com") (PyInt 80) 0 0 0 0 (init 100))
    as [[r st']|] eqn:Hrun; [|vm_compute in Hrun; discriminate].
  pose proof (proj1 (proj2 (proj2
                (operations_keep_channels linux_py3 engine_forked native_none
                   native_host_none encode_ascii resolve_plain 2 (init 100)
                   st' (channel_inv_init 100)))) _ _ _ _ _ _ _ Hrun) as Hinv.
  vm_compute in Hrun. injection Hrun as _ <-.
  split; [reflexivity|]. split; [reflexivity|exact Hinv].
Defined.

Lemma retries_bounded_by_forks_witness :
  quiet_from engine_forked 1 /\
  exists r,
    getnameinfo linux_py3 engine_forked native_none encode_ascii 2
      (PyTuple [PyText "example.com"; PyInt 80]) (PyInt 0) (init 100) = Some r.
Proof.
  assert (Hq : quiet_from engine_forked 1).
  { repeat split; intros t; intros; destruct t as [|t];
      try apply Nat.lt_0_1; discriminate. }
  split; [exact Hq|].
  destruct (retries_bounded_by_forks linux_py3 engine_forked native_none
              native_host_none encode_ascii resolve_plain 1 2 (init 100) Hq)
    as [_ [_ [_ [_ Hgni]]]].
  - simpl. apply Nat.lt_succ_diag_r.
  - apply Hgni.
Defined.

Lemma success_is_never_retried_witness :
  (let run := getaddrinfo linux_py3 engine_forked_ok native_none encode_ascii 1
                (PyBytes "example.com") (PyInt 80) 0 SOCK_STREAM 0 0 (init 100) in
   option_map fst run
   = Some (Ok [{| ai_family := AF_INET; ai_socktype := SOCK_STREAM;
                  ai_proto := SOL_TCP; ai_canonname := "";
                  ai_sockaddr := [PyText "93.184.216.34"; PyInt 80] |}]) /\
   option_map (fun x => cares (snd x)) run = Some (Some 1%nat))
  /\
  option_map fst
    (gethostbyname_ex linux_py3 engine_forked_ok native_host_none encode_ascii 1
       (PyText "example.com") None (init 100))
  = Some (Ok example_hostent)
  /\
  option_map fst
    (gethostbyaddr linux_py3 engine_forked_ok native_none encode_ascii
       resolve_plain 1 (PyText "93.184.216.34") (init 100))
  = Some (Ok example_hostent)
  /\
  option_map fst
    (getnameinfo linux_py3 engine_forked_ok native_none encode_ascii 1
       (PyTuple [PyText "example.com"; PyInt 80]) (PyInt 0) (init 100))
  = Some (Ok (Some "example.com", "http")).
Proof.
  destruct (success_is_never_retried linux_py3 engine_forked_ok native_none
              native_host_none encode_ascii resolve_plain 0 (init 100) 0%nat
              eq_refl) as [Hgai [Hhbn [Hhba Hgni]]].
  split; [|split; [|split]].
  - cbv zeta.
    rewrite (Hgai "example.com" (PyInt 80) (PyBytes "80") 0 SOCK_STREAM 0 0
               (record_v4 "93.184.216.34" 80) []
               eq_refl eq_refl eq_refl eq_refl).
    split; reflexivity.
  - rewrite (Hhbn (PyText "example.com") "example.com" None example_hostent
               "93.184.216.34" ["93.184.216.35"] eq_refl eq_refl eq_refl eq_refl).
    reflexivity.
  - rewrite (Hhba (PyText "93.184.216.34") (PyText "93.184.216.34")
               "93.184.216.34" example_hostent eq_refl eq_refl eq_refl).
    reflexivity.
  - rewrite (Hgni (PyText "example.com") "example.com" 80 [] 0
               (record_v4 "93.184.216.34" 80) _
               [PyText "93.184.216.34"; PyInt 80] 1%nat
               (Some "example.com") (Some "http")
               eq_refl eq_refl eq_refl eq_refl eq_refl eq_refl eq_refl).
    reflexivity.
Defined.


Lemma gethostbyname_ex_has_address_witness :
  gethostbyname linux_py3 engine_one native_host_none encode_ascii resolve_plain 1
    (PyText "example.com") None (init 100)
  = Some (Ok "93.184.216.34",
          after_query (init 100) 0%nat (Qgethostbyname "example.com" AF_INET)
            (quiet (Ok example_hostent))).
Proof.
  destruct (gethostbyname_ex_has_address linux_py3 engine_one native_host_none
              encode_ascii resolve_plain 1 (PyText "example.com") None
              (PyText "example.com") "example.com" (init 100) example_hostent
              (after_query (init 100) 0%nat (Qgethostbyname "example.com" AF_INET)
                 (quiet (Ok example_hostent)))
              eq_refl eq_refl eq_refl eq_refl) as [a [rest [Ha Hrun]]].
  rewrite Hrun. injection Ha as <- _. reflexivity.
Defined.

Lemma gethostbyname_ex_no_address_witness :
  option_map fst
    (gethostbyname_ex linux_py3 engine_no_address native_host_none encode_ascii 1
       (PyText "example.com") None (init 100))
  = Some (Raise (herror (-2) "Name or service not known")).
Proof.
  destruct (gethostbyname_ex_no_address linux_py3 engine_no_address
              native_host_none encode_ascii 0 (PyText "example.com") "example.com"
              None (init 100) 0%nat
              {| h_name := "example.com"; h_aliases := []; h_addrs := [] |}
              eq_refl eq_refl eq_refl eq_refl eq_refl) as [Hsame _].
  rewrite (Hsame eq_refl). reflexivity.
Defined.

Lemma getaddrinfo_native_cases_witness :
  getaddrinfo linux_py3 engine_one native_none encode_ascii 1
    PyNone (PyInt 80) 0 0 0 0 (init 100)
  = Some (native_none PyNone (PyInt 80) 0 0 0 0, init 100)
  /\
  getaddrinfo linux_py3 engine_one native_none encode_ascii 1
    (PyByteArray "example.com") (PyInt 80) 0 0 0 0 (init 100)
  = Some (native_none (PyByteArray "example.com") (PyInt 80) 0 0 0 0, init 100)
  /\
  getaddrinfo linux_py3 engine_one native_none encode_ascii 1
    (PyText "192.0.2.1") (PyInt 80) 0 0 0 AI_NUMERICHOST (init 100)
  = Some (native_none (PyBytes "192.0.2.1") (PyInt 80) 0 0 0 AI_NUMERICHOST,
          init 100).
Proof.
  split; [|split].
  - apply (proj1 (getaddrinfo_native_cases linux_py3 engine_one native_none
                    encode_ascii 0 PyNone (PyInt 80) 0 0 0 0 (init 100)));
      discriminate.
  - apply (proj1 (getaddrinfo_native_cases linux_py3 engine_one native_none
                    encode_ascii 0 (PyByteArray "example.com") (PyInt 80)
                    0 0 0 0 (init 100))); discriminate.
  - apply (proj2 (getaddrinfo_native_cases linux_py3 engine_one native_none
                    encode_ascii 0 (PyText "192.0.2.1") (PyInt 80)
                    0 0 0 AI_NUMERICHOST (init 100)) "192.0.2.1");
      [reflexivity|discriminate].
Defined.

Lemma text_host_is_its_encoding_witness :
  getaddrinfo linux_py3 engine_one native_none encode_ascii 1
    (PyText "example.com") (PyInt 80) 0 0 0 0 (init 100)
  = getaddrinfo linux_py3 engine_one native_none encode_ascii 1
      (PyBytes "example.com") (PyInt 80) 0 0 0 0 (init 100)
  /\
  gethostbyname_ex linux_py3 engine_one native_host_none encode_ascii 1
    (PyText "example.com") None (init 100)
  = gethostbyname_ex linux_py3 engine_one native_host_none encode_ascii 1
      (PyBytes "example.com") None (init 100)
  /\
  getaddrinfo linux_py3 engine_one native_none
    (fun _ _ => Raise (OtherError "UnicodeError" "label too long")) 1
    (PyText "example.com") (PyInt 80) 0 0 0 0 (init 100)
  = Some (Raise (OtherError "UnicodeError" "label too long"), init 100).
Proof.
  destruct (text_host_is_its_encoding linux_py3 engine_one native_none
              native_host_none encode_ascii "example.com" "example.com" 1
              (init 100)) as [Hgai [_ [Hhbn _]]].
  destruct (text_host_is_its_encoding linux_py3 engine_one native_none
              native_host_none
              (fun _ _ => Raise (OtherError "UnicodeError" "label too long"))
              "example.com" "example.com" 0 (init 100)) as [_ [Hbad _]].
  split; [|split].
  - exact (Hgai eq_refl (PyInt 80) 0 0 0 0).
  - exact (Hhbn eq_refl None).
  - exact (Hbad _ (PyInt 80) 0 0 0 0 eq_refl).
Defined.

Lemma getaddrinfo_records_are_filled_witness :
  exists out,
    option_map fst
      (getaddrinfo linux_py3 engine_one native_none encode_ascii 1
         (PyBytes "example.com") (PyInt 80) 0 0 SOL_UDP 0 (init 100))
    = Some (Ok out) /\
    Forall (fun r => ai_socktype r <> 0 /\ ai_proto r <> 0) out /\
    map ai_socktype out = [SOCK_DGRAM].
Proof.
  eexists. split; [reflexivity|]. split; [|reflexivity].
  eapply (getaddrinfo_records_are_filled linux_py3 engine_one native_none
            encode_ascii "example.com" (PyInt 80) (PyBytes "80") 0 0 SOL_UDP 0
            eq_refl eq_refl eq_refl 1 (init 100)).
  reflexivity.
Defined.

Lemma backfill_keeps_records_witness :
  let r := {| ai_family := AF_INET; ai_socktype := SOCK_STREAM;
              ai_proto := SOL_TCP; ai_canonname := "example.com";
              ai_sockaddr := [PyText "93.184.216.34"; PyInt 80] |} in
  backfill 0 0 [r] = [r; r] /\ backfill SOCK_DGRAM 0 [r] = [r].
Proof.
  intro r.
  assert (Hset : Forall (fun x => ai_socktype x <> 0 /\ ai_proto x <> 0) [r]).
  { constructor; [split; discriminate|constructor]. }
  split.
  - exact (proj2 (backfill_keeps_records 0 0 [r]) Hset).
  - exact (proj2 (backfill_keeps_records SOCK_DGRAM 0 [r]) Hset).
Defined.


Lemma getnameinfo_ipv4_needs_pair_witness :
  option_map fst
    (getnameinfo linux_py3 engine_one native_none encode_ascii 1
       (PyTuple [PyText "example.com"; PyInt 80; PyInt 0; PyInt 0]) (PyInt 0)
       (init 100))
  = Some (Raise (error "IPv4 sockaddr must be 2 tuple")).
Proof.
  rewrite (getnameinfo_ipv4_needs_pair linux_py3 engine_one native_none
             encode_ascii 0 (PyText "example.com") "example.com" 80 (PyInt 0)
             [PyInt 0] 0 (init 100) (record_v4 "93.184.216.34" 80) _
             eq_refl eq_refl eq_refl eq_refl).
  reflexivity.
Defined.

Lemma getnameinfo_address_shaping_witness :
  trace (snd (_getnameinfo linux_py3 engine_v6 native_none encode_ascii
                (PyBytes "example.com") (PyInt 80)
                [PyText "example.com"; PyInt 80; PyInt 7; PyInt 2] 0 (init 100)))
  = [EvQuery 0%nat 1%nat
       (Qgetnameinfo [PyText "2606:2800:220:1::1"; PyInt 80; PyInt 7; PyInt 2] 0);
     EvQuery 0%nat 0%nat
       (Qgetaddrinfo "example.com" (PyBytes "80") AF_UNSPEC SOCK_DGRAM 0 0)].
Proof.
  destruct (getnameinfo_address_shaping linux_py3 engine_v6 native_none
              encode_ascii (PyText "example.com") "example.com" 80
              [PyInt 7; PyInt 2] 0 (init 100) _ _ 0%nat eq_refl eq_refl)
    as [Hv6 _].
  exact (Hv6 eq_refl ltac:(discriminate)).
Defined.

Lemma getnameinfo_service_never_empty_witness :
  match getnameinfo linux_py3 engine_blank_service native_none encode_ascii 1
          (PyTuple [PyText "example.com"; PyInt 80]) (PyInt 0) (init 100) with
  | Some (Ok (node, s), _) => node = Some "example.com" /\ s = "0" /\ s <> ""
  | _ => False
  end.
Proof.
  destruct (getnameinfo linux_py3 engine_blank_service native_none encode_ascii 1
              (PyTuple [PyText "example.com"; PyInt 80]) (PyInt 0) (init 100))
    as [[[[node s]|e] st']|] eqn:Hrun;
    try (vm_compute in Hrun; discriminate).
  pose proof (getnameinfo_service_never_empty linux_py3 engine_blank_service
                native_none encode_ascii _ _ _ _ _ _ _ Hrun) as Hne.
  vm_compute in Hrun. injection Hrun as <- <- _.
  split; [reflexivity|]. split; [reflexivity|exact Hne].
Defined.

Lemma getnameinfo_rejects_before_dispatch_witness :
  (exists e, forall fuel st,
       getnameinfo linux_py3 engine_one native_none encode_ascii fuel
         (PyTuple [PyText "example.com"; PyInt 80; PyInt 1048576]) (PyInt 0) st
       = Some (Raise e, st)) /\
  (exists e, forall fuel st,
       getnameinfo linux_py3 engine_v6 native_none encode_ascii fuel
         (PyTuple [PyText "example.com"; PyInt 80; two_to_the_21]) (PyInt 0) st
       = Some (Raise e, st)) /\
  (exists e, forall fuel st,
       getnameinfo linux_py3 engine_v6 native_none encode_ascii fuel
         (PyTuple [PyText "example.com"; PyInt 80; PyNone]) (PyInt 0) st
       = Some (Raise e, st)) /\
  check_flowinfo linux_py3 [PyInt 1048575] = Ok tt /\
  check_flowinfo linux_py3 [one_and_a_half] = Ok tt /\
  check_flowinfo linux_py2 [PyNone] = Ok tt /\
  option_map (fun x => trace (snd x))
    (getnameinfo linux_py3 engine_v6 native_none encode_ascii 1
       (PyTuple [PyText "example.com"; PyInt 80; one_and_a_half]) (PyInt 0)
       (init 100))
  = Some [EvQuery 0%nat 1%nat
            (Qgetnameinfo [PyText "2606:2800:220:1::1"; PyInt 80; one_and_a_half] 0);
          EvQuery 0%nat 0%nat
            (Qgetaddrinfo "example.com" (PyBytes "80") AF_UNSPEC SOCK_DGRAM 0 0)].
Proof.
  split; [|split; [|split; [|split; [|split; [|split]]]]].
  - apply (proj1 (getnameinfo_rejects_before_dispatch linux_py3 engine_one
                    native_none encode_ascii
                    (PyTuple [PyText "example.com"; PyInt 80; PyInt 1048576])
                    (PyInt 0))).
    intros [host [b [p [rest [f [Hs [_ [_ Hk]]]]]]]].
    injection Hs as _ _ <-. discriminate.
  - apply (proj1 (getnameinfo_rejects_before_dispatch linux_py3 engine_v6
                    native_none encode_ascii
                    (PyTuple [PyText "example.com"; PyInt 80; two_to_the_21])
                    (PyInt 0))).
    intros [host [b [p [rest [f [Hs [_ [_ Hk]]]]]]]].
    injection Hs as _ _ <-. discriminate.
  - apply (proj1 (getnameinfo_rejects_before_dispatch linux_py3 engine_v6
                    native_none encode_ascii
                    (PyTuple [PyText "example.com"; PyInt 80; PyNone])
                    (PyInt 0))).
    intros [host [b [p [rest [f [Hs [_ [_ Hk]]]]]]]].
    injection Hs as _ _ <-. discriminate.
  - apply (proj1 (proj2 (getnameinfo_rejects_before_dispatch linux_py3
                           engine_one native_none encode_ascii PyNone PyNone))
             1048575 []).
    discriminate.
  - apply (proj1 (proj2 (proj2 (getnameinfo_rejects_before_dispatch linux_py3
                                  engine_one native_none encode_ascii
                                  PyNone PyNone)))
             3 2%positive []).
    discriminate.
  - apply (proj2 (proj2 (proj2 (getnameinfo_rejects_before_dispatch linux_py2
                                  engine_one native_none encode_ascii
                                  PyNone PyNone)))
             PyNone []); [discriminate|discriminate|reflexivity].
  - reflexivity.
Defined.

Lemma closed_resolver_raises_witness :
  getaddrinfo linux_py3 engine_one native_none encode_ascii 1
    (PyBytes "example.com") (PyInt 80) 0 0 0 0 (close (init 100))
  = Some (Raise (AttributeError "'NoneType' object has no attribute"),
          snd (new_waiter (close (init 100))))
  /\
  trace (snd (new_waiter (close (init 100)))) = [].
Proof.
  destruct (closed_resolver_raises linux_py3 engine_one native_none
              native_host_none encode_ascii resolve_plain 0 (init 100))
    as [Hgai [_ [_ [_ [Htr _]]]]].
  split.
  - exact (Hgai "example.com" (PyInt 80) (PyBytes "80") 0 0 0 0
             eq_refl eq_refl eq_refl).
  - exact Htr.
Defined.

Lemma gethostbyname_ex_special_names_witness :
  gethostbyname_ex linux_py3 engine_one native_host_none encode_ascii 0
    (PyText "<broadcast>") (Some 10) (close (init 100))
  = Some (native_host_none "<broadcast>", close (init 100)).
Proof.
  apply (gethostbyname_ex_special_names linux_py3 engine_one native_host_none
           encode_ascii 0 (PyText "<broadcast>") "<broadcast>" (Some 10)
           (close (init 100))).
  - reflexivity.
  - right. right. right. left. reflexivity.
Defined.

